(** * mysql-router: topology resolver and bootstrap provisioner

    A shallow embedding of
    - [src/metadata_cache/src/group_replication_metadata.cc]
      (the group-replication topology resolver), and
    - the scripts and expectations of [src/router/tests/test_config_generator.cc],
    - the string, number and user helpers of [src/router/src/utils.cc],
    followed by the properties proved about them. *)

From Stdlib Require Import ZArith String Ascii List Lia.
From stdpp Require Import base option list gmap strings pretty.

Open Scope string_scope.

(* ===================================================================== *)
(** * Part I. Definitions                                                 *)
(* ===================================================================== *)

(** ** C strings, rows and the session boundary *)

(** [MySQLSession::Row] is a [std::vector<const char*>]: a field is either a
    NUL-terminated string or the null pointer. *)
Definition Row : Type := list (option string).

(** What [printf("%s")] shows for a field (glibc prints a null pointer as
    the text (null)). *)
Definition show_field (f : option string) : string :=
  match f with
  | Some s => s
  | None => "(null)"
  end.

(** The two exception classes that travel through the resolver; nothing in
    it throws anything else, so the [catch (...)] clauses are never
    entered. *)
Inductive exception : Type :=
| Error (what : string) (code : Z)      (* MySQLSession::Error *)
| metadata_error (what : string).       (* metadata_cache::metadata_error *)

Definition what (e : exception) : string :=
  match e with
  | Error w _ => w
  | metadata_error w => w
  end.

(** Result of running a piece of code: it returns, it throws, or a failed
    [assert] stops the process. *)
Inductive outcome (A : Type) : Type :=
| Return (a : A)
| Throw (e : exception)
| Abort.
Arguments Return {A} a.
Arguments Throw {A} e.
Arguments Abort {A}.

Definition is_Return {A} (o : outcome A) : bool :=
  match o with
  | Return _ => true
  | _ => false
  end.

(** The logger: level and formatted text, oldest entry first. *)
Inductive log_level : Type := LogWarning | LogInfo.
Definition log_entry : Type := (log_level * string)%type.

(** What a server answers to one statement: an error (message, code) or a
    result set. *)
Definition reply : Type := ((string * Z) + list Row)%type.

(** A row processor threads a state of type [St] (the variables its lambda
    captures by reference) and either asks for more rows ([true]), stops
    ([false]), or throws. *)
Definition RowProcessor (St : Type) : Type := St -> Row -> St * outcome bool.

(** Modelled from the spec: [MySQLSession::query(sql, processor)], whose body
    (mysql_session.cc) is not part of the sources at hand.  By the call
    contract of the session boundary the rows come back in order and each is
    handed to the processor until it returns [false] or throws. *)
Fixpoint feed_rows {St} (processor : RowProcessor St) (rows : list Row) (st : St)
  : St * outcome unit :=
  match rows with
  | [] => (st, Return tt)
  | row :: rest =>
      match processor st row with
      | (st', Return true) => feed_rows processor rest st'
      | (st', Return false) => (st', Return tt)
      | (st', Throw e) => (st', Throw e)
      | (st', Abort) => (st', Abort)
      end
  end.

(** ** Integer conversions used by the resolver *)

Definition isspace (c : ascii) : bool :=
  let n := nat_of_ascii c in
  (n =? 32)%nat || ((9 <=? n)%nat && (n <=? 13)%nat).

Definition digit_of (c : ascii) : option Z :=
  let n := nat_of_ascii c in
  if ((48 <=? n)%nat && (n <=? 57)%nat)%bool then Some (Z.of_nat (n - 48)) else None.

Fixpoint skip_space (s : string) : string :=
  match s with
  | String c s' => if isspace c then skip_space s' else s
  | EmptyString => s
  end.

(** Value of the longest prefix of decimal digits, accumulated from [acc]. *)
Fixpoint digits_value (s : string) (acc : Z) : Z :=
  match s with
  | String c s' =>
      match digit_of c with
      | Some d => digits_value s' (10 * acc + d)%Z
      | None => acc
      end
  | EmptyString => acc
  end.

(** [strtol(s, nullptr, 10)] on a 64-bit [long]: blanks, a sign, digits, and
    saturation at the ends of the range. *)
Definition strtol (s : string) : Z :=
  let v :=
    match skip_space s with
    | String "-"%char s' => (- digits_value s' 0)%Z
    | String "+"%char s' => digits_value s' 0%Z
    | s' => digits_value s' 0%Z
    end in
  Z.max (- 2 ^ 63)%Z (Z.min (2 ^ 63 - 1)%Z v).

(** Two's complement narrowing to a signed 32-bit [int]. *)
Definition to_int (v : Z) : Z := ((v + 2 ^ 31) mod 2 ^ 32 - 2 ^ 31)%Z.

(** [std::atoi], which glibc computes as [(int) strtol(s, nullptr, 10)]
    (the C standard leaves a value out of range undefined). *)
Definition atoi (s : string) : Z := to_int (strtol s).

(** [static_cast<uint16_t>]. *)
Definition to_uint16 (v : Z) : Z := (v mod 2 ^ 16)%Z.

(** ** group_replication_metadata.cc *)

(** Modelled from the spec: [struct GroupReplicationMember], declared in
    group_replication_metadata.h, which is not part of the sources at hand:
    the member of section 3, with the fields and enumerators that the
    function assigns. *)
Module GroupReplicationMember.

Inductive State : Type := Online | Recovering | Unreachable | Offline | Other.
Inductive Role : Type := Primary | Secondary.

Record t : Type := Build {
  member_id : string;
  host : string;
  port : Z;
  state : State;
  role : Role
}.

End GroupReplicationMember.

Import GroupReplicationMember.
Abbreviation GroupReplicationMember := GroupReplicationMember.t.

Definition primary_member_query : string :=
  "show status like 'group_replication_primary_member'".

Definition members_query : string :=
  "SELECT member_id, member_host, member_port, member_state, @@group_replication_single_primary_mode"
  +:+ " FROM performance_schema.replication_group_members"
  +:+ " WHERE channel_name = 'group_replication_applier'".

(** The lambda of [find_group_replication_primary_member]; it captures
    [primary_member] by reference.  [NDEBUG] tells whether [assert] is
    compiled out; with assertions on, a first field that is null or differs
    from the variable name stops the process. *)
Definition primary_member_processor (NDEBUG : bool) : RowProcessor string :=
  fun primary_member row =>
    if negb (length row =? 2)%nat then
      (primary_member,
       Throw (metadata_error ("Unexpected number of fields in the status response. "
                              +:+ "Expected = 2, got = " +:+ pretty (length row))))
    else if negb NDEBUG
            && negb (bool_decide (row !! 0%nat = Some (Some "group_replication_primary_member")))
    then (primary_member, Abort)
    else
      (match row !! 1%nat with
       | Some (Some v) => v
       | _ => ""
       end,
       Return false).

(** [row[4] && (strcmp(row[4], "1") == 0 || strcmp(row[4], "ON") == 0)] *)
Definition single_primary_mode (flag : option string) : bool :=
  match flag with
  | Some f => String.eqb f "1" || String.eqb f "ON"
  | None => false
  end.

(** The chain of [strcmp] tests on [member_state]; the second component tells
    whether the state was recognised. *)
Definition member_state_of (member_state : string) : State * bool :=
  if String.eqb member_state "ONLINE" then (Online, true)
  else if String.eqb member_state "OFFLINE" then (Offline, true)
  else if String.eqb member_state "UNREACHABLE" then (Unreachable, true)
  else if String.eqb member_state "RECOVERING" then (Recovering, true)
  else (Other, false).

(** [if (primary_member == member.member_id || !single_master)] *)
Definition member_role (primary_member member_id : string) (single_master : bool) : Role :=
  if String.eqb primary_member member_id || negb single_master then Primary else Secondary.

(** What the lambda of [fetch_group_replication_members] captures by
    reference, together with the logger. *)
Record fetch_state : Type := FetchState {
  members : gmap string GroupReplicationMember;
  single_master : bool;
  logged : list log_entry
}.

Definition members_processor (primary_member : string) : RowProcessor fetch_state :=
  fun st row =>
    match row with
    | [member_id; member_host; member_port; member_state; flag] =>
        let single_master := single_primary_mode flag in
        match member_id, member_host, member_port, member_state with
        | Some member_id, Some member_host, Some member_port, Some member_state =>
            let '(state, known) := member_state_of member_state in
            let logged :=
              if known then logged st
              else (logged st ++
                    [(LogInfo, "Unknown state " +:+ member_state
                               +:+ " in replication_group_members table for " +:+ member_id)])%list in
            let member :=
              Build member_id member_host (to_uint16 (atoi member_port)) state
                    (member_role primary_member member_id single_master) in
            (FetchState (<[member_id := member]> (members st)) single_master logged,
             Return true)
        | _, _, _, _ =>
            (FetchState (members st) single_master
               (logged st ++
                [(LogWarning,
                  "Query " +:+ members_query +:+ " returned "
                  +:+ show_field member_id +:+ ", " +:+ show_field member_host +:+ ", "
                  +:+ show_field member_port +:+ ", " +:+ show_field member_state +:+ ", "
                  +:+ show_field flag)])%list,
             Throw (metadata_error "Unexpected value in group_replication_metadata query results"))
        end
    | _ =>
        (st,
         Throw (metadata_error
                  ("Unexpected number of fields in resultset from group_replication query. "
                   +:+ "Expected = 5, got = " +:+ pretty (length row))))
    end.

(** The [catch] clauses around both calls of [connection.query]: a session
    error is rethrown as a [metadata_error] with the same text, a
    [metadata_error] passes through. *)
Definition rethrow {A} (o : outcome A) : outcome A :=
  match o with
  | Throw (Error w _) => Throw (metadata_error w)
  | o => o
  end.

Section Resolver.

(** The connection: any state [Conn] with a function that runs one statement
    on it. *)
Context {Conn : Type}.
Variable run : Conn -> string -> Conn * reply.
Variable NDEBUG : bool.

(** [connection.query(sql, processor)] *)
Definition query {St} (c : Conn) (sql : string) (processor : RowProcessor St) (st : St)
  : Conn * St * outcome unit :=
  match run c sql with
  | (c', inl (msg, code)) => (c', st, Throw (Error msg code))
  | (c', inr rows) => let '(st', o) := feed_rows processor rows st in (c', st', o)
  end.

Definition find_group_replication_primary_member (c : Conn) : Conn * outcome string :=
  let '(c', primary_member, o) :=
    query c primary_member_query (primary_member_processor NDEBUG) "" in
  match rethrow o with
  | Return _ => (c', Return primary_member)
  | Throw e => (c', Throw e)
  | Abort => (c', Abort)
  end.

(** The function returns the map; [single_master] is the caller's variable,
    written through the reference, and the logger keeps what was logged even
    when the function throws. *)
Record fetch_result : Type := FetchResult {
  connection : Conn;
  single_master_out : bool;
  log_out : list log_entry;
  returned : outcome (gmap string GroupReplicationMember)
}.

Definition fetch_group_replication_members (c : Conn) (single_master : bool) : fetch_result :=
  match find_group_replication_primary_member c with
  | (c1, Return primary_member) =>
      let '(c2, FetchState members single_master logged, o) :=
        query c1 members_query (members_processor primary_member)
              (FetchState ∅ single_master []) in
      FetchResult c2 single_master logged
        match rethrow o with
        | Return _ => Return members
        | Throw e => Throw e
        | Abort => Abort
        end
  | (c1, Throw e) => FetchResult c1 single_master [] (Throw e)
  | (c1, Abort) => FetchResult c1 single_master [] Abort
  end.

End Resolver.

(** ** Vocabulary of the statements about the resolver *)

(** A row the members lambda accepts: five fields, of which the first four
    are not null. *)
Definition well_formed (row : Row) : Prop :=
  exists id h pt s flag, row = [Some id; Some h; Some pt; Some s; flag].

(** The member the lambda builds from the fields of an accepted row. *)
Definition member_of (primary_member id h pt s : string) (flag : option string)
  : GroupReplicationMember :=
  Build id h (to_uint16 (atoi pt)) (fst (member_state_of s))
        (member_role primary_member id (single_primary_mode flag)).

(** The fifth field of a row, null when the row is shorter. *)
Definition flag_of (row : Row) : option string := mjoin (row !! 4%nat).

(** What the lambda writes to the log for an accepted row: one line when
    the state is not recognised, nothing otherwise. *)
Definition unknown_state_log (row : Row) : list log_entry :=
  match row with
  | [Some id; _; _; Some s; _] =>
      if snd (member_state_of s) then []
      else [(LogInfo, "Unknown state " +:+ s
                      +:+ " in replication_group_members table for " +:+ id)]
  | _ => []
  end.

(** The role rule in the words of the specification, for a flag value [b]. *)
Definition role_rule (b : bool) (primary_member id : string) (r : Role) : Prop :=
  if b then (r = Primary <-> id = primary_member) /\ (id <> primary_member -> r = Secondary)
  else r = Primary.

(** Modelled from the spec: [MySQLSessionReplayer], the scripted session of
    the tests (mysql_session_replayer.cc is not part of the sources at hand),
    as the tests use it.  It holds the expected calls in order.  A call is
    answered by the head of the script when it is of the expected kind and
    its statement starts with the expected text; any other call is refused
    and leaves the script as it is. *)
Inductive CallType : Type := Execute | QueryOne | Query.

Record CallInfo : Type := {
  call_type : CallType;
  call_sql : string;
  call_error : option (string * Z);
  call_rows : list Row;
  call_last_insert_id : Z
}.

Definition MySQLSessionReplayer : Type := list CallInfo.

Definition CallType_eqb (a b : CallType) : bool :=
  match a, b with
  | Execute, Execute | QueryOne, QueryOne | Query, Query => true
  | _, _ => false
  end.

Definition next_call (t : CallType) (script : MySQLSessionReplayer) (sql : string)
  : MySQLSessionReplayer * ((string * Z) + CallInfo) :=
  match script with
  | [] => ([], inl ("Unexpected call (" +:+ sql +:+ ")", 0%Z))
  | info :: rest =>
      if CallType_eqb t (call_type info) && String.prefix (call_sql info) sql then
        match call_error info with
        | Some e => (rest, inl e)
        | None => (rest, inr info)
        end
      else (script, inl ("Unexpected/out-of-order call (" +:+ sql +:+ ")", 0%Z))
  end.

(** [query] on the replayer. *)
Definition replay (script : MySQLSessionReplayer) (sql : string)
  : MySQLSessionReplayer * reply :=
  match next_call Query script sql with
  | (script', inl e) => (script', inl e)
  | (script', inr info) => (script', inr (call_rows info))
  end.

(** [expect_query(sql).then_return(_, rows)] and its siblings. *)
Definition expect_query (sql : string) (rows : list Row) : CallInfo :=
  {| call_type := Query; call_sql := sql; call_error := None; call_rows := rows;
     call_last_insert_id := 0 |}.

Definition expect_query_one (sql : string) (rows : list Row) : CallInfo :=
  {| call_type := QueryOne; call_sql := sql; call_error := None; call_rows := rows;
     call_last_insert_id := 0 |}.

Definition expect_execute (sql : string) (last_insert_id : Z) : CallInfo :=
  {| call_type := Execute; call_sql := sql; call_error := None; call_rows := [];
     call_last_insert_id := last_insert_id |}.

Definition expect_execute_error (sql msg : string) (code : Z) : CallInfo :=
  {| call_type := Execute; call_sql := sql; call_error := Some (msg, code); call_rows := [];
     call_last_insert_id := 0 |}.

(** A session that also records the statements it was asked to run. *)
Definition traced {Conn} (run : Conn -> string -> Conn * reply)
  : Conn * list string -> string -> (Conn * list string) * reply :=
  fun '(c, trace) sql =>
    let '(c', r) := run c sql in ((c', (trace ++ [sql])%list), r).

(** ** The bootstrap provisioner

    [config_generator.cc] is not part of the sources at hand; what follows is
    modelled from the specification (sections 3, 4, 6 and 7) and from the
    calls, scripts and expectations of [test_config_generator.cc]. *)

Module ConfigGenerator.

(** Modelled from the spec: the error taxonomy of section 7.  [what] gives
    the text that the tests look for. *)
Inductive bootstrap_error : Type :=
| SessionError (msg : string) (code : Z)
| MetadataFormatError (msg : string)
| AmbiguousTargetError (msg : string)
| NoClusterError (msg : string)
| AccountCleanupError (msg : string)
| AccountCreationError (msg : string)
| PasswordPolicyError (msg : string)
| ConflictError (msg : string)
| ConfigurationError (msg : string).

Definition what (e : bootstrap_error) : string :=
  match e with
  | SessionError msg _ | MetadataFormatError msg | AmbiguousTargetError msg
  | NoClusterError msg | AccountCleanupError msg | AccountCreationError msg
  | PasswordPolicyError msg | ConflictError msg | ConfigurationError msg => msg
  end.

(** Modelled from the spec: a step either yields a value or fails with one
    of these errors (config_generator.cc throws them as exceptions). *)
Inductive result (A : Type) : Type :=
| Ok (a : A)
| Failed (e : bootstrap_error).
Arguments Ok {A} a.
Arguments Failed {A} e.

Definition is_Ok {A} (r : result A) : bool :=
  match r with
  | Ok _ => true
  | Failed _ => false
  end.

(** [ASSERT_THROW_LIKE] of the tests looks for a fragment anywhere in the
    text of the exception. *)
Fixpoint contains (fragment text : string) : bool :=
  String.prefix fragment text
  || match text with
     | String _ text' => contains fragment text'
     | EmptyString => false
     end.

(** Modelled from the spec: a decimal integer is a non-empty run of decimal
    digits; [decimal] is its value. *)
Fixpoint all_digits (s : string) : bool :=
  match s with
  | String c s' => bool_decide (is_Some (digit_of c)) && all_digits s'
  | EmptyString => true
  end.

Definition decimal (s : string) : option Z :=
  match s with
  | EmptyString => None
  | _ => if all_digits s then Some (digits_value s 0%Z) else None
  end.

(** *** Options *)

(** Modelled from the spec: the constants of config_generator.cc, with the
    values that the specification and the tests give: the default ports,
    the highest port and the number of ports taken from a base port, the
    default and the highest retry limit, the longest router name and master
    key. *)
Definition kDefaultRWPort : Z := 6446.
Definition kDefaultROPort : Z := 6447.
Definition kDefaultRWXPort : Z := 64460.
Definition kDefaultROXPort : Z := 64470.
Definition kMaxTCPPortNumber : Z := 65535.
Definition kAllocatedTCPPortCount : Z := 4.
Definition kDefaultPasswordRetries : Z := 5.
Definition kMaxPasswordRetries : Z := 10000.
Definition kMaxRouterNameLength : nat := 255.
Definition kMaxMasterKeyLength : nat := 255.

(** Modelled from the spec: [ConfigGenerator::Options::Endpoint] of
    config_generator.h, with the two fields that the tests read. *)
Record Endpoint : Type := {
  port : Z;
  socket : string
}.

(** Modelled from the spec: [operator bool] of an endpoint, as the tests
    compare it with [true] and [false]: an endpoint is enabled when it has a
    port or a socket. *)
Definition enabled (e : Endpoint) : bool :=
  (0 <? port e)%Z || negb (String.eqb (socket e) "").

(** Modelled from the spec: [ConfigGenerator::Options] of
    config_generator.h, the rendered form of the options in section 3. *)
Record Options : Type := {
  multi_master : bool;
  bind_address : string;
  rw_endpoint : Endpoint;
  ro_endpoint : Endpoint;
  rw_x_endpoint : Endpoint;
  ro_x_endpoint : Endpoint
}.

(** Modelled from the spec: the texts of the two configuration errors, as
    far as the specification and the tests quote them. *)
Definition invalid_base_port : string := "Invalid base-port number".

Definition invalid_password_retries (value : string) : string :=
  "Invalid password-retries value '" +:+ value
  +:+ "'; please pick a value from 1 to " +:+ pretty kMaxPasswordRetries.

Section FillOptions.

(** Address validation belongs to the OS glue of section 1; it is a
    parameter here. *)
Variable is_valid_bind_address : string -> bool.

(** Modelled from the spec: [fill_options(multi_master, user_options)].
    The four ports are the base port plus 0, 1, 2 and 3 and must not exceed
    65535; without a base port they are the defaults; [skip-tcp] leaves the
    ports at 0, [use-sockets] names the sockets, and a multi-master cluster
    has no read-only endpoints. *)
Definition fill_options (multi_master : bool) (user_options : gmap string string)
  : result Options :=
  match
    match user_options !! "bind-address" with
    | Some address =>
        if is_valid_bind_address address then Ok address
        else Failed (ConfigurationError ("Invalid bind-address value " +:+ address))
    | None => Ok ""
    end
  with
  | Failed e => Failed e
  | Ok address =>
      match
        match user_options !! "base-port" with
        | Some value =>
            match decimal value with
            | Some base_port =>
                if (0 <? base_port)%Z
                   && (base_port <=? kMaxTCPPortNumber - kAllocatedTCPPortCount + 1)%Z
                then Ok (Some base_port)
                else Failed (ConfigurationError invalid_base_port)
            | None => Failed (ConfigurationError invalid_base_port)
            end
        | None => Ok None
        end
      with
      | Failed e => Failed e
      | Ok base_port =>
          let use_sockets := bool_decide (is_Some (user_options !! "use-sockets")) in
          let skip_tcp := bool_decide (is_Some (user_options !! "skip-tcp")) in
          let tcp (offset default : Z) : Z :=
            if skip_tcp then 0%Z
            else match base_port with
                 | Some b => (b + offset)%Z
                 | None => default
                 end in
          let unix (name : string) : string := if use_sockets then name else "" in
          let disabled := {| port := 0; socket := "" |} in
          Ok {| multi_master := multi_master;
                bind_address := address;
                rw_endpoint := {| port := tcp 0%Z kDefaultRWPort; socket := unix "mysql.sock" |};
                ro_endpoint :=
                  if multi_master then disabled
                  else {| port := tcp 1%Z kDefaultROPort; socket := unix "mysqlro.sock" |};
                rw_x_endpoint :=
                  {| port := tcp 2%Z kDefaultRWXPort; socket := unix "mysqlx.sock" |};
                ro_x_endpoint :=
                  if multi_master then disabled
                  else {| port := tcp 3%Z kDefaultROXPort; socket := unix "mysqlxro.sock" |} |}
      end
  end.

End FillOptions.

(** Modelled from the spec: the retry limit, default 5, a decimal integer
    from 1 to 10000; anything else is a configuration error that names the
    value. *)
Definition get_password_retries (user_options : gmap string string) : result Z :=
  match user_options !! "password-retries" with
  | None => Ok kDefaultPasswordRetries
  | Some value =>
      match decimal value with
      | Some n =>
          if (1 <=? n)%Z && (n <=? kMaxPasswordRetries)%Z then Ok n
          else Failed (ConfigurationError (invalid_password_retries value))
      | None => Failed (ConfigurationError (invalid_password_retries value))
      end
  end.

(** Modelled from the spec: step 1 of section 4.5: the router name may be
    empty, must not be the reserved word, must hold no line break and at
    most 255 characters; the texts are those that the tests look for. *)
Fixpoint has_line_break (s : string) : bool :=
  match s with
  | String c s' => (nat_of_ascii c =? 10)%nat || (nat_of_ascii c =? 13)%nat || has_line_break s'
  | EmptyString => false
  end.

Definition validate_router_name (name : string) : result unit :=
  if String.eqb name "system" then
    Failed (ConfigurationError ("Router name '" +:+ name +:+ "' is reserved"))
  else if has_line_break name then
    Failed (ConfigurationError ("Router name '" +:+ name +:+ "' contains invalid characters."))
  else if (kMaxRouterNameLength <? String.length name)%nat then
    Failed (ConfigurationError ("Router name '" +:+ name +:+ "' too long (max 255)."))
  else Ok tt.

(** *** The session boundary *)

(** Modelled from the spec: the cluster session of section 6, with
    [execute] answering the last insert id, [query_one] a row or nothing and
    [query] all rows; each may fail with the server's message and code. *)
Record MySQLSession (Conn : Type) : Type := {
  session_execute : Conn -> string -> Conn * ((string * Z) + Z);
  session_query_one : Conn -> string -> Conn * ((string * Z) + option Row);
  session_query : Conn -> string -> Conn * reply
}.
Arguments session_execute {Conn}.
Arguments session_query_one {Conn}.
Arguments session_query {Conn}.

(** The replayer of the tests as such a session. *)
Definition replayer_session : MySQLSession MySQLSessionReplayer :=
  {| session_execute := fun script sql =>
       match next_call Execute script sql with
       | (script', inl e) => (script', inl e)
       | (script', inr info) => (script', inr (call_last_insert_id info))
       end;
     session_query_one := fun script sql =>
       match next_call QueryOne script sql with
       | (script', inl e) => (script', inl e)
       | (script', inr info) => (script', inr (head (call_rows info)))
       end;
     session_query := replay |}.

(** A session that records the statements it is asked to run. *)
Definition traced_session {Conn} (session : MySQLSession Conn) : MySQLSession (Conn * list string) :=
  {| session_execute := fun '(c, trace) sql =>
       let '(c', r) := session_execute session c sql in ((c', (trace ++ [sql])%list), r);
     session_query_one := fun '(c, trace) sql =>
       let '(c', r) := session_query_one session c sql in ((c', (trace ++ [sql])%list), r);
     session_query := fun '(c, trace) sql =>
       let '(c', r) := session_query session c sql in ((c', (trace ++ [sql])%list), r) |}.

(** *** Topology of the bootstrap target *)

(** Modelled from the spec: the cluster identity of section 3, as
    [fetch_bootstrap_servers] of config_generator.cc hands it out. *)
Record ClusterIdentity : Type := {
  cluster_name : string;
  replicaset_name : string;
  is_multi_master : bool;
  bootstrap_servers : string
}.

(** Modelled from the spec: the statement of [fetch_bootstrap_servers], as
    far as the tests quote its columns. *)
Definition bootstrap_servers_query : string :=
  "SELECT F.cluster_name, R.replicaset_name, R.topology_type, "
  +:+ "JSON_UNQUOTE(JSON_EXTRACT(I.addresses, '$.mysqlClassic'))".

(** Modelled from the spec: the folding of the rows (cluster_name,
    replicaset_name, topology_type, address) of section 4.2: a second
    cluster or replicaset name is an ambiguous target, an empty result set
    means no cluster, the topology type is mm or pm, and the addresses are
    joined as the tests expect them. *)
Definition add_bootstrap_server (acc : result (option ClusterIdentity)) (row : Row)
  : result (option ClusterIdentity) :=
  match acc with
  | Failed e => Failed e
  | Ok seen =>
      match row with
      | [Some cluster; Some replicaset; Some topology; Some address] =>
          match
            if String.eqb topology "mm" then Some true
            else if String.eqb topology "pm" then Some false
            else None
          with
          | None => Failed (MetadataFormatError ("Unknown topology type in metadata: " +:+ topology))
          | Some mm =>
              match seen with
              | None =>
                  Ok (Some {| cluster_name := cluster; replicaset_name := replicaset;
                              is_multi_master := mm;
                              bootstrap_servers := "mysql://" +:+ address |})
              | Some id =>
                  if negb (String.eqb (cluster_name id) cluster) then
                    Failed (AmbiguousTargetError "Metadata contains more than one cluster")
                  else if negb (String.eqb (replicaset_name id) replicaset) then
                    Failed (AmbiguousTargetError "Metadata contains more than one replica-set")
                  else
                    Ok (Some {| cluster_name := cluster; replicaset_name := replicaset;
                                is_multi_master := mm;
                                bootstrap_servers :=
                                  bootstrap_servers id +:+ ",mysql://" +:+ address |})
              end
          end
      | _ => Failed (MetadataFormatError "Unexpected row in the bootstrap servers resultset")
      end
  end.

Definition cluster_identity_of (rows : list Row) : result ClusterIdentity :=
  match fold_left add_bootstrap_server rows (Ok None) with
  | Failed e => Failed e
  | Ok None => Failed (NoClusterError "No clusters defined in metadata server")
  | Ok (Some id) => Ok id
  end.

(** *** The deployment directory *)

(** Modelled from the spec: what the rendered configuration of section 4.4
    records (its text is not modelled). *)
Record Config : Type := {
  config_router_id : Z;
  config_name : string;
  config_identity : ClusterIdentity;
  config_username : string;
  config_options : Options
}.

(** Modelled from the spec: the file system as far as a deployment touches
    it: a finite map from paths to directories, configuration files and
    other files. *)
Inductive file : Type :=
| Directory
| ConfigFile (config : Config)
| DataFile (bytes : string).

(** Modelled from the spec: the path utilities of section 1 by their call
    contract: joining a directory and a name, whether [path] is the
    directory or lies below it, and the removal of a directory with all
    that lies below it. *)
Definition join_path (dir name : string) : string := dir +:+ "/" +:+ name.

Definition under (dir path : string) : bool :=
  String.eqb dir path || String.prefix (dir +:+ "/") path.

Definition delete_dir_recursive (dir : string) (fs : gmap string file) : gmap string file :=
  filter (fun entry => under dir entry.1 = false) fs.

(** Modelled from the spec: [KeyringInfo] as the tests construct it: the
    names of the keyring file and of the master key file, both taken
    relative to the deployment directory. *)
Record KeyringInfo : Type := {
  keyring_file : string;
  master_key_file : string
}.

(** Modelled from the spec: the text of the conflict error, as far as the
    tests quote it. *)
Definition use_force : string := "If you'd like to replace it, please use the --force".

(** Modelled from the spec: reading the identity that an earlier bootstrap
    recorded.  A configuration for another cluster is a conflict unless the
    run is forced; a missing or empty file records nothing. *)
Definition get_router_id_and_name_from_config
    (fs : gmap string file) (config_file_path cluster_name : string) (forced : bool)
  : result (Z * string) :=
  match fs !! config_file_path with
  | Some (ConfigFile old) =>
      if String.eqb (ConfigGenerator.cluster_name (config_identity old)) cluster_name then
        Ok (config_router_id old, config_name old)
      else if forced then Ok (0%Z, "")
      else Failed (ConflictError use_force)
  | _ => Ok (0%Z, "")
  end.

(** *** The account provisioner *)

(** Modelled from the spec: the state machine of section 4.3: what an
    attempt to create the account ends in. *)
Inductive attempt : Type :=
| Created
| PluginNotLoaded (msg : string)
| PasswordTooWeak (msg : string).

(** Modelled from the spec: the two server codes that the provisioner
    looks at, with the values the tests give them. *)
Definition kPluginNotLoaded : Z := 1524.
Definition kPasswordPolicy : Z := 1819.

(** Modelled from the spec: the statements of the provisioner of
    config_generator.cc, with the texts that the tests expect; [quote] is
    the SQL quoting of a literal (escaping inside it is not modelled). *)
Definition quote (s : string) : string := "'" +:+ s +:+ "'".

Definition create_user_statement (username hostname password : string) (hash_password : bool)
  : string :=
  "CREATE USER " +:+ username +:+ "@" +:+ quote hostname +:+ " IDENTIFIED "
  +:+ (if hash_password then "WITH mysql_native_password AS " else "BY ")
  +:+ quote password.

Definition grant_statements (username hostname : string) : list string :=
  let account := username +:+ "@" +:+ quote hostname in
  [ "GRANT SELECT ON mysql_innodb_cluster_metadata.* TO " +:+ account;
    "GRANT SELECT ON performance_schema.replication_group_members TO " +:+ account;
    "GRANT SELECT ON performance_schema.replication_group_member_stats TO " +:+ account ].

Definition drop_user_statements (username : string) : list string :=
  [ "SELECT CONCAT('DROP USER ', GROUP_CONCAT(QUOTE(user), '@', QUOTE(host))) INTO @drop_user_sql"
    +:+ " FROM mysql.user WHERE user LIKE " +:+ quote username;
    "PREPARE drop_user_stmt FROM @drop_user_sql";
    "EXECUTE drop_user_stmt";
    "DEALLOCATE PREPARE drop_user_stmt" ].

Section Provisioner.

Context {Conn : Type}.
Variable session : MySQLSession Conn.

(** The password source and the hash are capabilities handed in: the n-th
    generated password, the hash of a password, and the random part of the
    account name. *)
Variable generate_password : nat -> string.
Variable compute_password_hash : string -> string.
Variable generate_identifier : string.

(** Modelled from the spec: running statements in order up to the first
    that fails. *)
Fixpoint execute_all (statements : list string) (c : Conn) : Conn * ((string * Z) + unit) :=
  match statements with
  | [] => (c, inr tt)
  | sql :: rest =>
      match session_execute session c sql with
      | (c', inl e) => (c', inl e)
      | (c', inr _) => execute_all rest c'
      end
  end.

(** Modelled from the spec: [create_account] of config_generator.cc: one
    attempt for one host pattern, CREATE USER and its grants; a failure is
    followed by ROLLBACK and classified by the server's code.  As in the
    scripts of the tests, no START TRANSACTION follows the ROLLBACK. *)
Definition create_account (username hostname password : string) (hash_password : bool)
    (c : Conn) : Conn * result attempt :=
  match execute_all (create_user_statement username hostname password hash_password
                     :: grant_statements username hostname) c with
  | (c', inr _) => (c', Ok Created)
  | (c', inl (msg, code)) =>
      let c'' := (session_execute session c' "ROLLBACK").1 in
      let text := "Error creating MySQL account for router: " +:+ msg in
      (c'',
       if (code =? kPasswordPolicy)%Z then Ok (PasswordTooWeak text)
       else if (code =? kPluginNotLoaded)%Z then Ok (PluginNotLoaded text)
       else Failed (AccountCreationError text))
  end.

(** Modelled from the spec: one attempt for all host patterns, in the
    order given (step 4 of section 4.3). *)
Fixpoint create_accounts (username : string) (hostnames : list string) (password : string)
    (hash_password : bool) (c : Conn) : Conn * result attempt :=
  match hostnames with
  | [] => (c, Ok Created)
  | hostname :: rest =>
      match create_account username hostname password hash_password c with
      | (c', Ok Created) => create_accounts username rest password hash_password c'
      | other => other
      end
  end.

(** Modelled from the spec: step 3 (b) of section 4.3: plain passwords, a
    fresh one after each policy rejection, at most [retries] attempts. *)
Fixpoint create_with_compliant_password (username : string) (hostnames : list string)
    (retries : nat) (n : nat) (c : Conn) : Conn * result string :=
  match retries with
  | O => (c, Failed (PasswordPolicyError "Error creating user account"))
  | S retries' =>
      let password := generate_password n in
      match create_accounts username hostnames password false c with
      | (c', Ok Created) => (c', Ok password)
      | (c', Ok (PasswordTooWeak msg)) =>
          match retries' with
          | O =>
              (c', Failed (PasswordPolicyError
                             ("Error creating user account: " +:+ msg
                              +:+ " Try to decrease the validate_password rules and try the operation again.")))
          | _ => create_with_compliant_password username hostnames retries' (S n) c'
          end
      | (c', Ok (PluginNotLoaded msg)) => (c', Failed (AccountCreationError msg))
      | (c', Failed e) => (c', Failed e)
      end
  end.

(** Modelled from the spec: [create_router_accounts] of config_generator.cc,
    step 3 of section 4.3.  First the hashed password, unless validation is
    forced; a missing plugin falls through to plain passwords. *)
Definition create_router_accounts (user_options : gmap string string)
    (multivalue_options : gmap string (list string)) (username : string)
    (c : Conn) : Conn * result string :=
  let hostnames :=
    match multivalue_options !! "account-host" with
    | Some (h :: hs) => h :: hs
    | _ => ["%"]
    end in
  match get_password_retries user_options with
  | Failed e => (c, Failed e)
  | Ok retries =>
      let plain := create_with_compliant_password username hostnames (Z.to_nat retries) 1 in
      if bool_decide (is_Some (user_options !! "force-password-validation")) then plain c
      else
        let password := generate_password 0 in
        match create_accounts username hostnames (compute_password_hash password) true c with
        | (c', Ok Created) => (c', Ok password)
        | (c', Ok (PluginNotLoaded _)) => plain c'
        | (c', Ok (PasswordTooWeak msg)) => (c', Failed (AccountCreationError msg))
        | (c', Failed e) => (c', Failed e)
        end
  end.

(** Modelled from the spec: [delete_account_for_all_hosts] of
    config_generator.cc, step 2 of section 4.3, with the statements and
    texts that the tests expect. *)
Definition delete_account_for_all_hosts (username : string) (c : Conn) : Conn * result unit :=
  match session_query_one session c ("SELECT COUNT(*) FROM mysql.user WHERE user = " +:+ quote username) with
  | (c', inl (msg, _)) =>
      (c', Failed (AccountCleanupError ("Error querying for existing Router accounts: " +:+ msg)))
  | (c', inr (Some [Some count])) =>
      if bool_decide (decimal count = Some 0%Z) then (c', Ok tt)
      else
        match execute_all (drop_user_statements username) c' with
        | (c'', inr _) => (c'', Ok tt)
        | (c'', inl (msg, _)) =>
            (c'', Failed (AccountCleanupError
                            ("Error removing old MySQL account for router: " +:+ msg)))
        end
  | (c', inr _) =>
      (c', Failed (MetadataFormatError "Unexpected result querying for existing Router accounts"))
  end.

(** Modelled from the spec: the registration of the router in the metadata
    (cluster_metadata.cc is not part of the sources at hand), as the scripts
    of the tests have it: look the host up, insert it when it is unknown,
    insert the router; the id of the router is the last insert id. *)
Definition register_router (c : Conn) : Conn * result Z :=
  match session_query_one session c "SELECT host_id, host_name" with
  | (c1, inl (msg, code)) => (c1, Failed (SessionError msg code))
  | (c1, inr host) =>
      match
        match host with
        | Some _ => (c1, inr 0%Z)
        | None => session_execute session c1 "INSERT INTO mysql_innodb_cluster_metadata.hosts"
        end
      with
      | (c2, inl (msg, code)) => (c2, Failed (SessionError msg code))
      | (c2, inr _) =>
          match session_execute session c2 "INSERT INTO mysql_innodb_cluster_metadata.routers" with
          | (c3, inl (msg, code)) => (c3, Failed (SessionError msg code))
          | (c3, inr router_id) => (c3, Ok router_id)
          end
      end
  end.

(** Modelled from the spec: what config_generator.cc does between START
    TRANSACTION and COMMIT: steps 2 to 6 of section 4.3, after the
    registration of the router. *)
Definition provision (user_options : gmap string string)
    (multivalue_options : gmap string (list string)) (c : Conn)
  : Conn * result (Z * string * string) :=
  match register_router c with
  | (c1, Failed e) => (c1, Failed e)
  | (c1, Ok router_id) =>
      let username := "mysql_router" +:+ pretty router_id +:+ "_" +:+ generate_identifier in
      match delete_account_for_all_hosts username c1 with
      | (c2, Failed e) => (c2, Failed e)
      | (c2, Ok _) =>
          match create_router_accounts user_options multivalue_options username c2 with
          | (c3, Failed e) => (c3, Failed e)
          | (c3, Ok password) =>
              match session_execute session c3
                      "UPDATE mysql_innodb_cluster_metadata.routers SET attributes = " with
              | (c4, inl (msg, code)) => (c4, Failed (SessionError msg code))
              | (c4, inr _) =>
                  match session_execute session c4 "COMMIT" with
                  | (c5, inl (msg, code)) => (c5, Failed (SessionError msg code))
                  | (c5, inr _) => (c5, Ok (router_id, username, password))
                  end
              end
          end
      end
  end.

(** Modelled from the spec: [try_bootstrap_deployment] of
    config_generator.cc, the transaction of section 4.3.  A failure after
    START TRANSACTION is followed by a ROLLBACK of the caller. *)
Definition try_bootstrap_deployment (user_options : gmap string string)
    (multivalue_options : gmap string (list string)) (c : Conn)
  : Conn * result (Z * string * string) :=
  match session_execute session c "START TRANSACTION" with
  | (c0, inl (msg, code)) => (c0, Failed (SessionError msg code))
  | (c0, inr _) =>
      match provision user_options multivalue_options c0 with
      | (c1, Failed e) => ((session_execute session c1 "ROLLBACK").1, Failed e)
      | (c1, Ok r) => (c1, Ok r)
      end
  end.

(** Modelled from the spec: [fetch_bootstrap_servers] of
    config_generator.cc. *)
Definition fetch_bootstrap_servers (c : Conn) : Conn * result ClusterIdentity :=
  match session_query session c bootstrap_servers_query with
  | (c', inl (msg, code)) => (c', Failed (SessionError msg code))
  | (c', inr rows) => (c', cluster_identity_of rows)
  end.

End Provisioner.

(** *** The deployment manager *)

Section Deployment.

Context {Conn : Type}.
Variable session : MySQLSession Conn.
Variable is_valid_bind_address : string -> bool.
Variable generate_password : nat -> string.
Variable compute_password_hash : string -> string.
Variable generate_identifier : string.

(** The master key: what the prompt answers when no key file is named, and
    the key that is generated for a new key file. *)
Variable prompt_password : string.
Variable generate_master_key : string.

(** Modelled from the spec: step 5 of section 4.5.  A key that is too long
    is refused before anything is written; a named key file is created when
    it is missing and must hold a key when it is there. *)
Definition init_keyring (fs : gmap string file) (directory : string) (keyring_info : KeyringInfo)
  : gmap string file * result unit :=
  if String.eqb (master_key_file keyring_info) "" then
    if (kMaxMasterKeyLength <? String.length prompt_password)%nat then
      (fs, Failed (ConfigurationError "The master key is too long (max 255 characters)"))
    else (fs, Ok tt)
  else
    let path := join_path directory (master_key_file keyring_info) in
    match fs !! path with
    | None => (<[path := DataFile generate_master_key]> fs, Ok tt)
    | Some (DataFile (String _ _)) => (fs, Ok tt)
    | Some _ => (fs, Failed (ConfigurationError ("Invalid master key file " +:+ path)))
    end.

(** Modelled from the spec: whether a file holds a configuration with the
    recorded identity (router name, cluster name) of the new one. *)
Definition same_identity (old : file) (new : Config) : bool :=
  match old with
  | ConfigFile old =>
      String.eqb (config_name old) (config_name new)
      && String.eqb (cluster_name (config_identity old)) (cluster_name (config_identity new))
  | _ => false
  end.

(** Modelled from the spec: steps 3 and 6 of section 4.5 for a directory that
    is in place: the keyring, the identity of the target, the comparison
    with an earlier deployment, the options, the account, the secret, and at
    last the configuration file, with a copy of a differing earlier one
    under the suffix .bak.  (The start and stop scripts are left out.) *)
Definition bootstrap_deployment (fs : gmap string file) (c : Conn) (directory : string)
    (user_options : gmap string string) (multivalue_options : gmap string (list string))
    (keyring_info : KeyringInfo) : gmap string file * Conn * result unit :=
  match init_keyring fs directory keyring_info with
  | (fs1, Failed e) => (fs1, c, Failed e)
  | (fs1, Ok _) =>
      match fetch_bootstrap_servers session c with
      | (c1, Failed e) => (fs1, c1, Failed e)
      | (c1, Ok target) =>
          let config_file_path := join_path directory "mysqlrouter.conf" in
          let forced := bool_decide (is_Some (user_options !! "force")) in
          match get_router_id_and_name_from_config fs1 config_file_path
                  (cluster_name target) forced with
          | Failed e => (fs1, c1, Failed e)
          | Ok _ =>
              match fill_options is_valid_bind_address (is_multi_master target)
                      user_options with
              | Failed e => (fs1, c1, Failed e)
              | Ok options =>
                  match try_bootstrap_deployment session generate_password
                          compute_password_hash generate_identifier
                          user_options multivalue_options c1 with
                  | (c2, Failed e) => (fs1, c2, Failed e)
                  | (c2, Ok (router_id, username, password)) =>
                      let fs2 :=
                        <[join_path directory (keyring_file keyring_info) := DataFile password]>
                          fs1 in
                      let config :=
                        {| config_router_id := router_id;
                           config_name := default "" (user_options !! "name");
                           config_identity := target;
                           config_username := username;
                           config_options := options |} in
                      let fs3 :=
                        match fs2 !! config_file_path with
                        | Some old =>
                            if same_identity old config then fs2
                            else <[config_file_path +:+ ".bak" := old]> fs2
                        | None => fs2
                        end in
                      (<[config_file_path := ConfigFile config]> fs3, c2, Ok tt)
                  end
              end
          end
      end
  end.

(** Modelled from the spec: [bootstrap_directory_deployment], section 4.5.
    Name and retry limit are checked before anything else; the directory is
    created when it is missing, and only then is it removed again, with all
    it holds, when the run fails. *)
Definition bootstrap_directory_deployment (fs : gmap string file) (c : Conn)
    (directory : string) (user_options : gmap string string)
    (multivalue_options : gmap string (list string)) (keyring_info : KeyringInfo)
  : gmap string file * Conn * result unit :=
  match validate_router_name (default "" (user_options !! "name")) with
  | Failed e => (fs, c, Failed e)
  | Ok _ =>
      match get_password_retries user_options with
      | Failed e => (fs, c, Failed e)
      | Ok _ =>
          match fs !! directory with
          | Some Directory =>
              bootstrap_deployment fs c directory user_options multivalue_options keyring_info
          | Some _ =>
              (fs, c, Failed (ConfigurationError
                                ("Could not create deployment directory " +:+ directory)))
          | None =>
              match bootstrap_deployment (<[directory := Directory]> fs) c directory
                      user_options multivalue_options keyring_info with
              | (fs', c', Failed e) => (delete_dir_recursive directory fs', c', Failed e)
              | done => done
              end
          end
      end
  end.

End Deployment.

End ConfigGenerator.

(** ** test_config_generator.cc: fixtures *)

Module ConfigGeneratorTest.

Import ConfigGenerator.

Inductive action_t : Type := ACTION_EXECUTE | ACTION_QUERY | ACTION_ERROR.

Record query_entry_t : Type := {
  entry_query : string;
  action : action_t;
  results : list Row;
  last_insert_id : Z;
  error_code : Z
}.

Definition entry (query : string) (action : action_t) : query_entry_t :=
  {| entry_query := query; action := action; results := []; last_insert_id := 0;
     error_code := 0 |}.

Definition expected_bootstrap_queries : list query_entry_t :=
  [ entry "START TRANSACTION" ACTION_EXECUTE;
    entry "SELECT host_id, host_name" ACTION_QUERY;
    entry "INSERT INTO mysql_innodb_cluster_metadata.hosts" ACTION_EXECUTE;
    {| entry_query := "INSERT INTO mysql_innodb_cluster_metadata.routers";
       action := ACTION_EXECUTE; results := []; last_insert_id := 4; error_code := 0 |};
    {| entry_query := "SELECT COUNT(*) FROM mysql.user WHERE user";
       action := ACTION_QUERY; results := [[Some "0"]]; last_insert_id := 0; error_code := 0 |};
    entry "CREATE USER mysql_router4_012345678901@'%'" ACTION_EXECUTE;
    entry "GRANT SELECT ON mysql_innodb_cluster_metadata.* TO mysql_router4_012345678901@'%'"
      ACTION_EXECUTE;
    entry "GRANT SELECT ON performance_schema.replication_group_members TO mysql_router4_012345678901@'%'"
      ACTION_EXECUTE;
    entry "GRANT SELECT ON performance_schema.replication_group_member_stats TO mysql_router4_012345678901@'%'"
      ACTION_EXECUTE;
    entry "UPDATE mysql_innodb_cluster_metadata.routers SET attributes = " ACTION_EXECUTE;
    entry "COMMIT" ACTION_EXECUTE ].

Definition expect_entry (q : query_entry_t) : CallInfo :=
  match action q with
  | ACTION_EXECUTE => expect_execute (entry_query q) (last_insert_id q)
  | ACTION_QUERY => expect_query_one (entry_query q) (results q)
  | ACTION_ERROR => expect_execute_error (entry_query q) "ERROR:" (error_code q)
  end.

Definition expect_bootstrap_queries (cluster_name : string)
    (expected_queries : list query_entry_t) : MySQLSessionReplayer :=
  expect_query "" [[Some cluster_name; Some "myreplicaset"; Some "pm"; Some "somehost:3306"]]
  :: map expect_entry expected_queries.

Definition kCreateUserQuery : nat := 5.

Definition create_user_hashed_error (code : Z) : query_entry_t :=
  {| entry_query :=
       "CREATE USER mysql_router4_012345678901@'%' IDENTIFIED WITH mysql_native_password AS";
     action := ACTION_ERROR; results := []; last_insert_id := 0; error_code := code |}.

Definition create_user_plain_error (code : Z) : query_entry_t :=
  {| entry_query := "CREATE USER mysql_router4_012345678901@'%' IDENTIFIED BY";
     action := ACTION_ERROR; results := []; last_insert_id := 0; error_code := code |}.

Definition create_user_plain : query_entry_t :=
  entry "CREATE USER mysql_router4_012345678901@'%' IDENTIFIED BY" ACTION_EXECUTE.

(** The script of [bootstrap_generate_password_no_native_plugin]. *)
Definition no_native_plugin_queries : list query_entry_t :=
  (take kCreateUserQuery expected_bootstrap_queries
   ++ [create_user_hashed_error 1524; entry "ROLLBACK" ACTION_EXECUTE; create_user_plain]
   ++ drop (S kCreateUserQuery) expected_bootstrap_queries)%list.

(** The script of [bootstrap_generate_password_retry_ok]. *)
Definition retry_ok_queries : list query_entry_t :=
  (take kCreateUserQuery expected_bootstrap_queries
   ++ [create_user_hashed_error 1524; entry "ROLLBACK" ACTION_EXECUTE;
       create_user_plain_error 1819; entry "ROLLBACK" ACTION_EXECUTE; create_user_plain]
   ++ drop (S kCreateUserQuery) expected_bootstrap_queries)%list.

(** The script of [bootstrap_generate_password_retry_failed], for
    [kPasswordRetries] rejections. *)
Definition retry_failed_queries (kPasswordRetries : nat) : list query_entry_t :=
  (take kCreateUserQuery expected_bootstrap_queries
   ++ [create_user_hashed_error 1524]
   ++ concat (replicate kPasswordRetries
                [entry "ROLLBACK" ACTION_EXECUTE; create_user_plain_error 1819])
   ++ [entry "ROLLBACK" ACTION_EXECUTE])%list.

(** The script of [bootstrap_password_retry_param_wrong_values]. *)
Definition wrong_values_queries : list query_entry_t :=
  (take kCreateUserQuery expected_bootstrap_queries
   ++ [create_user_hashed_error 1524; entry "ROLLBACK" ACTION_EXECUTE])%list.

(** The script of [bootstrap_generate_password_with_native_plugin]. *)
Definition with_native_plugin_queries : list query_entry_t :=
  (take kCreateUserQuery expected_bootstrap_queries
   ++ [entry "CREATE USER mysql_router4_012345678901@'%' IDENTIFIED WITH mysql_native_password AS"
         ACTION_EXECUTE]
   ++ drop (S kCreateUserQuery) expected_bootstrap_queries)%list.

(** The script of [bootstrap_generate_password_force_password_validation]. *)
Definition force_password_validation_queries : list query_entry_t :=
  (take kCreateUserQuery expected_bootstrap_queries
   ++ [create_user_plain]
   ++ drop (S kCreateUserQuery) expected_bootstrap_queries)%list.

(** Modelled from the spec: stand-ins for the fake random generator of the
    tests (random_generator.h is not part of the sources at hand) and for
    the address check on the addresses that the tests use. *)
Definition fake_password (n : nat) : string := "fake-password-" +:+ pretty n.
Definition fake_hash (password : string) : string := "*" +:+ password.
Definition fake_identifier : string := "012345678901".
Definition test_address_ok (address : string) : bool := String.eqb address "127.0.0.1".

Definition delme_keyring : KeyringInfo :=
  {| keyring_file := "delme"; master_key_file := "delme.key" |}.

(** A run of [bootstrap_directory_deployment] as the tests set it up. *)
Definition bootstrap (fs : gmap string file) (script : MySQLSessionReplayer) (dir : string)
    (options : gmap string string) (keyring_info : KeyringInfo) (master_key : string)
  : gmap string file * MySQLSessionReplayer * result unit :=
  bootstrap_directory_deployment replayer_session test_address_ok fake_password fake_hash
    fake_identifier master_key "generated-master-key" fs script dir options ∅ keyring_info.

(** [bootstrap_overwrite_test] *)
Definition bootstrap_overwrite_test (fs : gmap string file) (dir name : string) (force : bool)
    (cluster_name : string) (expect_fail : bool)
  : gmap string file * MySQLSessionReplayer * result unit :=
  bootstrap fs
    (if expect_fail then
       [expect_query "" [[Some cluster_name; Some "myreplicaset"; Some "pm";
                          Some "somehost:3306"]]]
     else expect_bootstrap_queries cluster_name expected_bootstrap_queries)
    dir
    (let options : gmap string string := <["name" := name]> (<["quiet" := "1"]> ∅) in
     if force then <["force" := "1"]> options else options)
    delme_keyring "".

(** [bootstrap_password_test] *)
Definition bootstrap_password_test (bootstrap_queries : list query_entry_t)
    (password_retries : string) (force_password_validation : bool)
  : gmap string file * MySQLSessionReplayer * result unit :=
  bootstrap ∅ (expect_bootstrap_queries "mycluster" bootstrap_queries) "./gen_pass_test"
    (let options : gmap string string :=
       <["name" := "name"]> (<["password-retries" := password_retries]> ∅) in
     if force_password_validation then <["force-password-validation" := "1"]> options
     else options)
    delme_keyring "".

(** What a first bootstrap leaves in a new directory, by router name and
    cluster name. *)
Definition config_of (name cluster : string) : Config :=
  {| config_router_id := 4;
     config_name := name;
     config_identity :=
       {| cluster_name := cluster; replicaset_name := "myreplicaset";
          is_multi_master := false; bootstrap_servers := "mysql://somehost:3306" |};
     config_username := "mysql_router4_012345678901";
     config_options :=
       {| multi_master := false; bind_address := "";
          rw_endpoint := {| port := 6446; socket := "" |};
          ro_endpoint := {| port := 6447; socket := "" |};
          rw_x_endpoint := {| port := 64460; socket := "" |};
          ro_x_endpoint := {| port := 64470; socket := "" |} |} |}.

Definition deployment_of (dir name cluster : string) : gmap string file :=
  <[join_path dir "mysqlrouter.conf" := ConfigFile (config_of name cluster)]>
  (<[join_path dir "delme" := DataFile "fake-password-0"]>
   (<[join_path dir "delme.key" := DataFile "generated-master-key"]>
    (<[dir := Directory]> ∅))).

Definition first_config : Config := config_of "myname" "cluster".

Definition first_deployment (dir : string) : gmap string file :=
  deployment_of dir "myname" "cluster".

Definition kluster : ClusterIdentity :=
  {| cluster_name := "kluster"; replicaset_name := "myreplicaset";
     is_multi_master := false; bootstrap_servers := "mysql://somehost:3306" |}.

Definition overwrite_options (name : string) (force : bool) : gmap string string :=
  let options : gmap string string := <["name" := name]> (<["quiet" := "1"]> ∅) in
  if force then <["force" := "1"]> options else options.

(** The scripts of [bootstrap_cleanup_on_failure]. *)
Definition cleanup_script : MySQLSessionReplayer :=
  [ expect_query "SELECT F.cluster_name"
      [[Some "mycluter"; Some "myreplicaset"; Some "pm"; Some "somehost:3306"]];
    expect_execute_error "START TRANSACTION" "boo!" 1234 ].

Definition cleanup_script_in_place : MySQLSessionReplayer :=
  [ expect_query ""
      [[Some "mycluster"; Some "myreplicaset"; Some "pm"; Some "somehost:3306"]];
    expect_execute_error "" "boo!" 1234 ].

Definition foobar_options : gmap string string := <["name" := "foobar"]> (<["quiet" := "1"]> ∅).

(** The statements that the no-native-plugin script expects from the
    account step on, and the places the replayer is in between them. *)
Definition account_script : MySQLSessionReplayer :=
  map expect_entry (drop kCreateUserQuery no_native_plugin_queries).

Definition password_options : gmap string string :=
  <["name" := "name"]> (<["password-retries" := "5"]> ∅).

Definition exists_path (fs : gmap string file) (path : string) : bool :=
  bool_decide (is_Some (fs !! path)).


(** Scripts of the account tests. *)
Definition check_users (user_count : string) : CallInfo :=
  expect_query_one "SELECT COUNT(*) FROM mysql.user WHERE user = 'cluster_user'"
    [[Some user_count]].

Definition drop_users : list string :=
  [ "SELECT CONCAT('DROP USER ', GROUP_CONCAT(QUOTE(user), '@', QUOTE(host))) INTO @drop_user_sql FROM mysql.user WHERE user LIKE 'cluster_user'";
    "PREPARE drop_user_stmt FROM @drop_user_sql";
    "EXECUTE drop_user_stmt";
    "DEALLOCATE PREPARE drop_user_stmt" ].

(** The first [last] drop statements, of which the last one fails when
    [fail] is set. *)
Definition drop_users_script (last : nat) (fail : bool) : MySQLSessionReplayer :=
  (map (fun sql => expect_execute sql 0) (take (pred last) drop_users)
   ++ match drop_users !! pred last with
      | Some sql =>
          [if fail then expect_execute_error sql "some error" 1234 else expect_execute sql 0]
      | None => []
      end)%list.

Definition grants_script (host : string) : MySQLSessionReplayer :=
  [ expect_execute ("GRANT SELECT ON mysql_innodb_cluster_metadata.* TO cluster_user@'"
                    +:+ host +:+ "'") 0;
    expect_execute ("GRANT SELECT ON performance_schema.replication_group_members TO cluster_user@'"
                    +:+ host +:+ "'") 0;
    expect_execute ("GRANT SELECT ON performance_schema.replication_group_member_stats TO cluster_user@'"
                    +:+ host +:+ "'") 0 ].

Definition generate_expected_SQL (host : string) : MySQLSessionReplayer :=
  expect_execute ("CREATE USER cluster_user@'" +:+ host +:+ "'") 0 :: grants_script host.

(** The script for a host whose [fail_on]-th statement fails. *)
Definition generate_failing_SQL (host : string) (fail_on : nat) : MySQLSessionReplayer :=
  (take (pred fail_on) (generate_expected_SQL host)
   ++ match generate_expected_SQL host !! pred fail_on with
      | Some info => [expect_execute_error (call_sql info) "some error" 1234]
      | None => []
      end)%list.

(** The table of [bootstrap_overwrite]: the second run on the directory of
    a first run, by name, force and cluster name; the result of the run and
    whether a .bak file is there afterwards. *)
Definition second_run (name : string) (force : bool) (cluster_name : string)
  : bool * bool :=
  let expect_fail := negb (String.eqb cluster_name "cluster") && negb force in
  let '(fs, _, r) :=
    bootstrap_overwrite_test (first_deployment "./configtest") "./configtest" name force
      cluster_name expect_fail in
  (is_Ok r, exists_path fs "./configtest/mysqlrouter.conf.bak").

End ConfigGeneratorTest.

(** ** Sample sessions *)

(** The two-member response shown in the comments of
    [fetch_group_replication_members], with the first member as primary. *)
Definition sample_rows : list Row :=
  [ [Some "3acfe4ca-861d-11e6-9e56-08002741aeb6"; Some "ubuntu"; Some "3320";
     Some "ONLINE"; Some "1"];
    [Some "4c08b4a2-861d-11e6-a256-08002741aeb6"; Some "ubuntu"; Some "3330";
     Some "ONLINE"; Some "1"] ].

Definition sample_session : MySQLSessionReplayer :=
  [ expect_query primary_member_query
      [[Some "group_replication_primary_member";
        Some "3acfe4ca-861d-11e6-9e56-08002741aeb6"]];
    expect_query members_query sample_rows ].

Definition sample_members : gmap string GroupReplicationMember :=
  <["3acfe4ca-861d-11e6-9e56-08002741aeb6" :=
      Build "3acfe4ca-861d-11e6-9e56-08002741aeb6" "ubuntu" 3320 Online Primary]>
  (<["4c08b4a2-861d-11e6-a256-08002741aeb6" :=
      Build "4c08b4a2-861d-11e6-a256-08002741aeb6" "ubuntu" 3330 Online Secondary]> ∅).

(** The same group seen while the flag column is null and no primary is
    reported. *)
Definition null_flag_rows : list Row :=
  [ [Some "3acfe4ca-861d-11e6-9e56-08002741aeb6"; Some "ubuntu"; Some "3320";
     Some "ONLINE"; None];
    [Some "4c08b4a2-861d-11e6-a256-08002741aeb6"; Some "ubuntu"; Some "3330";
     Some "RECOVERING"; None] ].

Definition null_flag_session : MySQLSessionReplayer :=
  [ expect_query primary_member_query [[Some "group_replication_primary_member"; Some ""]];
    expect_query members_query null_flag_rows ].

(** A response whose second row has a null host. *)
Definition null_host_rows : list Row :=
  [ [Some "3acfe4ca-861d-11e6-9e56-08002741aeb6"; Some "ubuntu"; Some "3320";
     Some "ONLINE"; Some "1"];
    [Some "4c08b4a2-861d-11e6-a256-08002741aeb6"; None; Some "3330";
     Some "ONLINE"; Some "1"] ].

Definition null_host_session : MySQLSessionReplayer :=
  [ expect_query primary_member_query
      [[Some "group_replication_primary_member";
        Some "3acfe4ca-861d-11e6-9e56-08002741aeb6"]];
    expect_query members_query null_host_rows ].

(** Responses whose rows disagree on the flag column, while no primary is
    reported: the flag is set in the first row and then clear, or null, in
    the second. *)
Definition mixed_flag_rows : list Row :=
  [ [Some "a"; Some "ubuntu"; Some "3320"; Some "ONLINE"; Some "1"];
    [Some "b"; Some "ubuntu"; Some "3330"; Some "ONLINE"; Some "0"] ].

Definition mixed_flag_session : MySQLSessionReplayer :=
  [ expect_query primary_member_query [[Some "group_replication_primary_member"; Some ""]];
    expect_query members_query mixed_flag_rows ].

Definition one_null_flag_rows : list Row :=
  [ [Some "a"; Some "ubuntu"; Some "3320"; Some "ONLINE"; Some "1"];
    [Some "b"; Some "ubuntu"; Some "3330"; Some "ONLINE"; None] ].

Definition one_null_flag_session : MySQLSessionReplayer :=
  [ expect_query primary_member_query [[Some "group_replication_primary_member"; Some ""]];
    expect_query members_query one_null_flag_rows ].

(** What the function returns for both. *)
Definition mixed_flag_members : gmap string GroupReplicationMember :=
  <["a" := Build "a" "ubuntu" 3320 Online Secondary]>
  (<["b" := Build "b" "ubuntu" 3330 Online Primary]> ∅).

(** Further scripted sessions: a session error in the membership statement,
    a status row with three fields, an empty status result, two rows with
    the same member id, and a membership row with four fields. *)
Definition expect_query_error (sql msg : string) (code : Z) : CallInfo :=
  {| call_type := Query; call_sql := sql; call_error := Some (msg, code); call_rows := [];
     call_last_insert_id := 0 |}.

Definition lost_connection_session : MySQLSessionReplayer :=
  [ expect_query primary_member_query
      [[Some "group_replication_primary_member"; Some "a"]];
    expect_query_error members_query "Lost connection to MySQL server during query" 2013 ].

Definition bad_status_session : MySQLSessionReplayer :=
  [ expect_query primary_member_query
      [[Some "group_replication_primary_member"; Some "a"; Some "b"]] ].

Definition no_primary_session : MySQLSessionReplayer :=
  [ expect_query primary_member_query [];
    expect_query members_query sample_rows ].

Definition duplicate_rows : list Row :=
  [ [Some "a"; Some "old"; Some "3310"; Some "RECOVERING"; Some "1"];
    [Some "b"; Some "ubuntu"; Some "3320"; Some "ONLINE"; Some "1"];
    [Some "a"; Some "new"; Some "70000"; Some "ONLINE"; Some "1"] ].

Definition duplicate_session : MySQLSessionReplayer :=
  [ expect_query primary_member_query [[Some "group_replication_primary_member"; Some "a"]];
    expect_query members_query duplicate_rows ].

Definition short_row_rows : list Row :=
  [ [Some "a"; Some "ubuntu"; Some "3310"; Some "STARTING"; Some "ON"];
    [Some "b"; Some "ubuntu"; Some "3320"; Some "ONLINE"] ].

Definition short_row_session : MySQLSessionReplayer :=
  [ expect_query primary_member_query [[Some "group_replication_primary_member"; Some "a"]];
    expect_query members_query short_row_rows ].

Definition no_primary_members : gmap string GroupReplicationMember :=
  <["3acfe4ca-861d-11e6-9e56-08002741aeb6" :=
      Build "3acfe4ca-861d-11e6-9e56-08002741aeb6" "ubuntu" 3320 Online Secondary]>
  (<["4c08b4a2-861d-11e6-a256-08002741aeb6" :=
      Build "4c08b4a2-861d-11e6-a256-08002741aeb6" "ubuntu" 3330 Online Secondary]> ∅).

Definition duplicate_members : gmap string GroupReplicationMember :=
  <["a" := Build "a" "new" 4464 Online Primary]>
  (<["b" := Build "b" "ubuntu" 3320 Online Secondary]> ∅).

(** ** utils.cc *)

Module Utils.

(** What the functions of utils.cc throw: [std::runtime_error] with its
    text, and the [std::out_of_range] of [std::string::at]. *)
Inductive std_exception : Type :=
| runtime_error (what : string)
| out_of_range.

(** A call returns, throws, or is stopped by a failed [assert]. *)
Inductive result (A : Type) : Type :=
| Returns (a : A)
| Throws (e : std_exception)
| Aborts.
Arguments Returns {A} a.
Arguments Throws {A} e.
Arguments Aborts {A}.

Definition kValidIPv6Chars : string := "abcdefgABCDEFG0123456789:".
Definition kValidPortChars : string := "0123456789".

(** *** Members of [std::string]; a position is [None] for [npos] *)

Fixpoint mem (c : ascii) (chars : string) : bool :=
  match chars with
  | String a chars' => Ascii.eqb a c || mem c chars'
  | EmptyString => false
  end.

(** [s.find_first_not_of(chars)] *)
Fixpoint find_first_not_of (chars s : string) : option nat :=
  match s with
  | String c s' => if mem c chars then S <$> find_first_not_of chars s' else Some 0%nat
  | EmptyString => None
  end.

(** [s.find(c)] *)
Fixpoint find_char (c : ascii) (s : string) : option nat :=
  match s with
  | String a s' => if Ascii.eqb a c then Some 0%nat else S <$> find_char c s'
  | EmptyString => None
  end.

Fixpoint string_drop (pos : nat) (s : string) : string :=
  match pos, s with
  | S pos', String _ s' => string_drop pos' s'
  | _, _ => s
  end.

Fixpoint string_take (n : nat) (s : string) : string :=
  match n, s with
  | S n', String c s' => String c (string_take n' s')
  | _, _ => EmptyString
  end.

(** [s.find(c, pos)] *)
Definition find_char_from (c : ascii) (s : string) (pos : nat) : option nat :=
  (fun i => (pos + i)%nat) <$> find_char c (string_drop pos s).

(** [s.substr(pos, n)] and [s.substr(pos)], for [pos <= s.size()] (every
    call below is made with such a position). *)
Definition substr (s : string) (pos : nat) (n : option nat) : string :=
  match n with
  | Some n => string_take n (string_drop pos s)
  | None => string_drop pos s
  end.

(** [std::count(s.begin(), s.end(), c)] *)
Fixpoint count_char (c : ascii) (s : string) : nat :=
  match s with
  | String a s' => ((if Ascii.eqb a c then 1 else 0) + count_char c s')%nat
  | EmptyString => 0%nat
  end.

(** [s.back()] *)
Fixpoint back (s : string) : option ascii :=
  match s with
  | EmptyString => None
  | String c EmptyString => Some c
  | String _ s' => back s'
  end.

(** *** [left_trim], [right_trim], [trim] *)

Definition left_trim (str : string) : string := skip_space str.

(** The reverse iterators walk the string from its end. *)
Definition right_trim (str : string) : string :=
  String.rev (skip_space (String.rev str)).

Definition trim (str : string) : string := right_trim (left_trim str).

(** *** [get_tcp_port], [split_addr_port] *)

(** [strtol] throws nothing, so the two [catch] clauses are never entered. *)
Definition get_tcp_port (data : string) : result Z :=
  if bool_decide (find_first_not_of kValidPortChars data <> None)
     || (5 <? String.length data)%nat
  then Throws (runtime_error "invalid characters or too long")
  else
    let port := match data with
                | EmptyString => 0%Z
                | _ => to_int (strtol data)
                end in
    if (65535 <? port)%Z then Throws (runtime_error "impossible port number")
    else Returns (to_uint16 port).

(** The [try] around [get_tcp_port] in [split_addr_port]. *)
Definition port_of (addr data : string) : result (string * Z) :=
  match get_tcp_port data with
  | Returns port => Returns (addr, port)
  | Throws (runtime_error what) => Throws (runtime_error ("invalid TCP port: " +:+ what))
  | Throws e => Throws e
  | Aborts => Aborts
  end.

Definition split_addr_port (data : string) : result (string * Z) :=
  let data := trim data in
  match data with
  | EmptyString => Throws out_of_range          (* data.at(0) *)
  | String c0 _ =>
      if Ascii.eqb c0 "[" then
        (* IPv6 with port *)
        match find_char "]" data with
        | None =>
            Throws (runtime_error "invalid IPv6 address: missing closing square bracket")
        | Some pos =>
            let addr := substr data 1 (Some (pos - 1)%nat) in
            if bool_decide (find_first_not_of kValidIPv6Chars addr <> None) then
              Throws (runtime_error "invalid IPv6 address: illegal character(s)")
            else
              match find_char_from ":" data pos with
              | Some pos => port_of addr (substr data (pos + 1) None)
              | None => Returns (addr, 0%Z)
              end
        end
      else if (1 <? count_char ":" data)%nat then
        (* IPv6 without port *)
        if bool_decide (find_char "]" data <> None) then
          Throws (runtime_error "invalid IPv6 address: missing opening square bracket")
        else if bool_decide (find_first_not_of kValidIPv6Chars data <> None) then
          Throws (runtime_error "invalid IPv6 address: illegal character(s)")
        else Returns (data, 0%Z)
      else
        (* IPv4 or address *)
        match find_char ":" data with
        | Some pos => port_of (substr data 0 (Some pos)) (substr data (pos + 1) None)
        | None => Returns (substr data 0 None, 0%Z)
        end
  end.

(** *** [split_string] *)

(** [std::getline(ss, token, delimiter)] on a stream that holds [ss]: the
    characters up to the next delimiter, which is consumed and not stored;
    at the end of the stream it fails. *)
Fixpoint until (delimiter : ascii) (ss : string) : string * string :=
  match ss with
  | EmptyString => (EmptyString, EmptyString)
  | String c ss' =>
      if Ascii.eqb c delimiter then (EmptyString, ss')
      else let '(token, rest) := until delimiter ss' in (String c token, rest)
  end.

Definition getline (delimiter : ascii) (ss : string) : option (string * string) :=
  match ss with
  | EmptyString => None
  | _ => Some (until delimiter ss)
  end.

(** The [while] loop; every round consumes at least one character of the
    stream, so [fuel] rounds are enough for a stream of [fuel] characters. *)
Fixpoint split_loop (fuel : nat) (delimiter : ascii) (allow_empty : bool)
    (ss : string) (result : list string) : list string :=
  match fuel with
  | O => result
  | S fuel' =>
      match getline delimiter ss with
      | None => result
      | Some (token, ss') =>
          if String.eqb token "" && negb allow_empty then
            split_loop fuel' delimiter allow_empty ss' result
          else split_loop fuel' delimiter allow_empty ss' (result ++ [token])%list
      end
  end.

Definition split_string (data : string) (delimiter : ascii) (allow_empty : bool)
  : list string :=
  match data with
  | EmptyString => []
  | _ =>
      let result := split_loop (String.length data) delimiter allow_empty data [] in
      if allow_empty && bool_decide (back data = Some delimiter) then (result ++ [""])%list
      else result
  end.

(** *** [strtoi_checked], [strtoui_checked] *)

Fixpoint skip_digits (s : string) : string :=
  match s with
  | String c s' => if bool_decide (is_Some (digit_of c)) then skip_digits s' else s
  | EmptyString => s
  end.

Definition take_sign (s : string) : bool * string :=
  match s with
  | String "-"%char s' => (true, s')
  | String "+"%char s' => (false, s')
  | _ => (false, s)
  end.

(** What [strtol] and [strtoul] have in common in base 10: white space, a
    sign, digits.  [None] when there is no digit to convert; else the sign,
    the magnitude and the rest of the text. *)
Definition scan_number (nptr : string) : option (bool * Z * string) :=
  let '(negative, s) := take_sign (skip_space nptr) in
  match s with
  | String c _ =>
      if bool_decide (is_Some (digit_of c))
      then Some (negative, digits_value s 0%Z, skip_digits s)
      else None
  | EmptyString => None
  end.

(** [strtol(nptr, &endptr, 10)] on a 64-bit [long]: [None] when no
    conversion is performed ([endptr == nptr]); else the value, what
    [endptr] points at, and whether [errno] is set to [ERANGE]. *)
Definition strtol_end (nptr : string) : option (Z * string * bool) :=
  match scan_number nptr with
  | None => None
  | Some (negative, magnitude, endptr) =>
      let v := (if negative then - magnitude else magnitude)%Z in
      Some (Z.max (- 2 ^ 63) (Z.min (2 ^ 63 - 1) v), endptr,
            negb ((- 2 ^ 63 <=? v) && (v <=? 2 ^ 63 - 1))%Z)
  end.

(** [strtoul(nptr, &endptr, 10)] on a 64-bit [unsigned long]; a minus sign
    negates the magnitude modulo 2^64. *)
Definition strtoul_end (nptr : string) : option (Z * string * bool) :=
  match scan_number nptr with
  | None => None
  | Some (negative, magnitude, endptr) =>
      if (2 ^ 64 - 1 <? magnitude)%Z then Some ((2 ^ 64 - 1)%Z, endptr, true)
      else Some ((if negative then (- magnitude) mod 2 ^ 64 else magnitude)%Z, endptr, false)
  end.

(** [static_cast<unsigned>] *)
Definition to_uint (v : Z) : Z := (v mod 2 ^ 32)%Z.

(** [kMaxDigits] for the two instances of the template, whose [RET] has
    four bytes: [(int)(4 * 2.41 + 1.0)]. *)
Definition kMaxDigits : nat := 10.

(** The loop over the first [kMaxDigits + 2] characters: [true] when the
    terminator is found before a character that is not allowed. *)
Fixpoint valid_chars (is_signed : bool) (n : nat) (value : string) : bool :=
  match n with
  | O => false
  | S n' =>
      match value with
      | EmptyString => true
      | String c value' =>
          if bool_decide (is_Some (digit_of c))
             || (Ascii.eqb c "-" && is_signed) || Ascii.eqb c "+"
          then valid_chars is_signed n' value'
          else false
      end
  end.

(** The template, with [std::is_signed<RET>], the narrowing cast to [RET]
    and the conversion function as parameters; [value] is [None] for the
    null pointer.  The value of [errno] that the function restores is not
    modelled. *)
Definition strtoX_checked_common (is_signed : bool) (narrow : Z -> Z)
    (conv_func : string -> option (Z * string * bool))
    (value : option string) (default_value : Z) : Z :=
  match value with
  | None => default_value
  | Some value =>
      if negb (valid_chars is_signed (kMaxDigits + 2) value) then default_value
      else
        match conv_func value with
        | None => default_value                       (* value == tmp *)
        | Some (result, tmp, erange) =>
            if negb (String.eqb tmp "") || erange then default_value
            else
              let r := narrow result in
              if (r =? result)%Z then r else default_value
        end
  end.

Definition strtoi_checked : option string -> Z -> Z :=
  strtoX_checked_common true to_int strtol_end.

Definition strtoui_checked : option string -> Z -> Z :=
  strtoX_checked_common false to_uint strtoul_end.

(** *** [substitute_envvar] *)

(** [s.find(pattern)] *)
Fixpoint find_string (pattern s : string) : option nat :=
  if String.prefix pattern s then Some 0%nat
  else
    match s with
    | String _ s' => S <$> find_string pattern s'
    | EmptyString => None
    end.

(** [s.replace(pos, n, value)], for [pos <= s.size()] *)
Definition replace (s : string) (pos n : nat) (value : string) : string :=
  string_take pos s +:+ value +:+ string_drop (pos + n) s.

(** [getenv] gives the environment of the process; the function returns
    its result and leaves the substituted text in [line]. *)
Definition substitute_envvar (getenv : string -> option string) (line : string)
  : bool * string :=
  match find_string "ENV{" line with
  | None => (true, line)
  | Some pos_start =>
      match find_char_from "}" line (pos_start + 4) with
      | None => (false, line)
      | Some pos_end =>
          let env_var := substr line (pos_start + 4) (Some (pos_end - pos_start - 4)%nat) in
          if String.eqb env_var "" then (false, line)
          else
            match getenv env_var with
            | None => (false, line)
            | Some env_var_value =>
                (true, replace line pos_start (String.length env_var + 5) env_var_value)
            end
      end
  end.

(** *** [wrap_string] *)

(** [s.find_last_of(c, pos)]: the last position up to [pos] that holds
    [c]. *)
Fixpoint find_last_of (c : ascii) (s : string) (pos : nat) : option nat :=
  match s with
  | EmptyString => None
  | String a s' =>
      match pos with
      | O => if Ascii.eqb a c then Some 0%nat else None
      | S pos' =>
          match find_last_of c s' pos' with
          | Some i => Some (S i)
          | None => if Ascii.eqb a c then Some 0%nat else None
          end
      end
  end.

(** [work.erase(std::remove(..., '\r'), work.end())] and
    [std::replace(..., '\t', ' ')] *)
Fixpoint remove_cr (s : string) : string :=
  match s with
  | String a s' => if Ascii.eqb a "013" then remove_cr s' else String a (remove_cr s')
  | EmptyString => EmptyString
  end.

Fixpoint replace_tab (s : string) : string :=
  match s with
  | String a s' => String (if Ascii.eqb a "009" then " "%char else a) (replace_tab s')
  | EmptyString => EmptyString
  end.

(** [string(indent_size, ' ')] *)
Fixpoint spaces (n : nat) : string :=
  match n with
  | O => EmptyString
  | S n' => String " " (spaces n')
  end.

(** The [do ... while] loop with what follows it.  Nothing in the loop
    makes [prev_pos] grow, so the loop can go on for ever; [fuel] bounds
    the number of rounds and the result is [None] when it runs out.
    [wrap_pos - prev_pos] is a difference of [size_t]: when [wrap_pos] is
    the smaller one it wraps around to a count that reaches past the end of
    the text. *)
Fixpoint wrap_loop (fuel : nat) (work indent : string) (real_width prev_pos : nat)
    (res : list string) : option (list string) :=
  match fuel with
  | O => None
  | S fuel' =>
      let curr_pos := (prev_pos + real_width)%nat in
      (* respect forcing newline *)
      let wrap_pos :=
        match find_char_from "010" work prev_pos with
        | Some wrap_pos =>
            if (curr_pos <? wrap_pos)%nat then find_last_of " " work curr_pos
            else Some wrap_pos
        | None => find_last_of " " work curr_pos
        end in
      match wrap_pos with
      | Some wrap_pos =>
          let line :=
            if (wrap_pos <? prev_pos)%nat then substr work prev_pos None
            else substr work prev_pos (Some (wrap_pos - prev_pos)%nat) in
          let res := (res ++ [indent +:+ line])%list in
          let prev_pos := (wrap_pos + 1)%nat in
          if (real_width <? String.length work - prev_pos)%nat
             || bool_decide (find_char_from "010" work prev_pos <> None)
          then wrap_loop fuel' work indent real_width prev_pos res
          else Some (res ++ [indent +:+ substr work prev_pos None])%list
      | None => Some (res ++ [indent +:+ substr work prev_pos None])%list
      end
  end.

(** [width - indent_size] is a difference of [size_t] (64 bits). *)
Definition wrap_string (fuel : nat) (to_wrap : string) (width indent_size : nat)
  : option (list string) :=
  let indent := spaces indent_size in
  let real_width := Z.to_nat ((Z.of_nat width - Z.of_nat indent_size) mod 2 ^ 64) in
  if (String.length to_wrap <? real_width)%nat then Some [indent +:+ to_wrap]
  else
    let work := replace_tab (remove_cr to_wrap) in
    wrap_loop fuel work indent real_width 0 [].

(** *** [hexdump] *)

(** [std::endl] writes a line feed. *)
Definition endl : ascii := "010"%char.

(** A digit of [std::hex], which is lower case. *)
Definition hex_digit (n : N) : ascii :=
  ascii_of_N (if (n <? 10)%N then 48 + n else 87 + n).

(** What [setfill('0') << setw(2) << hex] writes for the byte as an [int]. *)
Definition hex_byte (b : Byte.byte) : string :=
  let n := Byte.to_N b in
  String (hex_digit (n / 16)) (String (hex_digit (n mod 16)) EmptyString).

(** The bytes written as characters when [literals] is set: those from 0x41
    to 0x5a, and those from 61 (in decimal) to 0x7a. *)
Definition is_literal (b : Byte.byte) : bool :=
  let n := Byte.to_N b in
  ((0x41 <=? n) && (n <=? 0x5a))%N || ((61 <=? n) && (n <=? 0x7a))%N.

(** The loop over the bytes, with the number [w] of bytes that still fit on
    the line, and the line feed that closes a line left open. *)
Fixpoint hexdump_loop (literals : bool) (bytes : list Byte.byte) (w : nat) : string :=
  match bytes with
  | [] => if (w <? 16)%nat then String endl EmptyString else EmptyString
  | b :: rest =>
      (if literals && is_literal b
       then String " " (String (ascii_of_byte b) EmptyString)   (* setfill(' ') << setw(2) *)
       else hex_byte b)
      +:+ (if (w =? 1)%nat then String endl (hexdump_loop literals rest 16)
           else String " " (hexdump_loop literals rest (w - 1)))
  end.

(** The function reads the [count] bytes that follow [buffer + start]; the
    buffer has to hold them (the function cannot check it). *)
Definition hexdump (buffer : list Byte.byte) (count : nat) (start : nat) (literals : bool)
  : string :=
  hexdump_loop literals (firstn count (skipn start buffer)) 16.

(** *** [check_user], [set_user] *)

(** The two fields of [struct passwd] that the functions read. *)
Record passwd : Type := { pw_uid : Z; pw_gid : Z }.

(** [SysUserOperationsBase]: the system calls behind an interface, here
    over a state [OS] of the operating system.  A call returns the new
    state and what the system call returns; the lookups return [None] for
    the null pointer. *)
Record SysUserOperationsBase (OS : Type) : Type := {
  initgroups : OS -> string -> Z -> OS * Z;
  setgid : OS -> Z -> OS * Z;
  setuid : OS -> Z -> OS * Z;
  setegid : OS -> Z -> OS * Z;
  seteuid : OS -> Z -> OS * Z;
  geteuid : OS -> OS * Z;
  getpwnam : OS -> string -> OS * option passwd;
  getpwuid : OS -> Z -> OS * option passwd;
  chown : OS -> string -> Z -> Z -> OS * Z;
  (** [strerror(errno)] *)
  last_error : OS -> string
}.
Arguments initgroups {OS}. Arguments setgid {OS}. Arguments setuid {OS}.
Arguments setegid {OS}. Arguments seteuid {OS}. Arguments geteuid {OS}.
Arguments getpwnam {OS}. Arguments getpwuid {OS}. Arguments chown {OS}.
Arguments last_error {OS}.

Section SysUser.

Context {OS : Type}.
Variable sys_user_operations : SysUserOperationsBase OS.
Variable NDEBUG : bool.

Definition check_if_root (os : OS) (username : string) : OS * result bool :=
  let '(os, user_id) := geteuid sys_user_operations os in
  if negb (user_id =? 0)%Z then
    let '(os, tmp_user_info) := getpwnam sys_user_operations os username in
    match tmp_user_info with
    | Some info =>
        if negb (user_id =? pw_uid info)%Z then
          (os, Throws (runtime_error
                         "One can only use the -u/--user switch if running as root"))
        else (os, Returns false)
    | None =>
        (os, Throws (runtime_error
                       "One can only use the -u/--user switch if running as root"))
    end
  else (os, Returns true).

Definition get_user_info (os : OS) (username : string) : OS * result passwd :=
  let failed :=
    Throws (runtime_error ("Can't use user '" +:+ username
                           +:+ "'. Please check that the user exists!")) in
  match getpwnam sys_user_operations os username with
  | (os, Some info) => (os, Returns info)
  | (os, None) =>
      (* Allow a numeric uid to be used *)
      if negb (String.eqb (skip_digits username) "") then (os, failed)
      else
        match getpwuid sys_user_operations os (to_uint (atoi username)) with
        | (os, Some info) => (os, Returns info)
        | (os, None) => (os, failed)
        end
  end.

(** The result is [None] for the null pointer: there is nothing to
    change. *)
Definition check_user (os : OS) (username : string) (must_be_root : bool)
  : OS * result (option passwd) :=
  if negb NDEBUG && String.eqb username "" then (os, Aborts)
  else
    let lookup os :=
      match get_user_info os username with
      | (os, Returns info) => (os, Returns (Some info))
      | (os, Throws e) => (os, Throws e)
      | (os, Aborts) => (os, Aborts)
      end in
    if must_be_root then
      match check_if_root os username with
      | (os, Returns false) => (os, Returns None)
      | (os, Returns true) =>
          if String.eqb username "root" then (os, Returns None) else lookup os
      | (os, Throws e) => (os, Throws e)
      | (os, Aborts) => (os, Aborts)
      end
    else lookup os.

Definition set_user_priv (os : OS) (username : string) (user_info_arg : passwd)
    (permanently : bool) : OS * result unit :=
  let failed os (call : string) :=
    (os, Throws (runtime_error ("Error trying to set the user. " +:+ call +:+ " failed: "
                                +:+ last_error sys_user_operations os +:+ " "))) in
  let '(os, _) := initgroups sys_user_operations os username (pw_gid user_info_arg) in
  if permanently then
    let '(os, r) := setgid sys_user_operations os (pw_gid user_info_arg) in
    if (r =? -1)%Z then failed os "setgid"
    else
      let '(os, r) := setuid sys_user_operations os (pw_uid user_info_arg) in
      if (r =? -1)%Z then failed os "setuid" else (os, Returns tt)
  else
    let '(os, r) := setegid sys_user_operations os (pw_gid user_info_arg) in
    if (r =? -1)%Z then failed os "setegid"
    else
      let '(os, r) := seteuid sys_user_operations os (pw_uid user_info_arg) in
      if (r =? -1)%Z then failed os "seteuid" else (os, Returns tt).

Definition set_user (os : OS) (username : string) (permanently : bool)
  : OS * result unit :=
  match check_user os username permanently with
  | (os, Returns (Some user_info)) => set_user_priv os username user_info permanently
  | (os, Returns None) => (os, Returns tt)
  | (os, Throws e) => (os, Throws e)
  | (os, Aborts) => (os, Aborts)
  end.

End SysUser.

(** *** Vocabulary of the statements about utils.cc *)

(** A string of white space only. *)
Fixpoint blank (s : string) : bool :=
  match s with
  | String c s' => isspace c && blank s'
  | EmptyString => true
  end.

(** A string of decimal digits only. *)
Fixpoint only_digits (s : string) : bool :=
  match s with
  | String c s' => bool_decide (is_Some (digit_of c)) && only_digits s'
  | EmptyString => true
  end.

(** The number that a text denotes when it is an optional sign followed by
    one or more decimal digits, and nothing else. *)
Definition signed_decimal (s : string) : option Z :=
  let '(negative, digits) := take_sign s in
  if negb (String.eqb digits "") && only_digits digits
  then Some (if negative then - digits_value digits 0 else digits_value digits 0)%Z
  else None.

(** The tokens put back together with the delimiter between them. *)
Fixpoint join (delimiter : ascii) (tokens : list string) : string :=
  match tokens with
  | [] => EmptyString
  | [token] => token
  | token :: rest => token +:+ String delimiter (join delimiter rest)
  end.

(** A word: no blank, line feed, tab or carriage return. *)
Fixpoint word (s : string) : bool :=
  match s with
  | String a s' =>
      negb (Ascii.eqb a " " || Ascii.eqb a "010" || Ascii.eqb a "009" || Ascii.eqb a "013")
      && word s'
  | EmptyString => true
  end.

(** The system calls that were made, with what they returned, oldest
    first. *)
Inductive syscall : Type :=
| Initgroups (user : string) (gid ret : Z)
| Setgid (gid ret : Z)
| Setuid (uid ret : Z)
| Setegid (gid ret : Z)
| Seteuid (uid ret : Z)
| Geteuid (ret : Z)
| Getpwnam (name : string) (ret : option passwd)
| Getpwuid (uid : Z) (ret : option passwd)
| Chown (file : string) (owner group ret : Z).

(** An implementation of the interface that records the calls made on
    another one. *)
Definition recorded {OS A} (call : A -> syscall) (run : OS -> OS * A)
  : OS * list syscall -> (OS * list syscall) * A :=
  fun '(os, calls) => let '(os', ret) := run os in ((os', (calls ++ [call ret])%list), ret).

Definition recording {OS} (ops : SysUserOperationsBase OS)
  : SysUserOperationsBase (OS * list syscall) := {|
  initgroups := fun s user gid =>
    recorded (Initgroups user gid) (fun os => initgroups ops os user gid) s;
  setgid := fun s gid => recorded (Setgid gid) (fun os => setgid ops os gid) s;
  setuid := fun s uid => recorded (Setuid uid) (fun os => setuid ops os uid) s;
  setegid := fun s gid => recorded (Setegid gid) (fun os => setegid ops os gid) s;
  seteuid := fun s uid => recorded (Seteuid uid) (fun os => seteuid ops os uid) s;
  geteuid := fun s => recorded Geteuid (fun os => geteuid ops os) s;
  getpwnam := fun s name => recorded (Getpwnam name) (fun os => getpwnam ops os name) s;
  getpwuid := fun s uid => recorded (Getpwuid uid) (fun os => getpwuid ops os uid) s;
  chown := fun s file owner group =>
    recorded (Chown file owner group) (fun os => chown ops os file owner group) s;
  last_error := fun s => last_error ops s.1
|}.

(** The calls that change nothing: the lookups of ids and names. *)
Definition is_lookup (c : syscall) : bool :=
  match c with
  | Geteuid _ | Getpwnam _ _ | Getpwuid _ _ => true
  | _ => false
  end.

(** The call that sets the group id, and the one that sets the user id,
    for good or for the effective id only. *)
Definition set_group (permanently : bool) (gid ret : Z) : syscall :=
  if permanently then Setgid gid ret else Setegid gid ret.

Definition set_user_id (permanently : bool) (uid ret : Z) : syscall :=
  if permanently then Setuid uid ret else Seteuid uid ret.

(** A system with the account of root and one other account, on which
    every change succeeds; [euid] is the effective user id of the process. *)
Definition sample_account : passwd := {| pw_uid := 1001; pw_gid := 1002 |}.

Definition sample_operations (euid : Z) : SysUserOperationsBase unit := {|
  initgroups := fun os _ _ => (os, 0%Z);
  setgid := fun os _ => (os, 0%Z);
  setuid := fun os _ => (os, 0%Z);
  setegid := fun os _ => (os, 0%Z);
  seteuid := fun os _ => (os, 0%Z);
  geteuid := fun os => (os, euid);
  getpwnam := fun os name =>
    (os, if String.eqb name "root" then Some {| pw_uid := 0; pw_gid := 0 |}
         else if String.eqb name "mysqlrouter" then Some sample_account
         else None);
  getpwuid := fun os uid =>
    (os, if (uid =? 0)%Z then Some {| pw_uid := 0; pw_gid := 0 |}
         else if (uid =? 1001)%Z then Some sample_account
         else None);
  chown := fun os _ _ _ => (os, 0%Z);
  last_error := fun _ => "Operation not permitted"
|}.

(** Reads a dump back: two characters for a byte, and one that separates
    it from the next. *)
Definition hex_value (c : ascii) : N :=
  let n := N_of_ascii c in if (n <? 58)%N then (n - 48)%N else (n - 87)%N.

Fixpoint unhexdump (dump : string) : list Byte.byte :=
  match dump with
  | String a (String b (String _ rest)) =>
      (if Ascii.eqb a " " then byte_of_ascii b
       else default Byte.x00 (Byte.of_N (16 * hex_value a + hex_value b)))
      :: unhexdump rest
  | _ => []
  end.

End Utils.

(* ===================================================================== *)
(** * Part II. Properties                                                 *)
(* ===================================================================== *)

(** ** The members lambda, row by row *)

Lemma single_primary_mode_true flag :
  single_primary_mode flag = true <-> flag = Some "1" \/ flag = Some "ON".
Proof.
  destruct flag as [f|]; simpl.
  - rewrite orb_true_iff, !String.eqb_eq. split; intros [H|H]; [left|right|left|right]; congruence.
  - split; [discriminate | intros [H|H]; discriminate].
Qed.

Lemma member_role_rule primary_member id b :
  role_rule b primary_member id (member_role primary_member id b).
Proof.
  unfold role_rule, member_role.
  destruct (String.eqb primary_member id) eqn:E, b; simpl; auto.
  - apply String.eqb_eq in E. subst. split; [tauto | congruence].
  - apply String.eqb_neq in E. split; [split; [discriminate | congruence] | reflexivity].
Qed.

Lemma members_processor_well_formed primary_member st id h pt s flag :
  members_processor primary_member st [Some id; Some h; Some pt; Some s; flag]
  = (FetchState (<[id := member_of primary_member id h pt s flag]> (members st))
       (single_primary_mode flag)
       (if snd (member_state_of s) then logged st
        else (logged st ++
              [(LogInfo, "Unknown state " +:+ s
                         +:+ " in replication_group_members table for " +:+ id)])%list),
     Return true).
Proof.
  unfold members_processor, member_of.
  destruct (member_state_of s) as [state known]. reflexivity.
Qed.

(** Whatever the row, the lambda either accepts it and asks for the next one,
    or throws a [metadata_error]. *)
Lemma members_processor_cases primary_member st row :
  (well_formed row /\ exists st', members_processor primary_member st row = (st', Return true))
  \/ (~ well_formed row
      /\ exists st' msg, members_processor primary_member st row = (st', Throw (metadata_error msg))).
Proof.
  destruct row as [|f0 [|f1 [|f2 [|f3 [|f4 [|f5 row]]]]]];
    try (right; split; [intros (?&?&?&?&?&?); discriminate | simpl; eauto]).
  destruct f0 as [id|], f1 as [h|], f2 as [pt|], f3 as [s|];
    try (right; split; [intros (?&?&?&?&?&?); discriminate | simpl; eauto]).
  left. split; [unfold well_formed; eauto 10 |].
  rewrite members_processor_well_formed. eauto.
Qed.

(** ** The members lambda over a whole result set *)

Lemma feed_rows_cons {St} (processor : RowProcessor St) row rest st :
  feed_rows processor (row :: rest) st
  = match processor st row with
    | (st', Return true) => feed_rows processor rest st'
    | (st', Return false) => (st', Return tt)
    | (st', Throw e) => (st', Throw e)
    | (st', Abort) => (st', Abort)
    end.
Proof. reflexivity. Qed.

Lemma feed_members_outcome primary_member rows st :
  (Forall well_formed rows
   /\ exists st', feed_rows (members_processor primary_member) rows st = (st', Return tt))
  \/ (~ Forall well_formed rows
      /\ exists st' msg,
           feed_rows (members_processor primary_member) rows st
           = (st', Throw (metadata_error msg))).
Proof.
  revert st. induction rows as [|row rows IH]; intros st; simpl.
  - left. split; [constructor | eauto].
  - destruct (members_processor_cases primary_member st row)
      as [[Hwf [st1 E]] | [Hnwf (st1 & msg & E)]]; rewrite E.
    + destruct (IH st1) as [[Hall Hex] | [Hnall Hex]].
      * left. split; [constructor; assumption | assumption].
      * right. split; [| assumption].
        intros H. apply Hnall. inversion H; assumption.
    + right. split; [| eauto].
      intros H. apply Hnwf. inversion H; assumption.
Qed.

Lemma feed_members_Return primary_member rows st st' :
  feed_rows (members_processor primary_member) rows st = (st', Return tt) ->
  (forall id m, members st' !! id = Some m ->
     members st !! id = Some m
     \/ exists h pt s flag,
          [Some id; Some h; Some pt; Some s; flag] ∈ rows
          /\ m = member_of primary_member id h pt s flag)
  /\ single_master st'
     = match last rows with
       | Some row => single_primary_mode (flag_of row)
       | None => single_master st
       end
  /\ logged st' = (logged st ++ concat (map unknown_state_log rows))%list.
Proof.
  revert st. induction rows as [|row rows IH]; intros st; simpl.
  - intros [= <-]. rewrite app_nil_r. auto.
  - destruct (members_processor_cases primary_member st row)
      as [[(id0 & h0 & pt0 & s0 & flag0 & ->) [st1 E]] | [_ (st1 & msg & E)]];
      rewrite E; [| discriminate].
    intros Hfeed. rewrite members_processor_well_formed in E.
    injection E as <-.
    destruct (IH _ Hfeed) as (Hmem & Hsm & Hlog). clear IH. simpl in *.
    split; [| split].
    + intros id m Hm. destruct (Hmem id m Hm) as [Hold | (h & pt & s & flag & Hin & ->)].
      * destruct (decide (id0 = id)) as [-> | Hne].
        -- rewrite lookup_insert_eq in Hold. injection Hold as <-.
           right. exists h0, pt0, s0, flag0. split; [left | reflexivity].
        -- rewrite lookup_insert_ne in Hold by assumption. auto.
      * right. exists h, pt, s, flag. split; [right; assumption | reflexivity].
    + rewrite Hsm. destruct rows as [|row' rows]; [reflexivity |].
      change (last (?x :: row' :: rows)) with (last (row' :: rows)).
      destruct (last (row' :: rows)) eqn:El; [reflexivity |].
      apply last_None in El. discriminate.
    + rewrite Hlog. destruct (snd (member_state_of s0)); simpl.
      * reflexivity.
      * rewrite <- app_assoc. reflexivity.
Qed.

(** No row of a result set that was folded to its end is dropped: the map
    only grows, and the id of every row is a key of it. *)
Lemma feed_members_dom primary_member rows st st' :
  feed_rows (members_processor primary_member) rows st = (st', Return tt) ->
  (forall id, is_Some (members st !! id) -> is_Some (members st' !! id))
  /\ (forall row, row ∈ rows ->
        exists id, row !! 0%nat = Some (Some id) /\ is_Some (members st' !! id)).
Proof.
  revert st. induction rows as [|row rows IH]; intros st.
  - intros [= <-]. split; [auto |]. intros row Hin. inversion Hin.
  - rewrite feed_rows_cons.
    destruct (members_processor_cases primary_member st row)
      as [[(id0 & h0 & pt0 & s0 & flag0 & ->) [st1 E]] | [_ (st1 & msg & E)]];
      rewrite E; [| discriminate].
    intros Hfeed. rewrite members_processor_well_formed in E. injection E as <-.
    destruct (IH _ Hfeed) as [Hgrow Hrows]. simpl in Hgrow. split.
    + intros id Hid. apply Hgrow.
      destruct (decide (id0 = id)) as [-> | Hne].
      * rewrite lookup_insert_eq. eauto.
      * rewrite lookup_insert_ne by assumption. assumption.
    + intros row Hin. apply elem_of_cons in Hin as [-> | Hin]; [| auto].
      exists id0. split; [reflexivity |]. apply Hgrow. rewrite lookup_insert_eq. eauto.
Qed.

(** The member that a completed fold leaves under an id is the one built
    from the last row that carries the id; an id that no row carries keeps
    what the map held before. *)
Lemma feed_members_last primary_member rows st st' :
  feed_rows (members_processor primary_member) rows st = (st', Return tt) ->
  forall id m, members st' !! id = Some m ->
    (members st !! id = Some m
     /\ forall row, row ∈ rows -> row !! 0%nat <> Some (Some id))
    \/ exists pre h pt s flag post,
         rows = (pre ++ [Some id; Some h; Some pt; Some s; flag] :: post)%list
         /\ (forall row, row ∈ post -> row !! 0%nat <> Some (Some id))
         /\ m = member_of primary_member id h pt s flag.
Proof.
  revert st. induction rows as [|row rows IH]; intros st.
  - intros [= <-] id m Hm. left. split; [exact Hm |]. intros row Hin. inversion Hin.
  - rewrite feed_rows_cons.
    destruct (members_processor_cases primary_member st row)
      as [[(id0 & h0 & pt0 & s0 & flag0 & ->) [st1 E]] | [_ (st1 & msg & E)]];
      rewrite E; [| discriminate].
    intros Hfeed id m Hm. rewrite members_processor_well_formed in E. injection E as <-.
    destruct (IH _ Hfeed id m Hm)
      as [[Hold Hnone] | (pre & h & pt & s & flag & post & -> & Hpost & ->)].
    + simpl in Hold. destruct (decide (id0 = id)) as [-> | Hne].
      * rewrite lookup_insert_eq in Hold. injection Hold as <-.
        right. exists [], h0, pt0, s0, flag0, rows. auto.
      * rewrite lookup_insert_ne in Hold by assumption.
        left. split; [exact Hold |].
        intros row Hin. apply elem_of_cons in Hin as [-> | Hin]; [| auto].
        simpl. congruence.
    + right. exists ([Some id0; Some h0; Some pt0; Some s0; flag0] :: pre), h, pt, s, flag, post.
      auto.
Qed.

(** ** The resolver against an arbitrary session *)

Section ResolverProperties.

Context {Conn : Type}.
Variable run : Conn -> string -> Conn * reply.
Variable NDEBUG : bool.

Local Abbreviation find := (find_group_replication_primary_member run NDEBUG).
Local Abbreviation fetch := (fetch_group_replication_members run NDEBUG).

(** Once the primary lookup has returned and the membership statement has
    produced its rows, the function is the fold of the lambda over them. *)
Lemma fetch_unfold c sm c1 primary c2 rows :
  find c = (c1, Return primary) ->
  run c1 members_query = (c2, inr rows) ->
  fetch c sm
  = let '(st, o) := feed_rows (members_processor primary) rows (FetchState ∅ sm []) in
    FetchResult c2 (single_master st) (logged st)
      match o with
      | Return _ => Return (members st)
      | Throw e => Throw e
      | Abort => Abort
      end.
Proof.
  intros Hfind Hrun. unfold fetch_group_replication_members, query.
  rewrite Hfind, Hrun.
  destruct (feed_members_outcome primary rows (FetchState ∅ sm []))
    as [[_ [st E]] | [_ (st & msg & E)]]; rewrite E; destruct st; reflexivity.
Qed.

(** A returned map always comes from a completed fold over the rows of the
    membership statement, run after the primary lookup. *)
Lemma fetch_Return_inv c sm ms :
  returned (fetch c sm) = Return ms ->
  exists c1 primary c2 rows st,
    find c = (c1, Return primary)
    /\ run c1 members_query = (c2, inr rows)
    /\ feed_rows (members_processor primary) rows (FetchState ∅ sm []) = (st, Return tt)
    /\ fetch c sm = FetchResult c2 (single_master st) (logged st) (Return ms)
    /\ ms = members st.
Proof.
  intros Hret.
  destruct (find c) as [c1 [primary | e | ]] eqn:Hfind;
    try (unfold fetch_group_replication_members in Hret; rewrite Hfind in Hret;
         discriminate).
  destruct (run c1 members_query) as [c2 [[msg code] | rows]] eqn:Hrun.
  { unfold fetch_group_replication_members, query in Hret.
    rewrite Hfind, Hrun in Hret. discriminate. }
  exists c1, primary, c2, rows.
  pose proof (fetch_unfold c sm c1 primary c2 rows Hfind Hrun) as Hf.
  destruct (feed_rows (members_processor primary) rows (FetchState ∅ sm []))
    as [st [[] | e | ]] eqn:Hfeed; rewrite Hf in Hret; simpl in Hret; try discriminate.
  injection Hret as <-. exists st. rewrite Hf. auto.
Qed.

(** Rows the lambda accepts never make the function throw, whatever their
    state strings and flags are. *)
Lemma fetch_accepts_well_formed c sm c1 primary c2 rows :
  find c = (c1, Return primary) ->
  run c1 members_query = (c2, inr rows) ->
  Forall well_formed rows ->
  exists st,
    feed_rows (members_processor primary) rows (FetchState ∅ sm []) = (st, Return tt)
    /\ fetch c sm = FetchResult c2 (single_master st) (logged st) (Return (members st)).
Proof.
  intros Hfind Hrun Hwf.
  destruct (feed_members_outcome primary rows (FetchState ∅ sm []))
    as [[_ [st E]] | [Hn _]]; [| contradiction].
  exists st. split; [assumption |].
  rewrite (fetch_unfold c sm c1 primary c2 rows Hfind Hrun), E. reflexivity.
Qed.

(** X6. On accepted rows the function returns a map that holds a member for the
    id of every row, and the log holds exactly the lines for the rows with
    an unknown state, in the order of the rows. *)
Lemma fetch_stores_every_row c sm c1 primary c2 rows :
  find c = (c1, Return primary) ->
  run c1 members_query = (c2, inr rows) ->
  Forall well_formed rows ->
  exists ms,
    returned (fetch c sm) = Return ms
    /\ log_out (fetch c sm) = concat (map unknown_state_log rows)
    /\ forall row, row ∈ rows ->
         exists id, row !! 0%nat = Some (Some id) /\ is_Some (ms !! id).
Proof.
  intros Hfind Hrun Hwf.
  destruct (fetch_accepts_well_formed c sm c1 primary c2 rows Hfind Hrun Hwf)
    as (st & Hfeed & ->).
  exists (members st). simpl. split; [reflexivity |].
  destruct (feed_members_Return _ _ _ _ Hfeed) as (_ & _ & Hlog).
  destruct (feed_members_dom _ _ _ _ Hfeed) as [_ Hrows].
  split; [exact Hlog | exact Hrows].
Qed.

(** C1 (amended). For every membership result set, each member of the
    returned map is the one built from a row of that set, namely from the
    last row that carries its id (a later row with the same id replaces the
    member an earlier one stored), the id of every row is a key of the map,
    and the role of a member follows the single-primary flag of the row it
    was built from: when that flag is true the member is Primary iff its id
    equals the primary id that the preceding status query returned, and
    Secondary otherwise; when that flag is false the member is Primary.
    When the flag has one and the same value in all rows, that value is the
    returned [single_master] and the rule holds for every member: with the
    flag false in all rows every member is Primary and none is Secondary. *)
Theorem fetch_assigns_roles c sm ms :
  returned (fetch c sm) = Return ms ->
  exists c1 primary c2 rows,
    find c = (c1, Return primary)
    /\ run c1 members_query = (c2, inr rows)
    /\ (forall id m, ms !! id = Some m ->
          member_id m = id
          /\ exists pre h pt s flag post,
               rows = (pre ++ [Some id; Some h; Some pt; Some s; flag] :: post)%list
               /\ (forall row, row ∈ post -> row !! 0%nat <> Some (Some id))
               /\ m = member_of primary id h pt s flag
               /\ role_rule (single_primary_mode flag) primary id (role m))
    /\ (forall row, row ∈ rows ->
          exists id, row !! 0%nat = Some (Some id) /\ is_Some (ms !! id))
    /\ (forall b, (forall row, row ∈ rows -> single_primary_mode (flag_of row) = b) ->
          (rows <> [] -> single_master_out (fetch c sm) = b)
          /\ forall id m, ms !! id = Some m -> role_rule b primary id (role m)).
Proof.
  intros Hret.
  destruct (fetch_Return_inv c sm ms Hret)
    as (c1 & primary & c2 & rows & st & Hfind & Hrun & Hfeed & Hfetch & ->).
  exists c1, primary, c2, rows. split; [assumption |]. split; [assumption |].
  destruct (feed_members_Return _ _ _ _ Hfeed) as (_ & Hsm & _). simpl in Hsm.
  destruct (feed_members_dom _ _ _ _ Hfeed) as [_ Hkeys].
  assert (Hrow : forall id m, members st !! id = Some m ->
            member_id m = id
            /\ exists pre h pt s flag post,
                 rows = (pre ++ [Some id; Some h; Some pt; Some s; flag] :: post)%list
                 /\ (forall row, row ∈ post -> row !! 0%nat <> Some (Some id))
                 /\ m = member_of primary id h pt s flag
                 /\ role_rule (single_primary_mode flag) primary id (role m)).
  { intros id m Hm.
    destruct (feed_members_last _ _ _ _ Hfeed id m Hm)
      as [[Hempty _] | (pre & h & pt & s & flag & post & Hrows & Hpost & ->)].
    - simpl in Hempty. rewrite lookup_empty in Hempty. discriminate.
    - split; [reflexivity |]. exists pre, h, pt, s, flag, post.
      split; [exact Hrows |]. split; [exact Hpost |]. split; [reflexivity |].
      apply member_role_rule. }
  split; [exact Hrow |]. split; [exact Hkeys |].
  intros b Hb. split.
  - intros Hne. rewrite Hfetch. simpl. rewrite Hsm.
    destruct (last rows) as [row|] eqn:El.
    + apply Hb. apply last_Some in El as [pre ->]. apply elem_of_app. right. left.
    + apply last_None in El. contradiction.
  - intros id m Hm.
    destruct (Hrow id m Hm) as (_ & pre & h & pt & s & flag & post & Hrows & _ & _ & Hrule).
    rewrite <- (Hb [Some id; Some h; Some pt; Some s; flag]).
    + exact Hrule.
    + rewrite Hrows. apply elem_of_app. right. left.
Qed.

(** C2. When the membership result set holds a row one of whose first four
    fields (id, host, port, state) is null, the function throws a
    [metadata_error] and returns no map: the row is not skipped. *)
Theorem null_field_is_metadata_error c sm c1 primary c2 rows row i :
  find c = (c1, Return primary) ->
  run c1 members_query = (c2, inr rows) ->
  row ∈ rows ->
  (i < 4)%nat ->
  row !! i = Some None ->
  exists msg, returned (fetch c sm) = Throw (metadata_error msg).
Proof.
  intros Hfind Hrun Hin Hi Hnull.
  rewrite (fetch_unfold c sm c1 primary c2 rows Hfind Hrun).
  destruct (feed_members_outcome primary rows (FetchState ∅ sm []))
    as [[Hall _] | [_ (st & msg & E)]].
  - exfalso. rewrite Forall_forall in Hall.
    destruct (Hall row Hin) as (id & h & pt & s & flag & ->).
    destruct i as [|[|[|[|i]]]]; simpl in Hnull; try discriminate. lia.
  - rewrite E. simpl. eauto.
Qed.

(** X5. When the first membership row that is not accepted has five fields
    of which the id, host, port or state is null, the function throws a
    [metadata_error] with the text Unexpected value in
    group_replication_metadata query results; by then [single_master] has
    been written from the flag of that row, the session is past the
    membership statement, and the log holds the lines of the accepted rows
    with an unknown state followed by one warning that shows the statement
    and the five fields of the row, a null field as [(null)]. *)
Lemma null_field_first_bad_row c sm c1 primary c2 pre f0 f1 f2 f3 flag post :
  find c = (c1, Return primary) ->
  run c1 members_query = (c2, inr (pre ++ [f0; f1; f2; f3; flag] :: post)%list) ->
  Forall well_formed pre ->
  f0 = None \/ f1 = None \/ f2 = None \/ f3 = None ->
  fetch c sm
  = FetchResult c2 (single_primary_mode flag)
      (concat (map unknown_state_log pre) ++
       [(LogWarning,
         "Query " +:+ members_query +:+ " returned "
         +:+ show_field f0 +:+ ", " +:+ show_field f1 +:+ ", "
         +:+ show_field f2 +:+ ", " +:+ show_field f3 +:+ ", "
         +:+ show_field flag)])%list
      (Throw (metadata_error "Unexpected value in group_replication_metadata query results")).
Proof.
  intros Hfind Hrun Hpre Hnull.
  rewrite (fetch_unfold c sm c1 primary c2 _ Hfind Hrun).
  assert (Hgen : forall st,
    feed_rows (members_processor primary) (pre ++ [f0; f1; f2; f3; flag] :: post)%list st
    = (FetchState
         (match feed_rows (members_processor primary) pre st with (st1, _) => members st1 end)
         (single_primary_mode flag)
         (logged st ++ concat (map unknown_state_log pre) ++
          [(LogWarning,
            "Query " +:+ members_query +:+ " returned "
            +:+ show_field f0 +:+ ", " +:+ show_field f1 +:+ ", "
            +:+ show_field f2 +:+ ", " +:+ show_field f3 +:+ ", "
            +:+ show_field flag)])%list,
       Throw (metadata_error "Unexpected value in group_replication_metadata query results"))).
  { clear Hrun. induction Hpre as [|row pre (id & h & pt & s & fl & ->) _ IH]; intros st.
    - simpl app. rewrite feed_rows_cons.
      destruct f0, f1, f2, f3; try (destruct Hnull as [? | [? | [? | ?]]]; discriminate);
        reflexivity.
    - simpl app. rewrite !feed_rows_cons, members_processor_well_formed, IH.
      cbn [logged map concat unknown_state_log].
      destruct (snd (member_state_of s)); cbn [app]; rewrite <- ?app_assoc; reflexivity. }
  rewrite Hgen. reflexivity.
Qed.

(** C3. The state string of an accepted row is compared exactly (and so with
    regard to case) with the four known names, which map to Online, Offline,
    Unreachable and Recovering; any other string gives the state Other, the
    member is stored all the same, the lambda asks for the next row, and one
    info line naming the unknown state is logged. *)
Theorem unknown_state_is_other primary st id h pt s flag :
  exists m st',
    members_processor primary st [Some id; Some h; Some pt; Some s; flag] = (st', Return true)
    /\ members st' !! id = Some m
    /\ member_id m = id
    /\ (state m = Online <-> s = "ONLINE")
    /\ (state m = Offline <-> s = "OFFLINE")
    /\ (state m = Unreachable <-> s = "UNREACHABLE")
    /\ (state m = Recovering <-> s = "RECOVERING")
    /\ (state m = Other
        <-> s <> "ONLINE" /\ s <> "OFFLINE" /\ s <> "UNREACHABLE" /\ s <> "RECOVERING")
    /\ (state m <> Other -> logged st' = logged st)
    /\ (state m = Other ->
        logged st'
        = (logged st ++
           [(LogInfo, "Unknown state " +:+ s
                      +:+ " in replication_group_members table for " +:+ id)])%list).
Proof.
  rewrite members_processor_well_formed.
  eexists _, _. split; [reflexivity |]. simpl.
  split; [apply lookup_insert_eq |]. split; [reflexivity |].
  unfold member_of. simpl. unfold member_state_of.
  destruct (String.eqb s "ONLINE") eqn:E1;
    [apply String.eqb_eq in E1; subst; simpl; intuition (try discriminate; try congruence) |].
  destruct (String.eqb s "OFFLINE") eqn:E2;
    [apply String.eqb_eq in E2; subst; simpl; intuition (try discriminate; try congruence) |].
  destruct (String.eqb s "UNREACHABLE") eqn:E3;
    [apply String.eqb_eq in E3; subst; simpl; intuition (try discriminate; try congruence) |].
  destruct (String.eqb s "RECOVERING") eqn:E4;
    [apply String.eqb_eq in E4; subst; simpl; intuition (try discriminate; try congruence) |].
  apply String.eqb_neq in E1, E2, E3, E4. simpl.
  intuition (try discriminate; try congruence).
Qed.

(** C10 (amended). The null check of the lambda looks at id, host, port
    and state only: rows with five fields whose first four are not null are
    processed without error whatever the fifth field holds.  The fifth field
    counts as true exactly when it is the string 1 or the string ON (so null
    and any other string count as false), the returned [single_master] is
    the value of the last row, every member of the returned map is the one
    built from the last row that carries its id, the id of every row is a
    key of the map, and a row whose flag counts as false makes the member
    built from it Primary, whatever its id and the primary id are; every
    member is Primary when the flag is null or unrecognised in all rows. *)
Theorem null_flag_means_multi_master c sm c1 primary c2 rows :
  find c = (c1, Return primary) ->
  run c1 members_query = (c2, inr rows) ->
  Forall well_formed rows ->
  exists ms,
    returned (fetch c sm) = Return ms
    /\ (forall row, single_primary_mode (flag_of row) = true
                    <-> flag_of row = Some "1" \/ flag_of row = Some "ON")
    /\ single_master_out (fetch c sm)
       = match last rows with
         | Some row => single_primary_mode (flag_of row)
         | None => sm
         end
    /\ (forall id m, ms !! id = Some m ->
          exists pre h pt s flag post,
            rows = (pre ++ [Some id; Some h; Some pt; Some s; flag] :: post)%list
            /\ (forall row, row ∈ post -> row !! 0%nat <> Some (Some id))
            /\ m = member_of primary id h pt s flag
            /\ (single_primary_mode flag = false -> role m = Primary))
    /\ (forall row, row ∈ rows ->
          exists id, row !! 0%nat = Some (Some id) /\ is_Some (ms !! id))
    /\ ((forall row, row ∈ rows -> single_primary_mode (flag_of row) = false) ->
        forall id m, ms !! id = Some m -> role m = Primary).
Proof.
  intros Hfind Hrun Hwf.
  destruct (fetch_accepts_well_formed c sm c1 primary c2 rows Hfind Hrun Hwf)
    as (st & Hfeed & Hfetch).
  exists (members st). rewrite Hfetch. simpl.
  destruct (feed_members_Return _ _ _ _ Hfeed) as (_ & Hsm & _). simpl in Hsm.
  destruct (feed_members_dom _ _ _ _ Hfeed) as [_ Hkeys].
  assert (Hrow : forall id m, members st !! id = Some m ->
            exists pre h pt s flag post,
              rows = (pre ++ [Some id; Some h; Some pt; Some s; flag] :: post)%list
              /\ (forall row, row ∈ post -> row !! 0%nat <> Some (Some id))
              /\ m = member_of primary id h pt s flag
              /\ (single_primary_mode flag = false -> role m = Primary)).
  { intros id m Hm.
    destruct (feed_members_last _ _ _ _ Hfeed id m Hm)
      as [[Hempty _] | (pre & h & pt & s & flag & post & Hrows & Hpost & ->)].
    - simpl in Hempty. rewrite lookup_empty in Hempty. discriminate.
    - exists pre, h, pt, s, flag, post.
      split; [exact Hrows |]. split; [exact Hpost |]. split; [reflexivity |].
      intros Hflag. unfold member_of. simpl. unfold member_role. rewrite Hflag.
      rewrite orb_true_r. reflexivity. }
  split; [reflexivity |].
  split; [intros row; apply single_primary_mode_true |].
  split; [exact Hsm |]. split; [exact Hrow |]. split; [exact Hkeys |].
  intros Hall id m Hm.
  destruct (Hrow id m Hm) as (pre & h & pt & s & flag & post & Hrows & _ & _ & Hp).
  apply Hp. apply (Hall [Some id; Some h; Some pt; Some s; flag]).
  rewrite Hrows. apply elem_of_app. right. left.
Qed.

End ResolverProperties.

(** ** The order of the two statements *)

Section Ordering.

Context {Conn : Type}.
Variable run : Conn -> string -> Conn * reply.
Variable NDEBUG : bool.

Lemma find_traced c trace :
  find_group_replication_primary_member (traced run) NDEBUG (c, trace)
  = let '(c1, o) := find_group_replication_primary_member run NDEBUG c in
    ((c1, (trace ++ [primary_member_query])%list), o).
Proof.
  unfold find_group_replication_primary_member, query, traced.
  destruct (run c primary_member_query) as [c1 [[msg code] | rows]]; [reflexivity |].
  destruct (feed_rows (primary_member_processor NDEBUG) rows "") as [pm [[] | [w z | w] | ]];
    reflexivity.
Qed.

Lemma find_runs_primary_member_query c :
  (find_group_replication_primary_member run NDEBUG c).1 = (run c primary_member_query).1.
Proof.
  unfold find_group_replication_primary_member, query.
  destruct (run c primary_member_query) as [c1 [[msg code] | rows]]; [reflexivity |].
  destruct (feed_rows (primary_member_processor NDEBUG) rows "") as [pm [[] | [w z | w] | ]];
    reflexivity.
Qed.

(** C4. On every call the status statement is run first, on the connection
    as it is on entry; the membership statement is run second, on the
    connection that the status statement left, and only when the primary
    lookup has returned; nothing else is run.  The rows of the membership
    statement are folded with the primary id that the earlier statement
    produced. *)
Theorem queries_in_order c trace sm :
  let r := fetch_group_replication_members (traced run) NDEBUG (c, trace) sm in
  exists c1 o,
    find_group_replication_primary_member run NDEBUG c = (c1, o)
    /\ c1 = (run c primary_member_query).1
    /\ match o with
       | Return primary =>
           exists c2 answer,
             run c1 members_query = (c2, answer)
             /\ connection r = (c2, (trace ++ [primary_member_query; members_query])%list)
             /\ returned r
                = match answer with
                  | inl (msg, _) => Throw (metadata_error msg)
                  | inr rows =>
                      let '(st, o') :=
                        feed_rows (members_processor primary) rows (FetchState ∅ sm []) in
                      match o' with
                      | Return _ => Return (members st)
                      | Throw e => Throw e
                      | Abort => Abort
                      end
                  end
       | _ =>
           connection r = (c1, (trace ++ [primary_member_query])%list)
           /\ is_Return (returned r) = false
       end.
Proof.
  intros r. subst r.
  pose proof (find_runs_primary_member_query c) as Hfirst.
  unfold fetch_group_replication_members. rewrite find_traced.
  destruct (find_group_replication_primary_member run NDEBUG c) as [c1 o] eqn:Hfind.
  simpl in Hfirst. exists c1, o. split; [reflexivity |]. split; [assumption |].
  destruct o as [primary | e | ]; [| split; reflexivity | split; reflexivity].
  unfold query, traced.
  destruct (run c1 members_query) as [c2 [[msg code] | rows]] eqn:Hrun.
  - exists c2, (inl (msg, code)). simpl. rewrite <- app_assoc. auto.
  - exists c2, (inr rows). split; [reflexivity |].
    destruct (feed_members_outcome primary rows (FetchState ∅ sm []))
      as [[_ [st E]] | [_ (st & msg & E)]]; rewrite E; destruct st; simpl; rewrite <- app_assoc; auto.
Qed.

End Ordering.

(** ** The resolver on the sample sessions *)

Example fetch_sample :
  fetch_group_replication_members replay true sample_session false
  = FetchResult [] true [] (Return sample_members).
Proof. vm_compute. reflexivity. Qed.

Example fetch_null_host :
  fetch_group_replication_members replay true null_host_session false
  = FetchResult [] true
      [(LogWarning,
        "Query " +:+ members_query +:+ " returned "
        +:+ "4c08b4a2-861d-11e6-a256-08002741aeb6, (null), 3330, ONLINE, 1")]
      (Throw (metadata_error "Unexpected value in group_replication_metadata query results")).
Proof. vm_compute. reflexivity. Qed.

(** Rows that disagree on the flag: each member keeps the role its own row
    gave it, and the caller sees the flag of the last row. *)
Example fetch_mixed_flags :
  fetch_group_replication_members replay true mixed_flag_session true
  = FetchResult [] false [] (Return mixed_flag_members)
  /\ fetch_group_replication_members replay true one_null_flag_session true
     = FetchResult [] false [] (Return mixed_flag_members).
Proof. split; vm_compute; reflexivity. Qed.

(** C1 as it is stated fails on a result set whose rows disagree on the
    flag: the second row clears the flag, so the function hands back
    [single_master = false], and yet the member of the first row, read
    while the flag was set, is Secondary. *)
Lemma returned_flag_false_with_secondary :
  let r := fetch_group_replication_members replay true mixed_flag_session true in
  exists ms,
    returned r = Return ms
    /\ single_master_out r = false
    /\ (exists row, row ∈ mixed_flag_rows /\ single_primary_mode (flag_of row) = false)
    /\ ~ (forall id m, ms !! id = Some m -> role m = Primary).
Proof.
  exists mixed_flag_members.
  split; [vm_compute; reflexivity |]. split; [vm_compute; reflexivity |].
  split.
  - exists [Some "b"; Some "ubuntu"; Some "3330"; Some "ONLINE"; Some "0"].
    split; [right; left | reflexivity].
  - intros H.
    specialize (H "a" (Build "a" "ubuntu" 3320 Online Secondary)).
    assert (Hm : mixed_flag_members !! "a" = Some (Build "a" "ubuntu" 3320 Online Secondary))
      by (vm_compute; reflexivity).
    specialize (H Hm). discriminate.
Qed.

(** C10 as it is stated fails on a result set in which one row has a null
    flag and another a set one: the row with the null flag makes its own
    member Primary, but the member of the other row is Secondary. *)
Lemma null_flag_row_with_secondary :
  let r := fetch_group_replication_members replay true one_null_flag_session true in
  exists ms,
    returned r = Return ms
    /\ (exists row, row ∈ one_null_flag_rows /\ row !! 4%nat = Some None)
    /\ ~ (forall id m, ms !! id = Some m -> role m = Primary).
Proof.
  exists mixed_flag_members.
  split; [vm_compute; reflexivity |].
  split.
  - exists [Some "b"; Some "ubuntu"; Some "3330"; Some "ONLINE"; None].
    split; [right; left | reflexivity].
  - intros H.
    specialize (H "a" (Build "a" "ubuntu" 3320 Online Secondary)).
    assert (Hm : mixed_flag_members !! "a" = Some (Build "a" "ubuntu" 3320 Online Secondary))
      by (vm_compute; reflexivity).
    specialize (H Hm). discriminate.
Qed.

(** With assertions compiled in, a status row for another variable stops
    the process; with [NDEBUG] its value is taken as the primary id. *)
Example find_primary_assert :
  find_group_replication_primary_member replay false
    [expect_query primary_member_query [[Some "Uptime"; Some "42"]]] = ([], Abort)
  /\ find_group_replication_primary_member replay true
       [expect_query primary_member_query [[Some "Uptime"; Some "42"]]] = ([], Return "42").
Proof. split; vm_compute; reflexivity. Qed.

(** The state names are compared as they are written: other spellings are
    unknown states. *)
Example member_state_is_case_sensitive :
  member_state_of "ONLINE" = (Online, true) /\ member_state_of "online" = (Other, false)
  /\ member_state_of "Online" = (Other, false) /\ member_state_of "ERROR" = (Other, false)
  /\ member_state_of "" = (Other, false).
Proof. repeat split; reflexivity. Qed.

Example atoi_port :
  to_uint16 (atoi "3320") = 3320%Z /\ to_uint16 (atoi " +42abc") = 42%Z
  /\ to_uint16 (atoi "65536") = 0%Z /\ to_uint16 (atoi "-1") = 65535%Z
  /\ to_uint16 (atoi "") = 0%Z.
Proof. repeat split; vm_compute; reflexivity. Qed.

(** A row replaces the member that an earlier row with the same id stored,
    and the role is the one of the replacing row: with no primary reported,
    an id whose first row has the flag set and whose second row has a null
    flag ends up Primary. *)
Example duplicate_id_takes_last_flag :
  match
    returned
      (fetch_group_replication_members replay true
         [ expect_query primary_member_query [];
           expect_query members_query
             [ [Some "a"; Some "ubuntu"; Some "3320"; Some "ONLINE"; Some "1"];
               [Some "a"; Some "ubuntu"; Some "3320"; Some "ONLINE"; None] ] ]
         true)
  with
  | Return ms => ms !! "a"
  | _ => None
  end
  = Some (Build "a" "ubuntu" 3320 Online Primary).
Proof. vm_compute; reflexivity. Qed.

Lemma fetch_assigns_roles_witness :
  returned (fetch_group_replication_members replay true sample_session false)
  = Return sample_members
  /\ exists c1 primary c2 rows,
       find_group_replication_primary_member replay true sample_session
       = (c1, Return primary)
       /\ replay c1 members_query = (c2, inr rows)
       /\ (forall id m, sample_members !! id = Some m ->
             member_id m = id
             /\ exists pre h pt s flag post,
                  rows = (pre ++ [Some id; Some h; Some pt; Some s; flag] :: post)%list
                  /\ (forall row, row ∈ post -> row !! 0%nat <> Some (Some id))
                  /\ m = member_of primary id h pt s flag
                  /\ role_rule (single_primary_mode flag) primary id (role m))
       /\ (forall row, row ∈ rows ->
             exists id, row !! 0%nat = Some (Some id) /\ is_Some (sample_members !! id))
       /\ (forall b, (forall row, row ∈ rows -> single_primary_mode (flag_of row) = b) ->
             (rows <> [] ->
              single_master_out
                (fetch_group_replication_members replay true sample_session false) = b)
             /\ forall id m, sample_members !! id = Some m -> role_rule b primary id (role m)).
Proof.
  split; [vm_compute; reflexivity |].
  apply (fetch_assigns_roles replay true sample_session false sample_members).
  vm_compute; reflexivity.
Defined.

Lemma null_field_is_metadata_error_witness :
  exists msg,
    returned (fetch_group_replication_members replay true null_host_session false)
    = Throw (metadata_error msg).
Proof.
  apply (null_field_is_metadata_error replay true null_host_session false
           [expect_query members_query null_host_rows]
           "3acfe4ca-861d-11e6-9e56-08002741aeb6" [] null_host_rows
           [Some "4c08b4a2-861d-11e6-a256-08002741aeb6"; None; Some "3330";
            Some "ONLINE"; Some "1"] 1%nat).
  - vm_compute; reflexivity.
  - vm_compute; reflexivity.
  - right; left.
  - lia.
  - reflexivity.
Defined.

Lemma null_flag_means_multi_master_witness :
  exists ms,
    returned (fetch_group_replication_members replay true null_flag_session true) = Return ms
    /\ (forall row, single_primary_mode (flag_of row) = true
                    <-> flag_of row = Some "1" \/ flag_of row = Some "ON")
    /\ single_master_out (fetch_group_replication_members replay true null_flag_session true)
       = match last null_flag_rows with
         | Some row => single_primary_mode (flag_of row)
         | None => true
         end
    /\ (forall id m, ms !! id = Some m ->
          exists pre h pt s flag post,
            null_flag_rows = (pre ++ [Some id; Some h; Some pt; Some s; flag] :: post)%list
            /\ (forall row, row ∈ post -> row !! 0%nat <> Some (Some id))
            /\ m = member_of "" id h pt s flag
            /\ (single_primary_mode flag = false -> role m = Primary))
    /\ (forall row, row ∈ null_flag_rows ->
          exists id, row !! 0%nat = Some (Some id) /\ is_Some (ms !! id))
    /\ ((forall row, row ∈ null_flag_rows -> single_primary_mode (flag_of row) = false) ->
        forall id m, ms !! id = Some m -> role m = Primary).
Proof.
  apply (null_flag_means_multi_master replay true null_flag_session true
           [expect_query members_query null_flag_rows] "" [] null_flag_rows).
  - vm_compute; reflexivity.
  - vm_compute; reflexivity.
  - repeat constructor; unfold well_formed; eauto 10.
Defined.

(* ===================================================================== *)
(** * Part III. Properties of the bootstrap model                         *)
(* ===================================================================== *)

Module ConfigGeneratorProperties.

Import ConfigGenerator.

(** ** Strings and paths *)

Lemma append_cons x a b : String x a +:+ b = String x (a +:+ b).
Proof. reflexivity. Qed.

Lemma prefix_append a b : String.prefix a (a +:+ b) = true.
Proof.
  induction a as [|c a IH].
  - destruct b; reflexivity.
  - change (String c a +:+ b) with (String c (a +:+ b)). simpl.
    rewrite IH. destruct (ascii_dec c c); [reflexivity | contradiction].
Qed.

Lemma append_inj a b c : a +:+ b = a +:+ c -> b = c.
Proof.
  induction a as [|x a IH]; [auto |].
  rewrite !append_cons. intros [= H]. auto.
Qed.

Lemma length_append a b : String.length (a +:+ b) = (String.length a + String.length b)%nat.
Proof.
  induction a as [|x a IH]; [reflexivity |].
  rewrite append_cons. simpl. rewrite IH. reflexivity.
Qed.

Lemma append_assoc a b c : (a +:+ b) +:+ c = a +:+ (b +:+ c).
Proof.
  induction a as [|x a IH]; [reflexivity |].
  rewrite !append_cons, IH. reflexivity.
Qed.

Lemma under_refl dir : under dir dir = true.
Proof. unfold under. rewrite String.eqb_refl. reflexivity. Qed.

Lemma under_join dir name : under dir (join_path dir name) = true.
Proof.
  unfold under, join_path.
  replace (dir +:+ "/" +:+ name) with ((dir +:+ "/") +:+ name) by apply append_assoc.
  rewrite prefix_append. apply orb_true_r.
Qed.

Lemma join_path_inj dir a b : join_path dir a = join_path dir b -> a = b.
Proof. unfold join_path. intros H. apply append_inj in H. apply append_inj in H. exact H. Qed.

Lemma bak_differs path : path +:+ ".bak" <> path.
Proof.
  intros H. apply (f_equal String.length) in H. rewrite length_append in H. simpl in H. lia.
Qed.

Lemma max_password_retries_text : pretty kMaxPasswordRetries = "10000".
Proof. vm_compute. reflexivity. Qed.

(** ** Options *)

(** C5. With a base port given as a decimal integer [b] (and no other error
    in the options), [fill_options] refuses the base port with the text
    Invalid base-port number when [b + 3] exceeds 65535, and otherwise,
    for a positive [b] and TCP not skipped, gives the endpoints the ports
    [b], [b + 1], [b + 2] and [b + 3] (read-write, read-only, read-write X,
    read-only X; the read-only ones exist in single-master mode only).  In
    particular 65533 is refused and 65532 yields 65532 to 65535. *)
Theorem fill_options_base_port (is_valid : string -> bool) (multi_master : bool)
    (user_options : gmap string string) (value : string) (b : Z) :
  user_options !! "base-port" = Some value ->
  decimal value = Some b ->
  user_options !! "bind-address" = None ->
  ((65535 < b + 3)%Z ->
   exists e, fill_options is_valid multi_master user_options = Failed e
             /\ contains "Invalid base-port number" (what e) = true)
  /\ ((0 < b)%Z -> (b + 3 <= 65535)%Z -> user_options !! "skip-tcp" = None ->
      exists o, fill_options is_valid multi_master user_options = Ok o
                /\ port (rw_endpoint o) = b
                /\ port (rw_x_endpoint o) = (b + 2)%Z
                /\ (multi_master = false ->
                    port (ro_endpoint o) = (b + 1)%Z /\ port (ro_x_endpoint o) = (b + 3)%Z))
  /\ (exists e, fill_options is_valid false {["base-port" := "65533"]} = Failed e
                /\ contains "Invalid base-port number" (what e) = true)
  /\ (exists o, fill_options is_valid false {["base-port" := "65532"]} = Ok o
                /\ port (rw_endpoint o) = 65532%Z /\ port (ro_endpoint o) = 65533%Z
                /\ port (rw_x_endpoint o) = 65534%Z /\ port (ro_x_endpoint o) = 65535%Z).
Proof.
  intros Hbase Hdec Hbind. unfold fill_options. rewrite Hbind, Hbase, Hdec.
  split; [| split; [| split]].
  - intros Hbig.
    replace (b <=? kMaxTCPPortNumber - kAllocatedTCPPortCount + 1)%Z with false
      by (symmetry; apply Z.leb_gt; unfold kMaxTCPPortNumber, kAllocatedTCPPortCount; lia).
    rewrite andb_false_r. eexists. split; [reflexivity | reflexivity].
  - intros Hpos Hfit Hskip.
    replace (0 <? b)%Z with true by (symmetry; apply Z.ltb_lt; lia).
    replace (b <=? kMaxTCPPortNumber - kAllocatedTCPPortCount + 1)%Z with true
      by (symmetry; apply Z.leb_le; unfold kMaxTCPPortNumber, kAllocatedTCPPortCount; lia).
    rewrite Hskip. simpl. eexists. split; [reflexivity |]. simpl.
    rewrite Z.add_0_r. split; [reflexivity |]. split; [reflexivity |].
    intros ->. split; reflexivity.
  - eexists. split; [vm_compute; reflexivity | reflexivity].
  - eexists. split; [vm_compute; reflexivity |]. repeat split; reflexivity.
Qed.

Lemma fill_options_base_port_witness :
  ((65535 < 1234 + 3)%Z ->
   exists e, fill_options (fun _ => true) false {["base-port" := "1234"]} = Failed e
             /\ contains "Invalid base-port number" (what e) = true)
  /\ ((0 < 1234)%Z -> (1234 + 3 <= 65535)%Z ->
      ({["base-port" := "1234"]} : gmap string string) !! "skip-tcp" = None ->
      exists o, fill_options (fun _ => true) false {["base-port" := "1234"]} = Ok o
                /\ port (rw_endpoint o) = 1234%Z
                /\ port (rw_x_endpoint o) = (1234 + 2)%Z
                /\ (false = false ->
                    port (ro_endpoint o) = (1234 + 1)%Z /\ port (ro_x_endpoint o) = (1234 + 3)%Z))
  /\ (exists e, fill_options (fun _ => true) false {["base-port" := "65533"]} = Failed e
                /\ contains "Invalid base-port number" (what e) = true)
  /\ (exists o, fill_options (fun _ => true) false {["base-port" := "65532"]} = Ok o
                /\ port (rw_endpoint o) = 65532%Z /\ port (ro_endpoint o) = 65533%Z
                /\ port (rw_x_endpoint o) = 65534%Z /\ port (ro_x_endpoint o) = 65535%Z).
Proof.
  apply (fill_options_base_port (fun _ => true) false {["base-port" := "1234"]} "1234" 1234%Z).
  - vm_compute; reflexivity.
  - vm_compute; reflexivity.
  - vm_compute; reflexivity.
Defined.

(** ** The retry limit *)

Lemma get_password_retries_invalid (user_options : gmap string string) value :
  user_options !! "password-retries" = Some value ->
  (forall n, decimal value = Some n -> (n < 1)%Z \/ (10000 < n)%Z) ->
  get_password_retries user_options
  = Failed (ConfigurationError
              ("Invalid password-retries value '" +:+ value
               +:+ "'; please pick a value from 1 to 10000")).
Proof.
  intros Hopt Hbad. unfold get_password_retries, invalid_password_retries.
  rewrite Hopt, max_password_retries_text.
  destruct (decimal value) as [n|] eqn:Hd; [| reflexivity].
  destruct (Hbad n eq_refl) as [Hlow | Hhigh].
  - replace (1 <=? n)%Z with false by (symmetry; apply Z.leb_gt; lia). reflexivity.
  - replace (n <=? kMaxPasswordRetries)%Z with false
      by (symmetry; apply Z.leb_gt; unfold kMaxPasswordRetries; lia).
    rewrite andb_false_r. reflexivity.
Qed.

(** ** The deployment manager against an arbitrary session *)

Section DeploymentProperties.

Context {Conn : Type}.
Variable session : MySQLSession Conn.
Variable is_valid_bind_address : string -> bool.
Variable generate_password : nat -> string.
Variable compute_password_hash : string -> string.
Variable generate_identifier : string.
Variable prompt_password : string.
Variable generate_master_key : string.

Local Abbreviation deploy :=
  (bootstrap_directory_deployment session is_valid_bind_address generate_password
     compute_password_hash generate_identifier prompt_password generate_master_key).
Local Abbreviation deploy_in_place :=
  (bootstrap_deployment session is_valid_bind_address generate_password
     compute_password_hash generate_identifier prompt_password generate_master_key).
Local Abbreviation keyring := (init_keyring prompt_password generate_master_key).
Local Abbreviation provisioner :=
  (try_bootstrap_deployment session generate_password compute_password_hash
     generate_identifier).

(** C6. A retry limit that is not a decimal integer from 1 to 10000 makes
    the run fail, and with a valid router name the failure is the
    configuration error that names the value as given; nothing is written
    and no statement is sent.  The strings 0, 999999, foo and the empty
    string are such values. *)
Theorem invalid_password_retries_fails fs c directory (user_options : gmap string string)
    multivalue_options keyring_info value :
  user_options !! "password-retries" = Some value ->
  (forall n, decimal value = Some n -> (n < 1)%Z \/ (10000 < n)%Z) ->
  is_Ok (deploy fs c directory user_options multivalue_options keyring_info).2 = false
  /\ (validate_router_name (default "" (user_options !! "name")) = Ok tt ->
      deploy fs c directory user_options multivalue_options keyring_info
      = (fs, c,
         Failed (ConfigurationError
                   ("Invalid password-retries value '" +:+ value
                    +:+ "'; please pick a value from 1 to 10000"))))
  /\ Forall (fun v => forall n, decimal v = Some n -> (n < 1)%Z \/ (10000 < n)%Z)
            ["0"; "999999"; "foo"; ""].
Proof.
  intros Hopt Hbad.
  pose proof (get_password_retries_invalid user_options value Hopt Hbad) as Hretries.
  unfold bootstrap_directory_deployment. rewrite Hretries.
  split; [| split].
  - destruct (validate_router_name _); reflexivity.
  - intros ->. reflexivity.
  - repeat apply Forall_cons_2; try apply Forall_nil_2;
      intros n; vm_compute; intros [= <-]; auto; lia.
Qed.

(** A failed run in a directory that is in place has written nothing, or
    nothing but a new master key file. *)
Lemma bootstrap_deployment_failed fs c directory user_options multivalue_options
    keyring_info fs' c' e :
  deploy_in_place fs c directory user_options multivalue_options keyring_info
  = (fs', c', Failed e) ->
  fs' = fs
  \/ (fs !! join_path directory (master_key_file keyring_info) = None
      /\ fs' = <[join_path directory (master_key_file keyring_info)
                 := DataFile generate_master_key]> fs).
Proof.
  unfold bootstrap_deployment.
  assert (Hk : (keyring fs directory keyring_info).1 = fs
               \/ (fs !! join_path directory (master_key_file keyring_info) = None
                   /\ (keyring fs directory keyring_info).1
                      = <[join_path directory (master_key_file keyring_info)
                          := DataFile generate_master_key]> fs)).
  { unfold init_keyring.
    destruct (String.eqb (master_key_file keyring_info) "").
    - destruct (_ <? _)%nat; auto.
    - destruct (fs !! join_path directory (master_key_file keyring_info))
        as [[| |[|]]|] eqn:E; simpl; auto. }
  destruct (keyring fs directory keyring_info) as [fs1 [[]|e1]]; simpl in Hk.
  2: { intros [= <- <- <-]. exact Hk. }
  destruct (fetch_bootstrap_servers session c) as [c1 [target|e1]].
  2: { intros [= <- <- <-]. exact Hk. }
  destruct (get_router_id_and_name_from_config _ _ _ _) as [?|e1].
  2: { intros [= <- <- <-]. exact Hk. }
  destruct (fill_options _ _ _) as [options|e1].
  2: { intros [= <- <- <-]. exact Hk. }
  destruct (try_bootstrap_deployment _ _ _ _ _ _ _) as [c2 [[[router_id username] password]|e1]].
  2: { intros [= <- <- <-]. exact Hk. }
  discriminate.
Qed.

Lemma delete_dir_recursive_lookup directory (fs : gmap string file) path :
  delete_dir_recursive directory fs !! path
  = if under directory path then None else fs !! path.
Proof.
  unfold delete_dir_recursive.
  destruct (under directory path) eqn:Hu.
  - apply map_lookup_filter_None. right. intros x _. simpl. congruence.
  - destruct (fs !! path) as [x|] eqn:E.
    + apply map_lookup_filter_Some. split; [assumption | exact Hu].
    + apply map_lookup_filter_None. left. assumption.
Qed.

(** C9. When a run fails and the deployment directory did not exist before
    it (nothing lay at or below its path), the file system is afterwards
    what it was before the run: the directory and the key file written into
    it are gone.  When the directory was there before the run, a failed run
    leaves every path that existed with the content it had: neither the
    directory nor anything in it, the keyring files included, is deleted. *)
Theorem cleanup_on_failure fs c directory user_options multivalue_options keyring_info
    fs' c' e :
  deploy fs c directory user_options multivalue_options keyring_info = (fs', c', Failed e) ->
  ((forall path, under directory path = true -> fs !! path = None) -> fs' = fs)
  /\ (fs !! directory = Some Directory ->
      forall path x, fs !! path = Some x -> fs' !! path = Some x).
Proof.
  unfold bootstrap_directory_deployment.
  destruct (validate_router_name _) as [[]|e0].
  2: { intros [= <- <- <-]. split; [reflexivity | auto]. }
  destruct (get_password_retries user_options) as [retries|e0].
  2: { intros [= <- <- <-]. split; [reflexivity | auto]. }
  destruct (fs !! directory) as [[| |]|] eqn:Hdir.
  - (* the directory was there *)
    intros Hrun. split.
    + intros Hfresh. rewrite (Hfresh directory (under_refl directory)) in Hdir. discriminate.
    + intros _ path x Hx.
      destruct (bootstrap_deployment_failed _ _ _ _ _ _ _ _ _ Hrun) as [-> | [Hnone ->]];
        [assumption |].
      rewrite lookup_insert_ne; [assumption | congruence].
  - intros [= <- <- <-]. split; [reflexivity | auto].
  - intros [= <- <- <-]. split; [reflexivity | auto].
  - (* the directory is created by this run *)
    destruct (deploy_in_place (<[directory := Directory]> fs) c directory user_options
                multivalue_options keyring_info) as [[fs1 c1] [[]|e1]] eqn:Hrun;
      [discriminate |].
    intros [= <- <- <-]. split; [| discriminate].
    intros Hfresh. apply map_eq. intros path.
    rewrite delete_dir_recursive_lookup.
    destruct (under directory path) eqn:Hu; [symmetry; auto |].
    assert (Hne : directory <> path).
    { intros ->. rewrite under_refl in Hu. discriminate. }
    destruct (bootstrap_deployment_failed _ _ _ _ _ _ _ _ _ Hrun) as [-> | [Hnone ->]].
    + rewrite lookup_insert_ne by assumption. reflexivity.
    + rewrite lookup_insert_ne.
      * rewrite lookup_insert_ne by assumption. reflexivity.
      * intros <-. rewrite under_join in Hu. discriminate.
Qed.

Lemma bak_path directory :
  join_path directory "mysqlrouter.conf" +:+ ".bak" = join_path directory "mysqlrouter.conf.bak".
Proof. unfold join_path. rewrite !append_assoc. reflexivity. Qed.

(** C7. Take a deployment directory that holds the configuration of an
    earlier bootstrap (with its keyring in place) and a target whose cluster
    name differs from the recorded one.  Without the force option the run
    fails with the conflict error, whose text tells to use --force, and the
    file system is left exactly as it was: the configuration file is not
    touched and no .bak file appears.  With the force option the run goes
    on, and when the account has been provisioned it succeeds, the earlier
    configuration is then found under the suffix .bak, and the
    configuration file records the new target. *)
Theorem overwrite_needs_force fs c directory (user_options : gmap string string)
    multivalue_options keyring_info old c1 target :
  fs !! directory = Some Directory ->
  fs !! join_path directory "mysqlrouter.conf" = Some (ConfigFile old) ->
  validate_router_name (default "" (user_options !! "name")) = Ok tt ->
  is_Ok (get_password_retries user_options) = true ->
  keyring fs directory keyring_info = (fs, Ok tt) ->
  fetch_bootstrap_servers session c = (c1, Ok target) ->
  cluster_name target <> cluster_name (config_identity old) ->
  (user_options !! "force" = None ->
   deploy fs c directory user_options multivalue_options keyring_info
   = (fs, c1, Failed (ConflictError use_force))
   /\ contains "--force" (what (ConflictError use_force)) = true)
  /\ (is_Some (user_options !! "force") ->
      keyring_file keyring_info <> "mysqlrouter.conf" ->
      keyring_file keyring_info <> "mysqlrouter.conf.bak" ->
      forall options c2 router_id username password,
        fill_options is_valid_bind_address (is_multi_master target) user_options = Ok options ->
        provisioner user_options multivalue_options c1
        = (c2, Ok (router_id, username, password)) ->
        exists fs' new,
          deploy fs c directory user_options multivalue_options keyring_info
          = (fs', c2, Ok tt)
          /\ fs' !! (join_path directory "mysqlrouter.conf" +:+ ".bak") = Some (ConfigFile old)
          /\ fs' !! join_path directory "mysqlrouter.conf" = Some (ConfigFile new)
          /\ config_identity new = target).
Proof.
  intros Hdir Hconf Hname Hretries Hkeyring Hfetch Hdiff.
  assert (Hneq : String.eqb (cluster_name (config_identity old)) (cluster_name target) = false).
  { apply String.eqb_neq. congruence. }
  unfold bootstrap_directory_deployment, bootstrap_deployment.
  rewrite Hname, Hdir, Hkeyring, Hfetch.
  destruct (get_password_retries user_options) as [retries|]; [clear Hretries | discriminate].
  unfold get_router_id_and_name_from_config. rewrite Hconf, Hneq.
  split.
  - intros ->. rewrite bool_decide_eq_false_2 by (intros [? ?]; discriminate).
    split; reflexivity.
  - intros Hforce Hk1 Hk2 options c2 router_id username password Hfill Hprov.
    rewrite bool_decide_eq_true_2 by assumption.
    rewrite Hfill, Hprov.
    assert (Hkc : join_path directory (keyring_file keyring_info)
                  <> join_path directory "mysqlrouter.conf").
    { intros H. apply join_path_inj in H. contradiction. }
    assert (Hkb : join_path directory (keyring_file keyring_info)
                  <> join_path directory "mysqlrouter.conf" +:+ ".bak").
    { rewrite bak_path. intros H. apply join_path_inj in H. contradiction. }
    rewrite lookup_insert_ne by assumption. rewrite Hconf.
    replace (same_identity (ConfigFile old) _) with false.
    2: { simpl. rewrite Hneq. rewrite andb_false_r. reflexivity. }
    eexists _, _. split; [reflexivity |].
    split; [| split; [apply lookup_insert_eq | reflexivity]].
    rewrite lookup_insert_ne by (apply not_eq_sym, bak_differs).
    apply lookup_insert_eq.
Qed.

(** ** The account provisioner against an arbitrary session *)

Lemma execute_all_traced statements c trace c' :
  execute_all session statements c = (c', inr tt) ->
  execute_all (traced_session session) statements (c, trace)
  = ((c', (trace ++ statements)%list), inr tt).
Proof.
  revert c trace. induction statements as [|sql rest IH]; intros c trace; simpl.
  - intros [= <-]. rewrite app_nil_r. reflexivity.
  - destruct (session_execute session c sql) as [c0 [[msg code]|id]]; [discriminate |].
    intros H. rewrite (IH _ (trace ++ [sql])%list H), <- app_assoc. reflexivity.
Qed.

Lemma get_password_retries_Ok user_options retries :
  get_password_retries user_options = Ok retries -> (1 <= retries <= 10000)%Z.
Proof.
  unfold get_password_retries.
  destruct (user_options !! "password-retries") as [value|].
  - destruct (decimal value) as [n|]; [| discriminate].
    destruct (1 <=? n)%Z eqn:E1; [| discriminate].
    destruct (n <=? kMaxPasswordRetries)%Z eqn:E2; [| discriminate].
    intros [= <-]. apply Z.leb_le in E1, E2. unfold kMaxPasswordRetries in E2. lia.
  - intros [= <-]. unfold kDefaultPasswordRetries. lia.
Qed.

Lemma traced_execute c trace sql :
  session_execute (traced_session session) (c, trace) sql
  = (((session_execute session c sql).1, (trace ++ [sql])%list),
     (session_execute session c sql).2).
Proof. simpl. destruct (session_execute session c sql). reflexivity. Qed.

Lemma create_accounts_single {C} (S : MySQLSession C) username hostname password hash c :
  create_accounts S username [hostname] password hash c
  = create_account S username hostname password hash c.
Proof.
  simpl. destruct (create_account S username hostname password hash c) as [c' [[| |]|]];
    reflexivity.
Qed.

Lemma create_with_compliant_password_S {C} (S : MySQLSession C) gen username hostnames
    retries n c :
  create_with_compliant_password S gen username hostnames (Datatypes.S retries) n c
  = match create_accounts S username hostnames (gen n) false c with
    | (c', Ok Created) => (c', Ok (gen n))
    | (c', Ok (PasswordTooWeak msg)) =>
        match retries with
        | O =>
            (c', Failed (PasswordPolicyError
                           ("Error creating user account: " +:+ msg
                            +:+ " Try to decrease the validate_password rules and try the operation again.")))
        | _ => create_with_compliant_password S gen username hostnames retries (Datatypes.S n) c'
        end
    | (c', Ok (PluginNotLoaded msg)) => (c', Failed (AccountCreationError msg))
    | (c', Failed e) => (c', Failed e)
    end.
Proof. reflexivity. Qed.

(** An attempt whose CREATE USER statement is refused: ROLLBACK follows, and
    the code decides what the attempt ends in. *)
Lemma create_account_refused username hostname password hash c trace c1 msg code :
  session_execute session c (create_user_statement username hostname password hash)
  = (c1, inl (msg, code)) ->
  create_account (traced_session session) username hostname password hash (c, trace)
  = (((session_execute session c1 "ROLLBACK").1,
      (trace ++ [create_user_statement username hostname password hash; "ROLLBACK"])%list),
     let text := "Error creating MySQL account for router: " +:+ msg in
     if (code =? kPasswordPolicy)%Z then Ok (PasswordTooWeak text)
     else if (code =? kPluginNotLoaded)%Z then Ok (PluginNotLoaded text)
     else Failed (AccountCreationError text)).
Proof.
  intros Hrefused. unfold create_account.
  change (execute_all (traced_session session) (?sql :: ?rest) ?st)
    with (match session_execute (traced_session session) st sql with
          | (c', inl e) => (c', inl e)
          | (c', inr _) => execute_all (traced_session session) rest c'
          end).
  rewrite traced_execute, Hrefused. cbv beta iota zeta.
  change ((c1, inl (msg, code)).1) with c1.
  change ((c1, @inl (string * Z) Z (msg, code)).2) with (@inl (string * Z) Z (msg, code)).
  cbv beta iota. rewrite traced_execute. simpl fst. rewrite <- app_assoc. reflexivity.
Qed.

(** C8. When the server refuses the CREATE USER ... IDENTIFIED WITH
    mysql_native_password statement with code 1524, the provisioner sends
    ROLLBACK and then CREATE USER ... IDENTIFIED BY with a plain password;
    when that statement and its grants are accepted the account step ends
    well and hands out the plain password.  The code is not the end of the
    run: on the script of the test with this rejection the whole bootstrap
    succeeds and the script is used up. *)
Theorem plugin_not_loaded_is_retried c trace (user_options : gmap string string)
    (multivalue_options : gmap string (list string)) username retries msg c1 c2 c3 :
  user_options !! "force-password-validation" = None ->
  multivalue_options !! "account-host" = None ->
  get_password_retries user_options = Ok retries ->
  session_execute session c
    (create_user_statement username "%" (compute_password_hash (generate_password 0)) true)
  = (c1, inl (msg, 1524%Z)) ->
  (session_execute session c1 "ROLLBACK").1 = c2 ->
  execute_all session
    (create_user_statement username "%" (generate_password 1) false
     :: grant_statements username "%") c2
  = (c3, inr tt) ->
  create_router_accounts (traced_session session) generate_password compute_password_hash
    user_options multivalue_options username (c, trace)
  = ((c3,
      (trace
       ++ [create_user_statement username "%" (compute_password_hash (generate_password 0)) true;
           "ROLLBACK"]
       ++ create_user_statement username "%" (generate_password 1) false
          :: grant_statements username "%")%list),
     Ok (generate_password 1))
  /\ ConfigGeneratorTest.bootstrap_password_test
       ConfigGeneratorTest.no_native_plugin_queries "5" false
     = ((ConfigGeneratorTest.bootstrap_password_test
           ConfigGeneratorTest.no_native_plugin_queries "5" false).1.1,
        [], Ok tt).
Proof.
  intros Hforce Hhosts Hretries Hhashed Hrollback Hplain.
  split; [| vm_compute; reflexivity].
  pose proof (get_password_retries_Ok _ _ Hretries) as Hrange.
  unfold create_router_accounts. rewrite Hhosts, Hretries.
  rewrite bool_decide_eq_false_2 by (rewrite Hforce; intros [? ?]; discriminate).
  destruct (Z.to_nat retries) as [|k] eqn:Hk; [lia |].
  rewrite create_accounts_single.
  rewrite (create_account_refused _ _ _ _ _ _ _ _ _ Hhashed), Hrollback.
  change (1524 =? kPasswordPolicy)%Z with false.
  change (1524 =? kPluginNotLoaded)%Z with true. cbv iota.
  rewrite create_with_compliant_password_S, create_accounts_single.
  unfold create_account at 1. rewrite (execute_all_traced _ _ _ _ Hplain).
  rewrite <- !app_assoc. reflexivity.
Qed.

End DeploymentProperties.

End ConfigGeneratorProperties.

(* ===================================================================== *)
(** * Part IV. The bootstrap model on the scripts of the tests            *)
(* ===================================================================== *)

Module ConfigGeneratorTestResults.

Import ConfigGenerator ConfigGeneratorTest ConfigGeneratorProperties.

Local Abbreviation fill := (fill_options test_address_ok).

(** ** [fill_options] *)

Example fill_options_defaults :
  fill true ∅
  = Ok {| multi_master := true; bind_address := "";
          rw_endpoint := {| port := 6446; socket := "" |};
          ro_endpoint := {| port := 0; socket := "" |};
          rw_x_endpoint := {| port := 64460; socket := "" |};
          ro_x_endpoint := {| port := 0; socket := "" |} |}
  /\ fill false ∅
     = Ok {| multi_master := false; bind_address := "";
             rw_endpoint := {| port := 6446; socket := "" |};
             ro_endpoint := {| port := 6447; socket := "" |};
             rw_x_endpoint := {| port := 64460; socket := "" |};
             ro_x_endpoint := {| port := 64470; socket := "" |} |}
  /\ fill false {["base-port" := "1234"]}
     = Ok {| multi_master := false; bind_address := "";
             rw_endpoint := {| port := 1234; socket := "" |};
             ro_endpoint := {| port := 1235; socket := "" |};
             rw_x_endpoint := {| port := 1236; socket := "" |};
             ro_x_endpoint := {| port := 1237; socket := "" |} |}.
Proof. repeat split; vm_compute; reflexivity. Qed.

Example fill_options_base_port_values :
  Forall (fun v => is_Ok (fill false {["base-port" := v]}) = true) ["1"; "3306"; "65532"]
  /\ Forall (fun v => is_Ok (fill false {["base-port" := v]}) = false)
            [""; "-1"; "999999"; "0"; "65536"; "2000bozo"; "65533"].
Proof. split; repeat apply Forall_cons_2; try apply Forall_nil_2; vm_compute; reflexivity. Qed.

Example fill_options_bind_address :
  (bind_address <$> match fill true {["bind-address" := "127.0.0.1"]} with
                    | Ok o => Some o
                    | Failed _ => None
                    end) = Some "127.0.0.1"
  /\ Forall (fun v => is_Ok (fill false {["bind-address" := v]}) = false)
            ["invalid"; ""; "1.2.3.4.5"].
Proof.
  split; [vm_compute; reflexivity |].
  repeat apply Forall_cons_2; try apply Forall_nil_2; vm_compute; reflexivity.
Qed.

Example fill_options_sockets :
  fill false (<["use-sockets" := "1"]> {["skip-tcp" := "1"]})
  = Ok {| multi_master := false; bind_address := "";
          rw_endpoint := {| port := 0; socket := "mysql.sock" |};
          ro_endpoint := {| port := 0; socket := "mysqlro.sock" |};
          rw_x_endpoint := {| port := 0; socket := "mysqlx.sock" |};
          ro_x_endpoint := {| port := 0; socket := "mysqlxro.sock" |} |}
  /\ (match fill false {["skip-tcp" := "1"]} with
      | Ok o => [enabled (rw_endpoint o); enabled (ro_endpoint o);
                 enabled (rw_x_endpoint o); enabled (ro_x_endpoint o)]
      | Failed _ => []
      end) = [false; false; false; false]
  /\ (match fill false {["use-sockets" := "1"]} with
      | Ok o => [(port (rw_endpoint o), socket (rw_endpoint o));
                 (port (ro_endpoint o), socket (ro_endpoint o))]
      | Failed _ => []
      end) = [(6446%Z, "mysql.sock"); (6447%Z, "mysqlro.sock")].
Proof. repeat split; vm_compute; reflexivity. Qed.

(** ** [fetch_bootstrap_servers] *)

Local Abbreviation fetch_servers rows :=
  (fetch_bootstrap_servers replayer_session [expect_query "" rows]).2.

Example fetch_bootstrap_servers_one :
  fetch_servers [[Some "mycluster"; Some "myreplicaset"; Some "pm"; Some "somehost:3306"]]
  = Ok {| cluster_name := "mycluster"; replicaset_name := "myreplicaset";
          is_multi_master := false; bootstrap_servers := "mysql://somehost:3306" |}
  /\ fetch_servers [[Some "mycluster"; Some "myreplicaset"; Some "mm"; Some "somehost:3306"]]
     = Ok {| cluster_name := "mycluster"; replicaset_name := "myreplicaset";
             is_multi_master := true; bootstrap_servers := "mysql://somehost:3306" |}
  /\ is_Ok (fetch_servers
              [[Some "mycluster"; Some "myreplicaset"; Some "xxx"; Some "somehost:3306"]])
     = false.
Proof. repeat split; vm_compute; reflexivity. Qed.

Example fetch_bootstrap_servers_three :
  fetch_servers [[Some "mycluster"; Some "myreplicaset"; Some "pm"; Some "somehost:3306"];
                 [Some "mycluster"; Some "myreplicaset"; Some "pm"; Some "otherhost:3306"];
                 [Some "mycluster"; Some "myreplicaset"; Some "pm"; Some "sumhost:3306"]]
  = Ok {| cluster_name := "mycluster"; replicaset_name := "myreplicaset";
          is_multi_master := false;
          bootstrap_servers :=
            "mysql://somehost:3306,mysql://otherhost:3306,mysql://sumhost:3306" |}.
Proof. vm_compute; reflexivity. Qed.

Example fetch_bootstrap_servers_multiple_replicasets :
  (exists msg,
     fetch_servers
       [[Some "mycluster"; Some "myreplicaset"; Some "pm"; Some "somehost:3306"];
        [Some "mycluster"; Some "anotherreplicaset"; Some "pm"; Some "otherhost:3306"]]
     = Failed (AmbiguousTargetError msg))
  /\ (exists msg,
        fetch_servers
          [[Some "mycluster"; Some "myreplicaset"; Some "pm"; Some "somehost:3306"];
           [Some "anothercluster"; Some "anotherreplicaset"; Some "pm"; Some "otherhost:3306"]]
        = Failed (AmbiguousTargetError msg))
  /\ (exists msg, fetch_servers [] = Failed (NoClusterError msg)).
Proof. repeat split; eexists; vm_compute; reflexivity. Qed.

(** ** The account statements *)

Example delete_account_for_all_hosts_test :
  delete_account_for_all_hosts replayer_session "cluster_user" [check_users "0"] = ([], Ok tt)
  /\ delete_account_for_all_hosts replayer_session "cluster_user"
       (check_users "1" :: drop_users_script 4 false) = ([], Ok tt)
  /\ delete_account_for_all_hosts replayer_session "cluster_user"
       (check_users "100" :: drop_users_script 4 false) = ([], Ok tt)
  /\ delete_account_for_all_hosts replayer_session "cluster_user"
       [{| call_type := QueryOne;
           call_sql := "SELECT COUNT(*) FROM mysql.user WHERE user = 'cluster_user'";
           call_error := Some ("some error", 1234%Z); call_rows := [];
           call_last_insert_id := 0 |}]
     = ([], Failed (AccountCleanupError
                      "Error querying for existing Router accounts: some error"))
  /\ Forall (fun i =>
               delete_account_for_all_hosts replayer_session "cluster_user"
                 (check_users "42" :: drop_users_script i true)
               = ([], Failed (AccountCleanupError
                                "Error removing old MySQL account for router: some error")))
            [1; 2; 3; 4]%nat.
Proof.
  repeat split; try (vm_compute; reflexivity).
  repeat apply Forall_cons_2; try apply Forall_nil_2; vm_compute; reflexivity.
Qed.

Example create_acount :
  create_account replayer_session "cluster_user" "%" "secret" false
    (expect_execute "CREATE USER cluster_user@'%' IDENTIFIED BY 'secret'" 0 :: grants_script "%")
  = ([], Ok Created)
  /\ create_account replayer_session "cluster_user" "%"
       "*89C1E57BE94931A2C11EB6C76E4C254799853B8D" true
       (expect_execute
          ("CREATE USER cluster_user@'%' IDENTIFIED WITH mysql_native_password "
           +:+ "AS '*89C1E57BE94931A2C11EB6C76E4C254799853B8D'") 0 :: grants_script "%")
     = ([], Ok Created).
Proof. split; vm_compute; reflexivity. Qed.

Local Abbreviation create_accounts_for hosts :=
  (create_router_accounts replayer_session fake_password fake_hash ∅ hosts "cluster_user").

Example create_router_accounts_test :
  create_accounts_for ∅ (generate_expected_SQL "%") = ([], Ok (fake_password 0))
  /\ create_accounts_for {["account-host" := ["host1"]]} (generate_expected_SQL "host1")
     = ([], Ok (fake_password 0))
  /\ create_accounts_for {["account-host" := ["host1"; "%"; "host3%"]]}
       (generate_expected_SQL "host1" ++ generate_expected_SQL "%"
        ++ generate_expected_SQL "host3%")%list
     = ([], Ok (fake_password 0))
  /\ Forall (fun fail_sql =>
               create_accounts_for {["account-host" := ["host1"; "host2"; "host3"]]}
                 (generate_failing_SQL "host1" fail_sql ++ [expect_execute "ROLLBACK" 0])%list
               = ([], Failed (AccountCreationError
                                "Error creating MySQL account for router: some error"))
               /\ create_accounts_for {["account-host" := ["host1"; "host2"; "host3"]]}
                    (generate_expected_SQL "host1" ++ generate_failing_SQL "host2" fail_sql
                     ++ [expect_execute "ROLLBACK" 0])%list
                  = ([], Failed (AccountCreationError
                                   "Error creating MySQL account for router: some error")))
            [1; 2; 3; 4]%nat.
Proof.
  repeat split; try (vm_compute; reflexivity).
  repeat apply Forall_cons_2; try apply Forall_nil_2; split; vm_compute; reflexivity.
Qed.

(** ** [bootstrap_directory_deployment] *)

Example bootstrap_invalid_name :
  (bootstrap ∅ (expect_bootstrap_queries "mycluster" expected_bootstrap_queries) "./bug24807941"
     (<["name" := "myname"]> {["id" := "4"]}) delme_keyring "").2 = Ok tt
  /\ (bootstrap ∅ (expect_bootstrap_queries "mycluster" expected_bootstrap_queries) "./bug24807941"
        (<["name" := ""]> {["id" := "4"]}) delme_keyring "").2 = Ok tt
  /\ bootstrap ∅ [] "./bug24807941" (<["name" := "system"]> {["id" := "4"]}) delme_keyring ""
     = (∅, [], Failed (ConfigurationError "Router name 'system' is reserved"))
  /\ (match (bootstrap ∅ [] "./bug24807941"
               (<["name" := String "n" (String "010" "l")]> {["id" := "4"]}) delme_keyring "").2
      with
      | Failed e => contains "contains invalid characters." (what e)
      | Ok _ => false
      end) = true
  /\ (match (bootstrap ∅ [] "./bug24807941"
               (<["name" := String "c" (String "013" "r")]> {["id" := "4"]}) delme_keyring "").2
      with
      | Failed e => contains "contains invalid characters." (what e)
      | Ok _ => false
      end) = true
  /\ (match (bootstrap ∅ [] "./bug24807941"
               (<["name" := string_of_list_ascii (repeat "v"%char 256)]> {["id" := "4"]})
               delme_keyring "").2
      with
      | Failed e => contains "too long (max 255)." (what e)
      | Ok _ => false
      end) = true.
Proof. repeat split; vm_compute; reflexivity. Qed.

(** The four steps of [bootstrap_cleanup_on_failure]: a failure in a new
    directory leaves nothing; a success creates the directory and the key
    file; failures in the directory that is then in place, during the
    account step or in the early validation, leave both where they are. *)
Example bootstrap_cleanup_on_failure :
  bootstrap ∅ cleanup_script "./bug24808634" foobar_options delme_keyring ""
  = (∅, [], Failed (SessionError "boo!" 1234))
  /\ (let '(fs, script, r) :=
        bootstrap ∅ (expect_bootstrap_queries "mycluster" expected_bootstrap_queries)
          "./bug24808634" foobar_options delme_keyring "" in
      r = Ok tt
      /\ exists_path fs "./bug24808634" = true
      /\ exists_path fs "./bug24808634/delme.key" = true
      /\ (let '(fs', script', r') :=
            bootstrap fs cleanup_script_in_place "./bug24808634" foobar_options
              delme_keyring "" in
          r' = Failed (SessionError "boo!" 1234) /\ fs' = fs)
      /\ (let '(fs', script', r') :=
            bootstrap fs
              [expect_query "" [[Some "mycluter"; Some "myreplicaset"; Some "pm";
                                 Some "somehost:3306"]]]
              "./bug24808634"
              (<["name" := String "f" (String "010" "f")]> {["quiet" := "1"]})
              delme_keyring "" in
          is_Ok r' = false /\ fs' = fs)).
Proof.
  assert (Heta : forall {A B C} (x : A * B * C), x = (x.1.1, x.1.2, x.2))
    by (intros A B C [[? ?] ?]; reflexivity).
  split; [vm_compute; reflexivity |].
  set (first_run := bootstrap ∅ (expect_bootstrap_queries "mycluster" expected_bootstrap_queries)
                      "./bug24808634" foobar_options delme_keyring "").
  rewrite (Heta _ _ _ first_run). cbv beta iota.
  split; [vm_compute; reflexivity |].
  split; [vm_compute; reflexivity |].
  split; [vm_compute; reflexivity |].
  split.
  - match goal with
    | |- context [bootstrap first_run.1.1 ?s ?d ?o ?k ?m] =>
        rewrite (Heta _ _ _ (bootstrap first_run.1.1 s d o k m))
    end.
    cbv beta iota. split; vm_compute; reflexivity.
  - match goal with
    | |- context [bootstrap first_run.1.1 ?s ?d ?o ?k ?m] =>
        rewrite (Heta _ _ _ (bootstrap first_run.1.1 s d o k m))
    end.
    cbv beta iota. split; vm_compute; reflexivity.
Qed.

(** The first run of each row of [bootstrap_overwrite]. *)
Example first_bootstrap :
  bootstrap_overwrite_test ∅ "./configtest" "myname" false "cluster" false
  = (first_deployment "./configtest", [], Ok tt)
  /\ bootstrap_overwrite_test ∅ "./configtest" "myname" true "cluster" false
     = (first_deployment "./configtest", [], Ok tt).
Proof. split; vm_compute; reflexivity. Qed.

(** [bootstrap_overwrite], all eight rows of its table. *)
Example bootstrap_overwrite :
  second_run "myname" false "cluster" = (true, false)
  /\ second_run "myname" false "kluster" = (false, false)
  /\ second_run "myname" true "cluster" = (true, false)
  /\ second_run "myname" true "kluster" = (true, true)
  /\ second_run "xmyname" false "cluster" = (true, true)
  /\ second_run "xmyname" false "kluster" = (false, false)
  /\ second_run "xmyname" true "cluster" = (true, true)
  /\ second_run "xmyname" true "kluster" = (true, true).
Proof. repeat split; vm_compute; reflexivity. Qed.

Example key_too_long :
  Forall (fun n =>
            is_Ok (bootstrap ∅ (expect_bootstrap_queries "mycluster" expected_bootstrap_queries)
                     "key_too_long" (<["name" := "test"]> {["quiet" := "1"]})
                     {| keyring_file := "delme"; master_key_file := "" |}
                     (string_of_list_ascii (repeat "x"%char n))).2 = true)
         [250; 255]%nat
  /\ Forall (fun n =>
               match (bootstrap ∅
                        (expect_bootstrap_queries "mycluster" expected_bootstrap_queries)
                        "key_too_long" (<["name" := "test"]> {["quiet" := "1"]})
                        {| keyring_file := "delme"; master_key_file := "" |}
                        (string_of_list_ascii (repeat "x"%char n))).2 with
               | Failed e => contains "too long" (what e)
               | Ok _ => false
               end = true)
            [256; 5000]%nat.
Proof. split; repeat apply Forall_cons_2; try apply Forall_nil_2; vm_compute; reflexivity. Qed.

(** The password tests: each script is used up to its end. *)
Example bootstrap_generate_password :
  (bootstrap_password_test force_password_validation_queries "5" true).2 = Ok tt
  /\ (bootstrap_password_test force_password_validation_queries "5" true).1.2 = []
  /\ (bootstrap_password_test no_native_plugin_queries "5" false).2 = Ok tt
  /\ (bootstrap_password_test no_native_plugin_queries "5" false).1.2 = []
  /\ (bootstrap_password_test with_native_plugin_queries "5" false).2 = Ok tt
  /\ (bootstrap_password_test with_native_plugin_queries "5" false).1.2 = []
  /\ (bootstrap_password_test retry_ok_queries "5" false).2 = Ok tt
  /\ (bootstrap_password_test retry_ok_queries "5" false).1.2 = []
  /\ (match (bootstrap_password_test (retry_failed_queries 3) "3" false).2 with
      | Failed e =>
          contains "Try to decrease the validate_password rules and try the operation again."
            (what e)
      | Ok _ => false
      end) = true
  /\ (bootstrap_password_test (retry_failed_queries 3) "3" false).1 = (∅, []).
Proof. repeat split; vm_compute; reflexivity. Qed.

Example bootstrap_password_retry_param_wrong_values :
  Forall (fun v =>
            (bootstrap_password_test wrong_values_queries v false).2
            = Failed (ConfigurationError
                        ("Invalid password-retries value '" +:+ v
                         +:+ "'; please pick a value from 1 to 10000")))
         ["0"; "999999"; "foo"; ""].
Proof. repeat apply Forall_cons_2; try apply Forall_nil_2; vm_compute; reflexivity. Qed.

(** ** The general statements at the scenarios of the tests *)

Local Abbreviation deploy :=
  (bootstrap_directory_deployment replayer_session test_address_ok fake_password fake_hash
     fake_identifier "" "generated-master-key").

Lemma invalid_password_retries_fails_witness :
  is_Ok (deploy ∅ (expect_bootstrap_queries "mycluster" wrong_values_queries)
           "./gen_pass_test" (<["name" := "name"]> (<["password-retries" := "999999"]> ∅))
           ∅ delme_keyring).2 = false
  /\ (validate_router_name
        (default "" ((<["name" := "name"]> (<["password-retries" := "999999"]> ∅)
                      : gmap string string) !! "name")) = Ok tt ->
      deploy ∅ (expect_bootstrap_queries "mycluster" wrong_values_queries)
        "./gen_pass_test" (<["name" := "name"]> (<["password-retries" := "999999"]> ∅))
        ∅ delme_keyring
      = (∅, expect_bootstrap_queries "mycluster" wrong_values_queries,
         Failed (ConfigurationError
                   ("Invalid password-retries value '" +:+ "999999"
                    +:+ "'; please pick a value from 1 to 10000"))))
  /\ Forall (fun v => forall n, decimal v = Some n -> (n < 1)%Z \/ (10000 < n)%Z)
            ["0"; "999999"; "foo"; ""].
Proof.
  apply (invalid_password_retries_fails replayer_session test_address_ok fake_password
           fake_hash fake_identifier "" "generated-master-key" ∅
           (expect_bootstrap_queries "mycluster" wrong_values_queries) "./gen_pass_test"
           (<["name" := "name"]> (<["password-retries" := "999999"]> ∅)) ∅ delme_keyring
           "999999").
  - vm_compute; reflexivity.
  - intros n H. vm_compute in H. injection H as <-. right. lia.
Defined.

Lemma cleanup_on_failure_witness :
  (((forall path, under "./bug24808634" path = true ->
                  (∅ : gmap string file) !! path = None) ->
    (∅ : gmap string file) = ∅)
   /\ ((∅ : gmap string file) !! "./bug24808634" = Some Directory ->
       forall path x, (∅ : gmap string file) !! path = Some x ->
                      (∅ : gmap string file) !! path = Some x))
  /\ (((forall path, under "./bug24808634" path = true ->
                     deployment_of "./bug24808634" "foobar" "mycluster" !! path = None) ->
       deployment_of "./bug24808634" "foobar" "mycluster"
       = deployment_of "./bug24808634" "foobar" "mycluster")
      /\ (deployment_of "./bug24808634" "foobar" "mycluster" !! "./bug24808634"
          = Some Directory ->
          forall path x,
            deployment_of "./bug24808634" "foobar" "mycluster" !! path = Some x ->
            deployment_of "./bug24808634" "foobar" "mycluster" !! path = Some x)).
Proof.
  split.
  - apply (cleanup_on_failure replayer_session test_address_ok fake_password fake_hash
             fake_identifier "" "generated-master-key" ∅ cleanup_script "./bug24808634"
             foobar_options ∅ delme_keyring ∅ [] (SessionError "boo!" 1234)).
    vm_compute; reflexivity.
  - apply (cleanup_on_failure replayer_session test_address_ok fake_password fake_hash
             fake_identifier "" "generated-master-key"
             (deployment_of "./bug24808634" "foobar" "mycluster")
             cleanup_script_in_place "./bug24808634" foobar_options ∅ delme_keyring
             (deployment_of "./bug24808634" "foobar" "mycluster") []
             (SessionError "boo!" 1234)).
    vm_compute; reflexivity.
Defined.

Lemma overwrite_needs_force_witness :
  deploy (first_deployment "./configtest2")
    [expect_query "" [[Some "kluster"; Some "myreplicaset"; Some "pm"; Some "somehost:3306"]]]
    "./configtest2" (overwrite_options "myname" false) ∅ delme_keyring
  = (first_deployment "./configtest2", [], Failed (ConflictError use_force))
  /\ exists fs' new,
       deploy (first_deployment "./configtest4")
         (expect_bootstrap_queries "kluster" expected_bootstrap_queries)
         "./configtest4" (overwrite_options "myname" true) ∅ delme_keyring
       = (fs', [], Ok tt)
       /\ fs' !! (join_path "./configtest4" "mysqlrouter.conf" +:+ ".bak")
          = Some (ConfigFile first_config)
       /\ fs' !! join_path "./configtest4" "mysqlrouter.conf" = Some (ConfigFile new)
       /\ config_identity new = kluster.
Proof.
  split.
  - refine (proj1 (proj1 (overwrite_needs_force replayer_session test_address_ok
                            fake_password fake_hash fake_identifier "" "generated-master-key"
                            (first_deployment "./configtest2")
                            [expect_query "" [[Some "kluster"; Some "myreplicaset"; Some "pm";
                                               Some "somehost:3306"]]]
                            "./configtest2" (overwrite_options "myname" false) ∅ delme_keyring
                            first_config [] kluster _ _ _ _ _ _ _) _));
      try (vm_compute; reflexivity).
    intros H. vm_compute in H. discriminate.
  - refine (proj2 (overwrite_needs_force replayer_session test_address_ok
                     fake_password fake_hash fake_identifier "" "generated-master-key"
                     (first_deployment "./configtest4")
                     (expect_bootstrap_queries "kluster" expected_bootstrap_queries)
                     "./configtest4" (overwrite_options "myname" true) ∅ delme_keyring
                     first_config (map expect_entry expected_bootstrap_queries) kluster
                     _ _ _ _ _ _ _)
                  _ _ _ (config_options first_config) [] 4%Z "mysql_router4_012345678901"
                  (fake_password 0) _ _);
      try (vm_compute; reflexivity).
    + intros H. vm_compute in H. discriminate.
    + vm_compute. eauto.
    + intros H. vm_compute in H. discriminate.
    + intros H. vm_compute in H. discriminate.
Defined.

Lemma plugin_not_loaded_is_retried_witness :
  create_router_accounts (traced_session replayer_session) fake_password fake_hash
    password_options ∅ "mysql_router4_012345678901" (account_script, [])
  = ((drop 6 account_script,
      ([]
       ++ [create_user_statement "mysql_router4_012345678901" "%"
             (fake_hash (fake_password 0)) true;
           "ROLLBACK"]
       ++ create_user_statement "mysql_router4_012345678901" "%" (fake_password 1) false
          :: grant_statements "mysql_router4_012345678901" "%")%list),
     Ok (fake_password 1))
  /\ bootstrap_password_test no_native_plugin_queries "5" false
     = ((bootstrap_password_test no_native_plugin_queries "5" false).1.1, [], Ok tt).
Proof.
  apply (plugin_not_loaded_is_retried replayer_session fake_password fake_hash
           account_script [] password_options ∅ "mysql_router4_012345678901" 5%Z "ERROR:"
           (drop 1 account_script) (drop 2 account_script) (drop 6 account_script));
    vm_compute; reflexivity.
Defined.

End ConfigGeneratorTestResults.

(* ===================================================================== *)
(** * Part V. Properties of utils.cc                                       *)
(* ===================================================================== *)

Module UtilsProperties.

Import Utils.
Import ConfigGeneratorProperties.

(** ** Strings *)

Lemma append_nil_r s : s +:+ "" = s.
Proof. induction s as [|c s IH]; [reflexivity |]. rewrite append_cons, IH. reflexivity. Qed.

Lemma rev_app_append s1 s2 : String.rev_app s1 s2 = String.rev s1 +:+ s2.
Proof.
  unfold String.rev. revert s2. induction s1 as [|c s1 IH]; intros s2; simpl.
  - reflexivity.
  - rewrite IH, (IH (String c "")), append_assoc. reflexivity.
Qed.

Lemma rev_cons c s : String.rev (String c s) = String.rev s +:+ String c "".
Proof. unfold String.rev at 1. simpl. apply rev_app_append. Qed.

Lemma rev_append a b : String.rev (a +:+ b) = String.rev b +:+ String.rev a.
Proof.
  induction a as [|c a IH].
  - change ("" +:+ b) with b. rewrite append_nil_r. reflexivity.
  - rewrite append_cons, !rev_cons, IH, append_assoc. reflexivity.
Qed.

Lemma rev_involutive s : String.rev (String.rev s) = s.
Proof.
  induction s as [|c s IH]; [reflexivity |].
  rewrite rev_cons, rev_append, IH. reflexivity.
Qed.

Lemma blank_append a b : blank (a +:+ b) = blank a && blank b.
Proof.
  induction a as [|c a IH]; [reflexivity |].
  rewrite append_cons. simpl. rewrite IH, andb_assoc. reflexivity.
Qed.

Lemma blank_rev s : blank (String.rev s) = blank s.
Proof.
  induction s as [|c s IH]; [reflexivity |].
  rewrite rev_cons, blank_append, IH. simpl. rewrite andb_true_r. apply andb_comm.
Qed.

Lemma skip_space_blank s : skip_space s = "" <-> blank s = true.
Proof.
  induction s as [|c s IH]; simpl; [tauto |].
  destruct (isspace c); simpl; [exact IH |]. split; discriminate.
Qed.

Lemma skip_space_append a b :
  skip_space (a +:+ b) = if blank a then skip_space b else skip_space a +:+ b.
Proof.
  induction a as [|c a IH]; [reflexivity |].
  rewrite append_cons. simpl. destruct (isspace c); simpl; [exact IH | reflexivity].
Qed.

(** ** [trim] *)

Lemma right_trim_cons c s :
  right_trim (String c s)
  = if blank s then (if isspace c then "" else String c "") else String c (right_trim s).
Proof.
  unfold right_trim. rewrite rev_cons, skip_space_append, blank_rev.
  destruct (blank s).
  - simpl. destruct (isspace c); reflexivity.
  - rewrite rev_append. reflexivity.
Qed.

Lemma right_trim_blank s : blank s = true -> right_trim s = "".
Proof.
  intros H. unfold right_trim.
  assert (E : skip_space (String.rev s) = "") by (apply skip_space_blank; rewrite blank_rev; exact H).
  rewrite E. reflexivity.
Qed.

Lemma left_trim_split s :
  exists ws, blank ws = true /\ s = ws +:+ left_trim s.
Proof.
  unfold left_trim. induction s as [|c s (ws & Hws & E)].
  - exists "". split; reflexivity.
  - simpl. destruct (isspace c) eqn:Ec.
    + exists (String c ws). simpl. rewrite Ec, Hws. split; [reflexivity |].
      rewrite append_cons, <- E. reflexivity.
    + exists "". split; reflexivity.
Qed.

Lemma right_trim_split s :
  exists ws, blank ws = true /\ s = right_trim s +:+ ws.
Proof.
  induction s as [|c s (ws & Hws & E)].
  - exists "". split; reflexivity.
  - rewrite right_trim_cons. destruct (blank s) eqn:Eb.
    + destruct (isspace c) eqn:Ec.
      * exists (String c s). simpl. rewrite Ec, Eb. split; reflexivity.
      * exists s. split; [exact Eb | reflexivity].
    + exists ws. split; [exact Hws |]. rewrite append_cons, <- E. reflexivity.
Qed.

Lemma left_trim_head s c t : left_trim s = String c t -> isspace c = false.
Proof.
  unfold left_trim. induction s as [|a s IH]; simpl; [discriminate |].
  destruct (isspace a) eqn:Ea; [exact IH |]. intros [= <- <-]. exact Ea.
Qed.

Lemma right_trim_head c t :
  isspace c = false -> exists t', right_trim (String c t) = String c t'.
Proof.
  intros Hc. rewrite right_trim_cons, Hc. destruct (blank t); eauto.
Qed.

Lemma right_trim_back s c : back (right_trim s) = Some c -> isspace c = false.
Proof.
  induction s as [|a s IH]; [discriminate |].
  rewrite right_trim_cons. destruct (blank s) eqn:Eb.
  - destruct (isspace a) eqn:Ea; [discriminate |]. simpl. intros [= <-]. exact Ea.
  - simpl. destruct (right_trim s) eqn:Er; [| exact IH].
    exfalso. destruct (right_trim_split s) as (ws & Hws & E).
    rewrite Er in E. change ("" +:+ ws) with ws in E. subst ws. congruence.
Qed.

Lemma right_trim_fixed s :
  (forall c, back s = Some c -> isspace c = false) -> right_trim s = s.
Proof.
  induction s as [|a s IH]; [reflexivity |].
  intros Hback. rewrite right_trim_cons. destruct s as [|b s].
  - simpl. rewrite (Hback a eq_refl). reflexivity.
  - destruct (blank (String b s)) eqn:Eb.
    + exfalso. assert (Hr : right_trim (String b s) = String b s) by (apply IH; exact Hback).
      rewrite (right_trim_blank _ Eb) in Hr. discriminate.
    + rewrite IH by exact Hback. reflexivity.
Qed.

Lemma left_trim_fixed s :
  (forall c t, s = String c t -> isspace c = false) -> left_trim s = s.
Proof.
  unfold left_trim. destruct s as [|c t]; [reflexivity |].
  intros H. simpl. rewrite (H c t eq_refl). reflexivity.
Qed.

Lemma trim_ends s :
  (forall c t, trim s = String c t -> isspace c = false)
  /\ (forall c, back (trim s) = Some c -> isspace c = false).
Proof.
  unfold trim. split.
  - intros c t E. destruct (left_trim s) as [|a u] eqn:El; [discriminate |].
    pose proof (left_trim_head _ _ _ El) as Ha.
    destruct (right_trim_head a u Ha) as [t' Et]. rewrite Et in E.
    injection E as <- _. exact Ha.
  - apply right_trim_back.
Qed.

(** X9. [trim] removes the white space at both ends and nothing else: the
    argument is the result between two runs of white space, and the result
    neither starts nor ends with a white-space character. *)
Theorem trim_removes_surrounding_space s :
  (exists ws1 ws2,
     blank ws1 = true /\ blank ws2 = true /\ s = ws1 +:+ trim s +:+ ws2)
  /\ (forall c t, trim s = String c t -> isspace c = false)
  /\ (forall c, back (trim s) = Some c -> isspace c = false).
Proof.
  split; [| apply trim_ends]. unfold trim.
  - destruct (left_trim_split s) as (ws1 & H1 & E1).
    destruct (right_trim_split (left_trim s)) as (ws2 & H2 & E2).
    exists ws1, ws2. split; [exact H1 |]. split; [exact H2 |].
    rewrite <- E2. exact E1.
Qed.

(** X10. A string that neither starts nor ends with white space is left as it is
    by [trim], and only such a string is; hence trimming twice is trimming
    once. *)
Theorem trim_idempotent s :
  (trim s = s <->
     (forall c t, s = String c t -> isspace c = false)
     /\ (forall c, back s = Some c -> isspace c = false))
  /\ trim (trim s) = trim s.
Proof.
  assert (Hfix : forall u,
            (forall c t, u = String c t -> isspace c = false) ->
            (forall c, back u = Some c -> isspace c = false) -> trim u = u).
  { intros u H1 H2. unfold trim. rewrite (left_trim_fixed u H1). apply right_trim_fixed, H2. }
  destruct (trim_ends s) as (Hhead & Hback).
  split.
  - split.
    + intros E. rewrite E in Hhead, Hback. split; assumption.
    + intros [H1 H2]. apply Hfix; assumption.
  - apply Hfix; assumption.
Qed.

(** ** Decimal digits *)

Lemma mem_port_chars c : mem c kValidPortChars = bool_decide (is_Some (digit_of c)).
Proof. destruct c as [[] [] [] [] [] [] [] []]; reflexivity. Qed.

Lemma find_first_not_of_port_chars s :
  find_first_not_of kValidPortChars s = None <-> only_digits s = true.
Proof.
  induction s as [|c s IH]; cbn [find_first_not_of only_digits]; [tauto |].
  rewrite mem_port_chars. destruct (bool_decide (is_Some (digit_of c))); simpl.
  - rewrite <- IH. destruct (find_first_not_of kValidPortChars s); simpl; split; congruence.
  - split; discriminate.
Qed.

Lemma digit_of_range c d : digit_of c = Some d -> (0 <= d <= 9)%Z.
Proof.
  unfold digit_of. destruct (_ && _) eqn:E; [| discriminate].
  intros [= <-]. apply andb_true_iff in E as [E1 E2].
  apply Nat.leb_le in E1, E2. lia.
Qed.

Lemma digits_value_bounds s acc :
  only_digits s = true -> (0 <= acc)%Z ->
  (10 ^ Z.of_nat (String.length s) * acc <= digits_value s acc
   < 10 ^ Z.of_nat (String.length s) * (acc + 1))%Z.
Proof.
  revert acc. induction s as [|c s IH]; intros acc Hd Hacc.
  - simpl. lia.
  - simpl in Hd. apply andb_true_iff in Hd as [Hc Hs].
    apply bool_decide_eq_true_1 in Hc. destruct Hc as [d Hc].
    pose proof (digit_of_range _ _ Hc) as Hr.
    cbn [digits_value String.length]. rewrite Hc.
    specialize (IH (10 * acc + d)%Z Hs ltac:(lia)).
    rewrite Nat2Z.inj_succ, Z.pow_succ_r by lia.
    set (p := (10 ^ Z.of_nat (String.length s))%Z) in *.
    assert (0 < p)%Z by (apply Z.pow_pos_nonneg; lia).
    nia.
Qed.

Lemma isspace_digit c : is_Some (digit_of c) -> isspace c = false.
Proof. destruct c as [[] [] [] [] [] [] [] []]; intros [d H]; try discriminate H; reflexivity. Qed.

Lemma strtol_unsigned c s :
  is_Some (digit_of c) ->
  strtol (String c s)
  = Z.max (- 2 ^ 63)%Z (Z.min (2 ^ 63 - 1)%Z (digits_value (String c s) 0)).
Proof.
  intros Hc. unfold strtol. cbn [skip_space]. rewrite (isspace_digit c Hc).
  destruct c as [[] [] [] [] [] [] [] []]; destruct Hc as [d Hd]; try discriminate Hd;
    reflexivity.
Qed.

(** On a short run of digits [strtol] is the decimal value. *)
Lemma strtol_digits s :
  only_digits s = true -> (String.length s <= 18)%nat ->
  strtol s = digits_value s 0
  /\ (0 <= digits_value s 0 < 10 ^ Z.of_nat (String.length s))%Z.
Proof.
  intros Hd Hlen.
  pose proof (digits_value_bounds s 0 Hd ltac:(lia)) as Hb.
  assert (Hp : (10 ^ Z.of_nat (String.length s) <= 10 ^ 18)%Z)
    by (apply Z.pow_le_mono_r; lia).
  split; [| lia].
  destruct s as [|c s]; [reflexivity |].
  simpl in Hd. apply andb_true_iff in Hd as [Hc _]. apply bool_decide_eq_true_1 in Hc.
  rewrite (strtol_unsigned c s Hc). lia.
Qed.

Lemma to_int_small v : (- 2 ^ 31 <= v < 2 ^ 31)%Z -> to_int v = v.
Proof. intros H. unfold to_int. rewrite Z.mod_small by lia. lia. Qed.

(** ** [get_tcp_port] *)

(** X11. [get_tcp_port] returns a port exactly for a run of at most five decimal
    digits whose value is at most 65535, and the port is that value (so the
    empty string gives 0 and leading zeros are allowed); five digits with a
    larger value are an impossible port number, and anything else has
    invalid characters or is too long. *)
Theorem get_tcp_port_cases data :
  (only_digits data = true /\ (String.length data <= 5)%nat
   /\ (0 <= digits_value data 0 <= 65535)%Z
   /\ get_tcp_port data = Returns (digits_value data 0))
  \/ (only_digits data = true /\ String.length data = 5%nat
      /\ (65535 < digits_value data 0)%Z
      /\ get_tcp_port data = Throws (runtime_error "impossible port number"))
  \/ ((only_digits data = false \/ (5 < String.length data)%nat)
      /\ get_tcp_port data = Throws (runtime_error "invalid characters or too long")).
Proof.
  unfold get_tcp_port.
  destruct (only_digits data) eqn:Hd.
  - destruct (5 <? String.length data)%nat eqn:Hlen.
    + right. right. apply Nat.ltb_lt in Hlen. split; [right; exact Hlen |].
      rewrite orb_true_r. reflexivity.
    + apply Nat.ltb_ge in Hlen.
      rewrite bool_decide_eq_false_2
        by (intros H; apply H; apply find_first_not_of_port_chars; exact Hd).
      simpl orb. cbv iota.
      destruct (strtol_digits data Hd ltac:(lia)) as [Hv Hb].
      assert (Hp : (10 ^ Z.of_nat (String.length data) <= 10 ^ 5)%Z)
        by (apply Z.pow_le_mono_r; lia).
      assert (Hport : match data with
                      | "" => 0%Z
                      | String _ _ => to_int (strtol data)
                      end = digits_value data 0).
      { destruct data; [reflexivity |]. rewrite Hv. apply to_int_small. lia. }
      rewrite Hport.
      destruct (65535 <? digits_value data 0)%Z eqn:Hmax.
      * apply Z.ltb_lt in Hmax. right. left.
        split; [reflexivity |]. split; [| split; [exact Hmax | reflexivity]].
        destruct (decide (String.length data = 5%nat)) as [|Hne]; [assumption |].
        exfalso.
        assert (Hp4 : (10 ^ Z.of_nat (String.length data) <= 10 ^ 4)%Z)
          by (apply Z.pow_le_mono_r; lia).
        lia.
      * apply Z.ltb_ge in Hmax. left.
        split; [reflexivity |]. split; [exact Hlen |]. split; [lia |].
        unfold to_uint16. rewrite Z.mod_small by lia. reflexivity.
  - right. right. split; [left; reflexivity |].
    rewrite bool_decide_eq_true_2; [reflexivity |].
    intros H. apply find_first_not_of_port_chars in H. congruence.
Qed.

Lemma trim_fixed u :
  (forall c t, u = String c t -> isspace c = false) ->
  (forall c, back u = Some c -> isspace c = false) -> trim u = u.
Proof.
  intros H1 H2. unfold trim. rewrite (left_trim_fixed u H1). apply right_trim_fixed, H2.
Qed.

Lemma right_trim_append a ws : blank ws = true -> right_trim (a +:+ ws) = right_trim a.
Proof.
  intros H. unfold right_trim. rewrite rev_append, skip_space_append, blank_rev, H.
  reflexivity.
Qed.

Lemma trim_append ws1 data ws2 :
  blank ws1 = true -> blank ws2 = true -> trim (ws1 +:+ data +:+ ws2) = trim data.
Proof.
  intros H1 H2. unfold trim, left_trim.
  rewrite skip_space_append, H1, skip_space_append.
  destruct (blank data) eqn:Hd.
  - apply skip_space_blank in H2. apply skip_space_blank in Hd. rewrite H2, Hd. reflexivity.
  - apply right_trim_append, H2.
Qed.

Lemma trim_blank data : trim data = "" <-> blank data = true.
Proof.
  split.
  - intros E. destruct (left_trim_split data) as (ws1 & H1 & E1).
    destruct (right_trim_split (left_trim data)) as (ws2 & H2 & E2).
    unfold trim in E. rewrite E in E2. change ("" +:+ ws2) with ws2 in E2.
    rewrite E1, E2, blank_append, H1, H2. reflexivity.
  - intros H. unfold trim, left_trim. apply skip_space_blank in H. rewrite H. reflexivity.
Qed.

Lemma back_append a c b : back (a +:+ String c b) = back (String c b).
Proof.
  induction a as [|x a IH]; [reflexivity |].
  rewrite append_cons. cbn [back]. rewrite IH.
  destruct a; reflexivity.
Qed.

Lemma back_only_digits s c : only_digits s = true -> back s = Some c -> is_Some (digit_of c).
Proof.
  induction s as [|a s IH]; [discriminate |].
  cbn [only_digits]. intros Hd. apply andb_true_iff in Hd as [Ha Hs].
  destruct s as [|b s].
  - intros [= <-]. apply bool_decide_eq_true_1 in Ha. exact Ha.
  - apply IH, Hs.
Qed.

Lemma find_char_append c a b :
  find_char c a = None -> find_char c (a +:+ String c b) = Some (String.length a).
Proof.
  induction a as [|x a IH]; cbn [find_char].
  - intros _. change ("" +:+ String c b) with (String c b). cbn [find_char].
    rewrite Ascii.eqb_refl. reflexivity.
  - rewrite append_cons. cbn [find_char]. destruct (Ascii.eqb x c); [discriminate |].
    destruct (find_char c a); [discriminate |]. intros _. rewrite IH by reflexivity.
    reflexivity.
Qed.

Lemma find_char_append_None c a b :
  find_char c a = None -> find_char c b = None -> find_char c (a +:+ b) = None.
Proof.
  induction a as [|x a IH]; cbn [find_char]; [auto |].
  rewrite append_cons. cbn [find_char]. destruct (Ascii.eqb x c); [discriminate |].
  destruct (find_char c a); [discriminate |]. intros _ Hb. rewrite IH by auto. reflexivity.
Qed.

Lemma count_char_append c a b :
  count_char c (a +:+ b) = (count_char c a + count_char c b)%nat.
Proof.
  induction a as [|x a IH]; [reflexivity |].
  rewrite append_cons. cbn [count_char]. rewrite IH. lia.
Qed.

Lemma count_char_0 c s : find_char c s = None -> count_char c s = 0%nat.
Proof.
  induction s as [|x s IH]; [reflexivity |]. cbn [find_char count_char].
  destruct (Ascii.eqb x c); [discriminate |].
  destruct (find_char c s); [discriminate |]. intros _. rewrite IH by reflexivity. reflexivity.
Qed.

Lemma find_char_not_mem chars c s :
  find_first_not_of chars s = None -> mem c chars = false -> find_char c s = None.
Proof.
  intros Hs Hc. induction s as [|x s IH]; [reflexivity |].
  cbn [find_first_not_of find_char] in *.
  destruct (mem x chars) eqn:Hx; [| discriminate].
  destruct (Ascii.eqb x c) eqn:E.
  - apply Ascii.eqb_eq in E. congruence.
  - destruct (find_first_not_of chars s); [discriminate |]. rewrite IH by reflexivity.
    reflexivity.
Qed.

Lemma only_digits_no c s :
  only_digits s = true -> digit_of c = None -> find_char c s = None.
Proof.
  intros Hs Hc. apply (find_char_not_mem kValidPortChars).
  - apply find_first_not_of_port_chars, Hs.
  - rewrite mem_port_chars. apply bool_decide_eq_false_2. rewrite Hc. intros [? ?]. discriminate.
Qed.

Lemma string_drop_append a b : string_drop (String.length a) (a +:+ b) = b.
Proof. induction a as [|x a IH]; [destruct b; reflexivity |]. rewrite append_cons. exact IH. Qed.

Lemma string_take_append a b : string_take (String.length a) (a +:+ b) = a.
Proof.
  induction a as [|x a IH]; [destruct b; reflexivity |].
  rewrite append_cons. cbn [String.length string_take]. rewrite IH. reflexivity.
Qed.

Lemma get_tcp_port_Returns data port :
  get_tcp_port data = Returns port ->
  only_digits data = true /\ (0 <= port <= 65535)%Z /\ port = digits_value data 0.
Proof.
  intros H. unfold get_tcp_port in H.
  destruct (bool_decide (find_first_not_of kValidPortChars data <> None)) eqn:Hd;
    [discriminate |].
  apply bool_decide_eq_false_1 in Hd.
  assert (Hdig : only_digits data = true).
  { apply find_first_not_of_port_chars.
    destruct (find_first_not_of kValidPortChars data); [exfalso; apply Hd; discriminate | reflexivity]. }
  destruct (5 <? String.length data)%nat eqn:Hlen; [discriminate |].
  apply Nat.ltb_ge in Hlen. simpl orb in H. cbv iota in H.
  destruct (strtol_digits data Hdig ltac:(lia)) as [Hv Hb].
  assert (Hp : (10 ^ Z.of_nat (String.length data) <= 10 ^ 5)%Z)
    by (apply Z.pow_le_mono_r; lia).
  assert (Hport : match data with
                  | "" => 0%Z
                  | String _ _ => to_int (strtol data)
                  end = digits_value data 0).
  { destruct data; [reflexivity |]. rewrite Hv. apply to_int_small. lia. }
  rewrite Hport in H.
  destruct (65535 <? digits_value data 0)%Z eqn:Hmax; [discriminate |].
  apply Z.ltb_ge in Hmax. injection H as <-.
  unfold to_uint16. rewrite Z.mod_small by lia. split; [exact Hdig |]. split; [lia | reflexivity].
Qed.

Lemma tail_is_trimmed host data c :
  only_digits data = true -> back (host +:+ String ":" data) = Some c -> isspace c = false.
Proof.
  intros Hd. rewrite back_append. destruct data as [|d data].
  - intros [= <-]. reflexivity.
  - change (back (String ":" (String d data))) with (back (String d data)).
    intros Hb. apply isspace_digit. exact (back_only_digits _ _ Hd Hb).
Qed.

(** ** [split_addr_port] *)

(** X14. White space around the argument is ignored: it changes neither what is
    returned nor what is thrown. *)
Theorem split_addr_port_ignores_space ws1 data ws2 :
  blank ws1 = true -> blank ws2 = true ->
  split_addr_port (ws1 +:+ data +:+ ws2) = split_addr_port data.
Proof.
  intros H1 H2. unfold split_addr_port. rewrite (trim_append ws1 data ws2 H1 H2). reflexivity.
Qed.

(** X15. An argument that is empty or holds white space only is not reported as
    a [runtime_error]: the function leaves it to [std::string::at], which
    throws [std::out_of_range]; no other argument does so. *)
Theorem split_addr_port_blank data :
  split_addr_port data = Throws out_of_range <-> blank data = true.
Proof.
  rewrite <- trim_blank. unfold split_addr_port.
  destruct (trim data) as [|c0 rest] eqn:E; [tauto |].
  split; [| discriminate]. intros H. exfalso. revert H.
  set (d := String c0 rest).
  assert (Hport : forall addr s, port_of addr s <> Throws out_of_range).
  { intros addr s. unfold port_of, get_tcp_port.
    repeat match goal with |- context [if ?b then _ else _] => destruct b end; discriminate. }
  destruct (Ascii.eqb c0 "[").
  - destruct (find_char "]" d); [| discriminate].
    destruct (bool_decide _); [discriminate |].
    destruct (find_char_from ":" d n); [apply Hport | discriminate].
  - destruct (1 <? count_char ":" d)%nat.
    + repeat match goal with |- context [if ?b then _ else _] => destruct b end; discriminate.
    + destruct (find_char ":" d); [apply Hport | discriminate].
Qed.

(** X12. A host name or IPv4 address that holds no colon, followed by a colon and
    a valid port, is split at the colon; without the colon and the port, the
    port is 0. *)
Theorem split_addr_port_host c0 t data port :
  isspace c0 = false -> c0 <> "["%char ->
  find_char ":" (String c0 t) = None ->
  get_tcp_port data = Returns port ->
  split_addr_port (String c0 t +:+ ":" +:+ data) = Returns (String c0 t, port)
  /\ (trim (String c0 t) = String c0 t ->
      split_addr_port (String c0 t) = Returns (String c0 t, 0%Z)).
Proof.
  intros Hsp Hbr Hcolon Hport.
  destruct (get_tcp_port_Returns data port Hport) as (Hd & _ & _).
  assert (Hbr' : Ascii.eqb c0 "[" = false) by (apply Ascii.eqb_neq; exact Hbr).
  split.
  - set (host := String c0 t) in *.
    assert (Htrim : trim (host +:+ ":" +:+ data) = host +:+ ":" +:+ data).
    { apply trim_fixed.
      - unfold host. rewrite append_cons. intros c u [= <- _]. exact Hsp.
      - intros c. apply tail_is_trimmed, Hd. }
    unfold split_addr_port. rewrite Htrim.
    assert (Hcount : count_char ":" (host +:+ ":" +:+ data) = 1%nat).
    { rewrite count_char_append. change (":" +:+ data) with (String ":" data).
      cbn [count_char].
      rewrite (count_char_0 _ _ Hcolon). rewrite (count_char_0 ":"%char data); [reflexivity |].
      apply only_digits_no; [exact Hd | reflexivity]. }
    assert (Hfind : find_char ":" (host +:+ ":" +:+ data) = Some (String.length host))
      by (apply find_char_append; exact Hcolon).
    cbv zeta. rewrite Hcount, Hfind.
    unfold host at 1. rewrite append_cons. rewrite Hbr'. cbv iota. fold host.
    change (1 <? 1)%nat with false. cbv iota.
    unfold substr. change (string_drop 0 ?s) with s.
    rewrite string_take_append.
    replace (String.length host + 1)%nat with (String.length (host +:+ ":"))
      by (rewrite length_append; reflexivity).
    replace (host +:+ ":" +:+ data) with ((host +:+ ":") +:+ data)
      by (rewrite append_assoc; reflexivity).
    rewrite string_drop_append. unfold port_of. rewrite Hport. reflexivity.
  - intros Htrim. unfold split_addr_port. rewrite Htrim. cbv zeta. rewrite Hbr'.
    rewrite (count_char_0 _ _ Hcolon), Hcolon. reflexivity.
Qed.

Lemma find_char_from_append c a x junk b :
  Ascii.eqb x c = false -> find_char c junk = None ->
  find_char_from c (a +:+ String x (junk +:+ String c b)) (String.length a)
  = Some (String.length a + S (String.length junk))%nat.
Proof.
  intros Hx Hj. unfold find_char_from. rewrite string_drop_append.
  cbn [find_char]. rewrite Hx, (find_char_append c junk b Hj). reflexivity.
Qed.

Lemma find_char_from_None c a x junk :
  Ascii.eqb x c = false -> find_char c junk = None ->
  find_char_from c (a +:+ String x junk) (String.length a) = None.
Proof.
  intros Hx Hj. unfold find_char_from. rewrite string_drop_append.
  cbn [find_char]. rewrite Hx, Hj. reflexivity.
Qed.

(** X13. An address in square brackets that is made of the characters of
    [kValidIPv6Chars], followed by a colon and a valid port, gives the
    address without the brackets and the port; what stands between the
    closing bracket and the colon is not looked at.  Without a colon after
    the closing bracket the port is 0. *)
Theorem split_addr_port_brackets addr junk data port :
  find_first_not_of kValidIPv6Chars addr = None ->
  find_char ":" junk = None ->
  get_tcp_port data = Returns port ->
  split_addr_port ("[" +:+ addr +:+ "]" +:+ junk +:+ ":" +:+ data) = Returns (addr, port)
  /\ (trim junk = junk \/ blank junk = true ->
      split_addr_port ("[" +:+ addr +:+ "]" +:+ junk) = Returns (addr, 0%Z)).
Proof.
  intros Haddr Hjunk Hport.
  destruct (get_tcp_port_Returns data port Hport) as (Hd & _ & _).
  assert (Hclose : find_char "]" addr = None)
    by (apply (find_char_not_mem kValidIPv6Chars); [exact Haddr | reflexivity]).
  assert (Hshape : forall rest,
    find_char "]" (String "[" (addr +:+ String "]" rest)) = Some (S (String.length addr))
    /\ substr (String "[" (addr +:+ String "]" rest)) 1 (Some (S (String.length addr) - 1)%nat)
       = addr).
  { intros rest. split.
    - cbn [find_char]. change (Ascii.eqb "[" "]") with false. cbv iota.
      rewrite (find_char_append "]" addr rest Hclose). reflexivity.
    - unfold substr. cbn [string_drop]. rewrite Nat.sub_succ, Nat.sub_0_r.
      apply string_take_append. }
  assert (Hbody : forall rest,
    trim (String "[" (addr +:+ String "]" rest)) = String "[" (addr +:+ String "]" rest) ->
    split_addr_port (String "[" (addr +:+ String "]" rest))
    = match find_char_from ":" (String "[" (addr +:+ String "]" rest)) (S (String.length addr)) with
      | Some pos =>
          port_of addr (substr (String "[" (addr +:+ String "]" rest)) (pos + 1) None)
      | None => Returns (addr, 0%Z)
      end).
  { intros rest Htrim. destruct (Hshape rest) as [Hfind Hsub].
    unfold split_addr_port. rewrite Htrim. cbv zeta.
    change (Ascii.eqb "[" "[") with true. cbv iota.
    rewrite Hfind, Hsub.
    rewrite bool_decide_eq_false_2 by (rewrite Haddr; intros H; apply H; reflexivity).
    reflexivity. }
  split.
  - change ("[" +:+ addr +:+ "]" +:+ junk +:+ ":" +:+ data)
      with (String "[" (addr +:+ String "]" (junk +:+ String ":" data))).
    rewrite Hbody.
    + pose proof (find_char_from_append ":" (String "[" addr) "]" junk data eq_refl Hjunk) as Hf.
      rewrite append_cons in Hf. cbn [String.length] in Hf. rewrite Hf.
      unfold substr, port_of.
      replace (String "[" (addr +:+ String "]" (junk +:+ String ":" data)))
        with ((String "[" addr +:+ String "]" junk +:+ ":") +:+ data).
      2:{ rewrite !append_cons, !append_assoc, append_cons. rewrite append_assoc. reflexivity. }
      replace (S (String.length addr) + S (String.length junk) + 1)%nat
        with (String.length (String "[" addr +:+ String "]" junk +:+ ":")).
      2:{ rewrite !length_append. cbn [String.length]. lia. }
      rewrite string_drop_append, Hport. reflexivity.
    + apply trim_fixed.
      * intros c u [= <- _]. reflexivity.
      * intros c.
        replace (String "[" (addr +:+ String "]" (junk +:+ String ":" data)))
          with ((String "[" addr +:+ String "]" junk) +:+ String ":" data).
        2:{ rewrite !append_cons, !append_assoc, append_cons. reflexivity. }
        apply tail_is_trimmed, Hd.
  - intros Hj.
    assert (Hsplit : forall rest, find_char ":" rest = None ->
      trim (String "[" (addr +:+ String "]" rest)) = String "[" (addr +:+ String "]" rest) ->
      split_addr_port (String "[" (addr +:+ String "]" rest)) = Returns (addr, 0%Z)).
    { intros rest Hrest Htrim. rewrite (Hbody rest Htrim).
      pose proof (find_char_from_None ":" (String "[" addr) "]" rest eq_refl Hrest) as Hf.
      rewrite append_cons in Hf. cbn [String.length] in Hf. rewrite Hf. reflexivity. }
    change ("[" +:+ addr +:+ "]" +:+ junk) with (String "[" (addr +:+ String "]" junk)).
    destruct (blank junk) eqn:Hb.
    + replace (String "[" (addr +:+ String "]" junk))
        with ("" +:+ String "[" (addr +:+ "]") +:+ junk).
      2:{ change ("" +:+ ?s) with s. rewrite append_cons, append_assoc. reflexivity. }
      assert (Hspace : forall text,
                split_addr_port ("" +:+ text +:+ junk) = split_addr_port text).
      { intros text. unfold split_addr_port.
        rewrite (trim_append "" text junk eq_refl Hb). reflexivity. }
      rewrite Hspace.
      replace (String "[" (addr +:+ "]")) with (String "[" (addr +:+ String "]" "")) by reflexivity.
      apply Hsplit; [reflexivity |].
      apply trim_fixed.
      * intros c u [= <- _]. reflexivity.
      * intros c. rewrite <- append_cons, back_append. intros [= <-]. reflexivity.
    + destruct Hj as [Hj | Hj]; [| discriminate].
      apply Hsplit; [exact Hjunk |].
      apply trim_fixed.
      * intros c u [= <- _]. reflexivity.
      * intros c. rewrite <- append_cons.
        destruct junk as [|j junk]; [discriminate |].
        rewrite back_append. change (back (String "]" (String j junk))) with (back (String j junk)).
        destruct (trim_ends (String j junk)) as [_ Hback]. rewrite Hj in Hback. apply Hback.
Qed.

(** X16. Whatever the argument, a returned port lies between 0 and 65535, and a
    [runtime_error] carries one of the texts of the function. *)
Theorem split_addr_port_range data :
  match split_addr_port data with
  | Returns (addr, port) => (0 <= port <= 65535)%Z
  | Throws (runtime_error what) =>
      what = "invalid IPv6 address: missing closing square bracket"
      \/ what = "invalid IPv6 address: illegal character(s)"
      \/ what = "invalid IPv6 address: missing opening square bracket"
      \/ what = "invalid TCP port: invalid characters or too long"
      \/ what = "invalid TCP port: impossible port number"
  | Throws out_of_range => blank data = true
  | Aborts => False
  end.
Proof.
  assert (Hport : forall addr s,
    match port_of addr s with
    | Returns (_, port) => (0 <= port <= 65535)%Z
    | Throws (runtime_error what) =>
        what = "invalid TCP port: invalid characters or too long"
        \/ what = "invalid TCP port: impossible port number"
    | Throws out_of_range => False
    | Aborts => False
    end).
  { intros addr s. unfold port_of.
    destruct (get_tcp_port s) as [port | e |] eqn:E.
    - apply get_tcp_port_Returns in E. tauto.
    - unfold get_tcp_port in E.
      repeat match type of E with context [if ?b then _ else _] => destruct b end;
        try discriminate E; injection E as <-; auto.
    - unfold get_tcp_port in E.
      repeat match type of E with context [if ?b then _ else _] => destruct b end;
        discriminate E. }
  unfold split_addr_port. destruct (trim data) as [|c0 rest] eqn:E.
  { apply trim_blank. exact E. }
  set (d := String c0 rest).
  assert (Hcase : forall addr s,
    match port_of addr s with
    | Returns (_, port) => (0 <= port <= 65535)%Z
    | Throws (runtime_error what) =>
        what = "invalid IPv6 address: missing closing square bracket"
        \/ what = "invalid IPv6 address: illegal character(s)"
        \/ what = "invalid IPv6 address: missing opening square bracket"
        \/ what = "invalid TCP port: invalid characters or too long"
        \/ what = "invalid TCP port: impossible port number"
    | Throws out_of_range => blank data = true
    | Aborts => False
    end).
  { intros addr s. specialize (Hport addr s).
    destruct (port_of addr s) as [[a p] | [w |] |]; tauto. }
  destruct (Ascii.eqb c0 "[").
  - destruct (find_char "]" d); [| auto].
    destruct (bool_decide _); [auto |].
    destruct (find_char_from ":" d n); [apply Hcase | lia].
  - destruct (1 <? count_char ":" d)%nat.
    + repeat match goal with |- context [if ?b then _ else _] => destruct b end; auto; lia.
    + destruct (find_char ":" d); [apply Hcase | lia].
Qed.

(** ** [split_string] *)

Lemma until_spec d ss :
  find_char d (until d ss).1 = None
  /\ ((find_char d ss = None /\ (until d ss).1 = ss /\ (until d ss).2 = "")
      \/ ss = (until d ss).1 +:+ String d (until d ss).2).
Proof.
  induction ss as [|c ss (IH1 & IH2)]; cbn [until find_char].
  - split; [reflexivity |]. left. auto.
  - destruct (Ascii.eqb c d) eqn:E.
    + apply Ascii.eqb_eq in E. subst c. split; [reflexivity |]. right. reflexivity.
    + destruct (until d ss) as [token rest]. cbn [fst snd] in *. cbn [find_char].
      rewrite E, IH1. split; [reflexivity |].
      destruct IH2 as [(H1 & H2 & H3) | H].
      * left. rewrite H1, H2, H3. auto.
      * right. rewrite append_cons, <- H. reflexivity.
Qed.

Lemma back_cons c s : s <> "" -> back (String c s) = back s.
Proof. destruct s; [congruence | reflexivity]. Qed.

Lemma back_no c s : find_char c s = None -> back s <> Some c.
Proof.
  induction s as [|a s IH]; [discriminate |].
  cbn [find_char]. destruct (Ascii.eqb a c) eqn:E; [discriminate |].
  destruct (find_char c s); [discriminate |]. intros _.
  destruct s as [|b s].
  - intros [= ->]. rewrite Ascii.eqb_refl in E. discriminate.
  - apply IH. reflexivity.
Qed.

Lemma join_cons d token tokens :
  tokens <> [] -> join d (token :: tokens) = token +:+ String d (join d tokens).
Proof. destruct tokens; [congruence | reflexivity]. Qed.

Lemma split_loop_app fuel d allow_empty ss acc :
  split_loop fuel d allow_empty ss acc
  = (acc ++ split_loop fuel d allow_empty ss [])%list.
Proof.
  revert ss acc. induction fuel as [|fuel IH]; intros ss acc; cbn [split_loop].
  - rewrite app_nil_r. reflexivity.
  - destruct (getline d ss) as [[token ss']|]; [| rewrite app_nil_r; reflexivity].
    destruct (String.eqb token "" && negb allow_empty).
    + apply IH.
    + rewrite (IH ss' (acc ++ [token])%list), (IH ss' ([] ++ [token])%list).
      rewrite <- app_assoc. reflexivity.
Qed.

(** What the function returns once the loop is over, with empty tokens
    allowed. *)
Lemma split_loop_all d fuel ss :
  (String.length ss <= fuel)%nat -> ss <> "" ->
  let result := split_loop fuel d true ss [] in
  let tokens := if bool_decide (back ss = Some d) then (result ++ [""])%list else result in
  result <> []
  /\ join d tokens = ss
  /\ Forall (fun token => find_char d token = None) tokens
  /\ length tokens = S (count_char d ss).
Proof.
  revert ss. induction fuel as [|fuel IH]; intros ss Hlen Hne.
  { destruct ss; [congruence | simpl in Hlen; lia]. }
  cbn zeta. cbn [split_loop]. unfold getline.
  destruct ss as [|c0 ss0] eqn:Ess; [congruence |]. rewrite <- Ess in *. clear Hne.
  assert (Hne : ss <> "") by (rewrite Ess; discriminate).
  replace (match ss with "" => None | String _ _ => Some (until d ss) end)
    with (Some (until d ss)) by (rewrite Ess; reflexivity).
  destruct (until_spec d ss) as [Htok Hcase].
  destruct (until d ss) as [token rest]. cbn [fst snd] in *.
  rewrite andb_false_r. rewrite split_loop_app. cbn [app].
  destruct Hcase as [(Hnone & -> & ->) | Hss].
  - (* the last token, not followed by a delimiter *)
    replace (split_loop fuel d true "" []) with (@nil string) by (destruct fuel; reflexivity).
    rewrite bool_decide_eq_false_2 by (apply back_no; exact Hnone).
    split; [discriminate |]. split; [reflexivity |].
    split; [repeat constructor; exact Hnone |].
    rewrite (count_char_0 _ _ Hnone). reflexivity.
  - assert (Hcount : count_char d ss = S (count_char d rest)).
    { rewrite Hss at 1. rewrite count_char_append. cbn [count_char].
      rewrite Ascii.eqb_refl, (count_char_0 _ _ Htok). reflexivity. }
    assert (Hback : back ss = back (String d rest)).
    { rewrite Hss at 1. apply back_append. }
    destruct rest as [|r0 rest0] eqn:Erest.
    + (* a delimiter at the very end *)
      replace (split_loop fuel d true "" []) with (@nil string) by (destruct fuel; reflexivity).
      rewrite bool_decide_eq_true_2 by exact Hback.
      split; [discriminate |]. cbn [app]. split; [| split].
      * symmetry. exact Hss.
      * apply Forall_cons_2; [exact Htok |].
        apply Forall_cons_2; [reflexivity | apply Forall_nil_2].
      * rewrite Hcount. reflexivity.
    + rewrite <- Erest in *.
      assert (Hrest : rest <> "") by (rewrite Erest; discriminate).
      assert (Hlen' : (String.length rest <= fuel)%nat).
      { apply (f_equal String.length) in Hss. rewrite length_append in Hss.
        cbn [String.length] in Hss. lia. }
      destruct (IH rest Hlen' Hrest) as (Hnil & Hjoin & Hall & Hn).
      rewrite (back_cons d rest Hrest) in Hback. rewrite Hback.
      split; [discriminate |].
      destruct (bool_decide (back rest = Some d)).
      * cbn [app]. split; [| split].
        -- rewrite join_cons by (destruct (split_loop fuel d true rest []); discriminate).
           rewrite Hjoin. symmetry. exact Hss.
        -- constructor; [exact Htok | exact Hall].
        -- cbn [length]. rewrite Hn, Hcount. reflexivity.
      * split; [| split].
        -- rewrite join_cons by exact Hnil. rewrite Hjoin. symmetry. exact Hss.
        -- constructor; [exact Htok | exact Hall].
        -- cbn [length]. rewrite Hn, Hcount. reflexivity.
Qed.

(** X17. With empty tokens allowed, splitting loses nothing: joining the tokens
    with the delimiter gives the text back, no token holds the delimiter,
    and a text that is not empty has one token more than it has
    delimiters. *)
Theorem split_string_round_trip data d :
  join d (split_string data d true) = data
  /\ Forall (fun token => find_char d token = None) (split_string data d true)
  /\ (data <> "" -> length (split_string data d true) = S (count_char d data)).
Proof.
  destruct data as [|c0 data0] eqn:E.
  { split; [reflexivity |]. split; [constructor | congruence]. }
  rewrite <- E. assert (Hne : data <> "") by (rewrite E; discriminate).
  destruct (split_loop_all d (String.length data) data (le_n _) Hne) as (_ & Hjoin & Hall & Hn).
  assert (Hs : split_string data d true
               = if bool_decide (back data = Some d)
                 then (split_loop (String.length data) d true data [] ++ [""])%list
                 else split_loop (String.length data) d true data []).
  { rewrite E. reflexivity. }
  rewrite Hs. auto.
Qed.

Lemma split_loop_filter d fuel ss :
  split_loop fuel d false ss []
  = filter (fun token => token <> "") (split_loop fuel d true ss []).
Proof.
  revert ss. induction fuel as [|fuel IH]; intros ss; cbn [split_loop]; [reflexivity |].
  destruct (getline d ss) as [[token ss']|]; [| reflexivity].
  rewrite andb_false_r, andb_true_r.
  rewrite (split_loop_app fuel d true ss' ([] ++ [token])%list). cbn [app].
  destruct (String.eqb_spec token "") as [-> | Hne].
  - rewrite filter_cons_False by (intros H; apply H; reflexivity). apply IH.
  - rewrite split_loop_app. cbn [app]. rewrite filter_cons_True by exact Hne.
    rewrite IH. reflexivity.
Qed.

(** X18. Without empty tokens allowed, the function returns the tokens of the
    other mode that are not empty, in the same order: no returned token is
    empty and none holds the delimiter. *)
Theorem split_string_skips_empty data d :
  split_string data d false
  = filter (fun token => token <> "") (split_string data d true)
  /\ Forall (fun token => token <> "" /\ find_char d token = None)
       (split_string data d false).
Proof.
  assert (E : split_string data d false
              = filter (fun token => token <> "") (split_string data d true)).
  { destruct data as [|c0 data0] eqn:E; [reflexivity |]. rewrite <- E.
    assert (Hs : forall b, split_string data d b
               = if b && bool_decide (back data = Some d)
                 then (split_loop (String.length data) d b data [] ++ [""])%list
                 else split_loop (String.length data) d b data []).
    { intros b. rewrite E. reflexivity. }
    rewrite !Hs. cbn [andb]. rewrite split_loop_filter.
    destruct (bool_decide (back data = Some d)); [| reflexivity].
    rewrite filter_app. rewrite filter_cons_False by (intros H; apply H; reflexivity).
    rewrite filter_nil, app_nil_r. reflexivity. }
  split; [exact E |].
  rewrite E. apply Forall_forall. intros token Hin.
  apply list_elem_of_filter in Hin as [Hne Hin]. split; [exact Hne |].
  assert (Hne' : data <> "") by (intros ->; inversion Hin).
  destruct (split_loop_all d (String.length data) data (le_n _) Hne') as (_ & _ & Hall & _).
  rewrite Forall_forall in Hall. apply Hall.
  destruct data as [|c0 data0]; [congruence |]. exact Hin.
Qed.

(** ** [strtoi_checked], [strtoui_checked] *)

Lemma take_sign_cons c s :
  take_sign (String c s)
  = if Ascii.eqb c "-" then (true, s)
    else if Ascii.eqb c "+" then (false, s) else (false, String c s).
Proof. destruct c as [[] [] [] [] [] [] [] []]; reflexivity. Qed.

Lemma skip_digits_only s : skip_digits s = "" <-> only_digits s = true.
Proof.
  induction s as [|c s IH]; cbn [skip_digits only_digits]; [tauto |].
  destruct (bool_decide (is_Some (digit_of c))); simpl; [exact IH |]. split; discriminate.
Qed.

Lemma valid_chars_length sg n s : valid_chars sg n s = true -> (String.length s < n)%nat.
Proof.
  revert s. induction n as [|n IH]; intros s; cbn [valid_chars]; [discriminate |].
  destruct s as [|c s]; [simpl; lia |].
  destruct (_ || _); [| discriminate]. intros H. apply IH in H. simpl. lia.
Qed.

Lemma valid_chars_digits sg n s :
  only_digits s = true -> (String.length s < n)%nat -> valid_chars sg n s = true.
Proof.
  revert s. induction n as [|n IH]; intros s Hd Hlen; [lia |].
  destruct s as [|c s]; [reflexivity |].
  cbn [only_digits] in Hd. apply andb_true_iff in Hd as [Hc Hs].
  cbn [valid_chars]. rewrite Hc. cbn [orb]. apply IH; [exact Hs | simpl in Hlen; lia].
Qed.

Lemma only_digits_head c s : only_digits (String c s) = true -> bool_decide (is_Some (digit_of c)) = true.
Proof. cbn [only_digits]. intros H. apply andb_true_iff in H. tauto. Qed.

Lemma not_digits_head c s :
  bool_decide (is_Some (digit_of c)) = false -> only_digits (String c s) = false.
Proof. cbn [only_digits]. intros ->. reflexivity. Qed.

Lemma to_int_fits v : (to_int v =? v)%Z = ((- 2 ^ 31 <=? v) && (v <? 2 ^ 31))%Z.
Proof.
  unfold to_int.
  destruct (- 2 ^ 31 <=? v)%Z eqn:E1; destruct (v <? 2 ^ 31)%Z eqn:E2; cbn [andb];
    rewrite ?Z.leb_le, ?Z.ltb_lt, ?Z.leb_gt, ?Z.ltb_ge in *.
  - apply Z.eqb_eq. rewrite Z.mod_small by lia. lia.
  - apply Z.eqb_neq. pose proof (Z.mod_pos_bound (v + 2 ^ 31) (2 ^ 32) ltac:(lia)). lia.
  - apply Z.eqb_neq. pose proof (Z.mod_pos_bound (v + 2 ^ 31) (2 ^ 32) ltac:(lia)). lia.
  - lia.
Qed.

Lemma to_uint_fits v : (0 <= v)%Z -> (to_uint v =? v)%Z = (v <? 2 ^ 32)%Z.
Proof.
  intros Hv. unfold to_uint. destruct (v <? 2 ^ 32)%Z eqn:E;
    rewrite ?Z.ltb_lt, ?Z.ltb_ge in *.
  - apply Z.eqb_eq. apply Z.mod_small. lia.
  - apply Z.eqb_neq. pose proof (Z.mod_pos_bound v (2 ^ 32) ltac:(lia)). lia.
Qed.

Lemma digits_small d :
  only_digits d = true -> (String.length d <= 11)%nat ->
  (0 <= digits_value d 0 < 10 ^ 11)%Z.
Proof.
  intros Hd Hlen. pose proof (digits_value_bounds d 0 Hd ltac:(lia)) as Hb.
  assert (Hp : (10 ^ Z.of_nat (String.length d) <= 10 ^ 11)%Z)
    by (apply Z.pow_le_mono_r; lia).
  lia.
Qed.

(** What is left of the function once the characters have been checked,
    for a text that does not start with white space. *)
Lemma strtol_checked_digits c s negative digits default_value :
  isspace c = false -> take_sign (String c s) = (negative, digits) ->
  (String.length digits <= 11)%nat ->
  match strtol_end (String c s) with
  | None => default_value
  | Some (result, tmp, erange) =>
      if negb (String.eqb tmp "") || erange then default_value
      else if (to_int result =? result)%Z then to_int result else default_value
  end
  = if negb (String.eqb digits "") && only_digits digits then
      let v := (if negative then - digits_value digits 0 else digits_value digits 0)%Z in
      if ((- 2 ^ 31 <=? v) && (v <? 2 ^ 31))%Z then v else default_value
    else default_value.
Proof.
  intros Hc Hs Hlen. unfold strtol_end, scan_number. cbn [skip_space]. rewrite Hc, Hs.
  destruct digits as [|x d]; [reflexivity |]. set (digits := String x d) in *.
  change (String.eqb digits "") with false. cbn [negb andb].
  destruct (only_digits digits) eqn:Hd.
  - rewrite (only_digits_head x d Hd).
    assert (E : skip_digits digits = "") by (apply skip_digits_only; exact Hd).
    rewrite E. change (String.eqb "" "") with true. cbn [negb orb].
    pose proof (digits_small digits Hd Hlen) as Hb. cbv zeta.
    set (v := (if negative then - digits_value digits 0 else digits_value digits 0)%Z).
    assert (Hv : (- 10 ^ 11 < v < 10 ^ 11)%Z) by (unfold v; destruct negative; lia).
    replace ((- 2 ^ 63 <=? v)%Z && (v <=? 2 ^ 63 - 1)%Z) with true
      by (symmetry; apply andb_true_iff; split; [apply Z.leb_le | apply Z.leb_le]; lia).
    cbn [negb]. replace (Z.max (- 2 ^ 63) (Z.min (2 ^ 63 - 1) v)) with v by lia.
    rewrite to_int_fits.
    destruct ((- 2 ^ 31 <=? v)%Z && (v <? 2 ^ 31)%Z) eqn:Hfit; [| reflexivity].
    apply to_int_small. apply andb_true_iff in Hfit as [H1 H2].
    apply Z.leb_le in H1. apply Z.ltb_lt in H2. lia.
  - destruct (bool_decide (is_Some (digit_of x))) eqn:Hx; [| reflexivity].
    destruct (skip_digits digits) as [|y rest] eqn:E.
    + apply skip_digits_only in E. congruence.
    + reflexivity.
Qed.

Lemma strtoul_checked_digits c s digits default_value :
  isspace c = false -> take_sign (String c s) = (false, digits) ->
  (String.length digits <= 11)%nat ->
  match strtoul_end (String c s) with
  | None => default_value
  | Some (result, tmp, erange) =>
      if negb (String.eqb tmp "") || erange then default_value
      else if (to_uint result =? result)%Z then to_uint result else default_value
  end
  = if negb (String.eqb digits "") && only_digits digits then
      if (digits_value digits 0 <? 2 ^ 32)%Z then digits_value digits 0 else default_value
    else default_value.
Proof.
  intros Hc Hs Hlen. unfold strtoul_end, scan_number. cbn [skip_space]. rewrite Hc, Hs.
  destruct digits as [|x d]; [reflexivity |]. set (digits := String x d) in *.
  change (String.eqb digits "") with false. cbn [negb andb].
  destruct (only_digits digits) eqn:Hd.
  - rewrite (only_digits_head x d Hd).
    assert (E : skip_digits digits = "") by (apply skip_digits_only; exact Hd).
    rewrite E.
    pose proof (digits_small digits Hd Hlen) as Hb.
    replace (2 ^ 64 - 1 <? digits_value digits 0)%Z with false
      by (symmetry; apply Z.ltb_ge; lia).
    change (String.eqb "" "") with true. cbn [negb orb].
    rewrite to_uint_fits by lia.
    destruct (digits_value digits 0 <? 2 ^ 32)%Z eqn:Hfit; [| reflexivity].
    apply Z.ltb_lt in Hfit. unfold to_uint. apply Z.mod_small. lia.
  - destruct (bool_decide (is_Some (digit_of x))) eqn:Hx; [| reflexivity].
    destruct (skip_digits digits) as [|y rest] eqn:E.
    + apply skip_digits_only in E. congruence.
    + destruct (2 ^ 64 - 1 <? digits_value digits 0)%Z; reflexivity.
Qed.

Lemma valid_chars_head sg n c s :
  valid_chars sg (S n) (String c s) = true ->
  isspace c = false /\ (sg = false -> Ascii.eqb c "-" = false) /\ valid_chars sg n s = true.
Proof.
  cbn [valid_chars].
  destruct (bool_decide (is_Some (digit_of c))) eqn:Hd; cbn [orb].
  - intros H. apply bool_decide_eq_true_1 in Hd. split; [apply isspace_digit, Hd |].
    split; [| exact H]. intros _. destruct (Ascii.eqb_spec c "-") as [-> |]; [| reflexivity].
    destruct Hd as [? Hd]. discriminate Hd.
  - destruct (Ascii.eqb_spec c "-") as [-> | Hm]; cbn [andb orb].
    + destruct sg; cbn [orb]; [| discriminate]. intros H. split; [reflexivity |].
      split; [discriminate | exact H].
    + destruct (Ascii.eqb_spec c "+") as [-> | Hp]; [| discriminate].
      intros H. split; [reflexivity |]. split; [reflexivity | exact H].
Qed.

Lemma valid_chars_no_minus n s : valid_chars false n s = true -> find_char "-" s = None.
Proof.
  revert s. induction n as [|n IH]; intros s; [discriminate |].
  destruct s as [|c s]; [reflexivity |].
  intros H. apply valid_chars_head in H as (_ & Hm & H).
  cbn [find_char]. rewrite (Hm eq_refl), (IH s H). reflexivity.
Qed.

Lemma take_sign_length s negative digits :
  take_sign s = (negative, digits) -> (String.length digits <= String.length s)%nat.
Proof.
  destruct s as [|c s]; [intros [= <- <-]; reflexivity |].
  rewrite take_sign_cons.
  destruct (Ascii.eqb c "-"); [intros [= <- <-]; simpl; lia |].
  destruct (Ascii.eqb c "+"); intros [= <- <-]; simpl; lia.
Qed.

(** A signed decimal is made of characters that the check allows. *)
Lemma signed_decimal_valid sg n s v :
  signed_decimal s = Some v -> sg = true \/ find_char "-" s = None ->
  (String.length s < n)%nat -> valid_chars sg n s = true.
Proof.
  unfold signed_decimal. destruct s as [|c s]; [discriminate |].
  rewrite take_sign_cons. intros Hs Hsg Hlen.
  destruct n as [|n]; [lia |]. simpl in Hlen.
  destruct (Ascii.eqb_spec c "-") as [-> | Hm].
  - destruct (negb (String.eqb s "") && only_digits s) eqn:E; [| discriminate].
    apply andb_true_iff in E as [_ Hd].
    destruct Hsg as [-> | Hno]; [| discriminate Hno].
    cbn [valid_chars]. change (bool_decide (is_Some (digit_of "-"))) with false.
    cbn [Ascii.eqb Bool.eqb andb orb]. apply valid_chars_digits; [exact Hd | lia].
  - destruct (Ascii.eqb_spec c "+") as [-> | Hp].
    + destruct (negb (String.eqb s "") && only_digits s) eqn:E; [| discriminate].
      apply andb_true_iff in E as [_ Hd].
      cbn [valid_chars]. change (bool_decide (is_Some (digit_of "+"))) with false.
      change (Ascii.eqb "+" "-") with false. change (Ascii.eqb "+" "+") with true.
      cbn [andb orb]. apply valid_chars_digits; [exact Hd | lia].
    + destruct (negb (String.eqb (String c s) "") && only_digits (String c s)) eqn:E;
        [| discriminate].
      apply andb_true_iff in E as [_ Hd].
      apply valid_chars_digits; [exact Hd | simpl; lia].
Qed.

(** X19. [strtoi_checked] returns the number that the text denotes exactly when
    the text is an optional sign followed by one or more decimal digits and
    nothing else (no white space, no second sign, no fraction), is at most
    11 characters long, and the number fits a 32-bit [int]; in every other
    case, and for the null pointer, it returns the default value. *)
Theorem strtoi_checked_spec s default_value :
  strtoi_checked (Some s) default_value
  = match signed_decimal s with
    | Some v =>
        if (String.length s <=? 11)%nat && (- 2 ^ 31 <=? v)%Z && (v <? 2 ^ 31)%Z
        then v else default_value
    | None => default_value
    end
  /\ strtoi_checked None default_value = default_value.
Proof.
  split; [| reflexivity].
  unfold strtoi_checked, strtoX_checked_common.
  change (kMaxDigits + 2)%nat with 12%nat.
  destruct (valid_chars true 12 s) eqn:Hv; cbn [negb].
  - pose proof (valid_chars_length _ _ _ Hv) as Hlen.
    destruct s as [|c s]; [reflexivity |].
    apply valid_chars_head in Hv as (Hc & _ & _).
    destruct (take_sign (String c s)) as [negative digits] eqn:Hs.
    pose proof (take_sign_length _ _ _ Hs) as Hd.
    cbv zeta. rewrite (strtol_checked_digits c s negative digits default_value Hc Hs ltac:(lia)).
    unfold signed_decimal. rewrite Hs.
    replace (String.length (String c s) <=? 11)%nat with true
      by (symmetry; apply Nat.leb_le; lia).
    destruct (negb (String.eqb digits "") && only_digits digits); reflexivity.
  - destruct (signed_decimal s) as [v|] eqn:Hs; [| reflexivity].
    destruct (String.length s <=? 11)%nat eqn:Hlen; [| reflexivity].
    apply Nat.leb_le in Hlen.
    rewrite (signed_decimal_valid true 12 s v Hs (or_introl eq_refl) ltac:(lia)) in Hv.
    discriminate.
Qed.

(** X20. [strtoui_checked] returns the number that the text denotes
    for an optional plus sign followed by one or more decimal digits, at
    most 11 characters in all, with a value below 2^32; a text with a minus
    sign is never converted (although [strtoul] itself would accept it), and
    in every other case, and for the null pointer, the default value is
    returned. *)
Theorem strtoui_checked_spec s default_value :
  strtoui_checked (Some s) default_value
  = match signed_decimal s with
    | Some v =>
        if bool_decide (find_char "-" s = None)
           && (String.length s <=? 11)%nat && (v <? 2 ^ 32)%Z
        then v else default_value
    | None => default_value
    end
  /\ strtoui_checked None default_value = default_value.
Proof.
  split; [| reflexivity].
  unfold strtoui_checked, strtoX_checked_common.
  change (kMaxDigits + 2)%nat with 12%nat.
  destruct (valid_chars false 12 s) eqn:Hv; cbn [negb].
  - pose proof (valid_chars_length _ _ _ Hv) as Hlen.
    pose proof (valid_chars_no_minus _ _ Hv) as Hminus.
    destruct s as [|c s]; [reflexivity |].
    apply valid_chars_head in Hv as (Hc & Hm & _). specialize (Hm eq_refl).
    destruct (take_sign (String c s)) as [negative digits] eqn:Hs.
    pose proof (take_sign_length _ _ _ Hs) as Hd.
    assert (negative = false) as ->.
    { rewrite take_sign_cons, Hm in Hs. destruct (Ascii.eqb c "+"); congruence. }
    cbv zeta. rewrite (strtoul_checked_digits c s digits default_value Hc Hs ltac:(lia)).
    unfold signed_decimal. rewrite Hs.
    rewrite bool_decide_eq_true_2 by exact Hminus.
    replace (String.length (String c s) <=? 11)%nat with true
      by (symmetry; apply Nat.leb_le; lia).
    destruct (negb (String.eqb digits "") && only_digits digits); reflexivity.
  - destruct (signed_decimal s) as [v|] eqn:Hs; [| reflexivity].
    destruct (bool_decide (find_char "-" s = None)) eqn:Hminus; [| reflexivity].
    apply bool_decide_eq_true_1 in Hminus.
    destruct (String.length s <=? 11)%nat eqn:Hlen; [| reflexivity].
    apply Nat.leb_le in Hlen.
    rewrite (signed_decimal_valid false 12 s v Hs (or_intror Hminus) ltac:(lia)) in Hv.
    discriminate.
Qed.

(** ** [hexdump] *)

(** What the loop writes for one byte, before the separator. *)
Lemma hexdump_loop_cons literals b rest w :
  hexdump_loop literals (b :: rest) w
  = (if literals && is_literal b
     then String " " (String (ascii_of_byte b) "") else hex_byte b)
    +:+ (if (w =? 1)%nat then String endl (hexdump_loop literals rest 16)
         else String " " (hexdump_loop literals rest (w - 1))).
Proof. reflexivity. Qed.

Lemma hexdump_entry literals b :
  exists x y,
    (if literals && is_literal b
     then String " " (String (ascii_of_byte b) "") else hex_byte b)
    = String x (String y "")
    /\ Ascii.eqb x endl = false /\ Ascii.eqb y endl = false
    /\ (if Ascii.eqb x " " then byte_of_ascii y
        else default Byte.x00 (Byte.of_N (16 * hex_value x + hex_value y))) = b.
Proof.
  destruct literals, b;
    (eexists _, _; split; [vm_compute; reflexivity |]; vm_compute; auto).
Qed.

Lemma line_feeds_empty w :
  (1 <= w <= 16)%nat ->
  (if (w <? 16)%nat then 1 else 0)%nat = (if ((16 - w + 0) mod 16 =? 0)%nat then 0 else 1)%nat
  /\ (if (w <? 16)%nat then 1 else 0)%nat = ((16 - w + 0 + 15) / 16)%nat.
Proof.
  intros Hw.
  do 17 (destruct w as [|w]; [first [lia | split; reflexivity] |]). lia.
Qed.

Lemma line_feeds_step w n :
  (1 <= w <= 16)%nat ->
  let w' := if (w =? 1)%nat then 16%nat else (w - 1)%nat in
  (1 <= w' <= 16)%nat
  /\ ((16 - w + S n) mod 16 = (16 - w' + n) mod 16)%nat
  /\ ((16 - w + S n + 15) / 16
      = (if (w =? 1)%nat then 1 else 0) + (16 - w' + n + 15) / 16)%nat.
Proof.
  intros Hw. destruct (w =? 1)%nat eqn:E; cbv zeta.
  - apply Nat.eqb_eq in E. subst w. split; [lia |].
    replace (16 - 1 + S n)%nat with (n + 1 * 16)%nat by lia.
    replace (16 - 16 + n)%nat with n by lia.
    rewrite Nat.Div0.mod_add. split; [reflexivity |].
    replace (n + 1 * 16 + 15)%nat with (n + 15 + 1 * 16)%nat by lia.
    rewrite Nat.div_add by lia. lia.
  - apply Nat.eqb_neq in E. split; [lia |].
    replace (16 - (w - 1) + n)%nat with (16 - w + S n)%nat by lia.
    split; reflexivity.
Qed.

Lemma hexdump_loop_layout literals bytes w :
  (1 <= w <= 16)%nat ->
  String.length (hexdump_loop literals bytes w)
  = (3 * length bytes + (if ((16 - w + length bytes) mod 16 =? 0) then 0 else 1))%nat
  /\ count_char endl (hexdump_loop literals bytes w)
     = ((16 - w + length bytes + 15) / 16)%nat
  /\ unhexdump (hexdump_loop literals bytes w) = bytes.
Proof.
  revert w. induction bytes as [|b rest IH]; intros w Hw.
  - cbn [hexdump_loop length]. destruct (line_feeds_empty w Hw) as [H1 H2].
    rewrite <- H1, <- H2. destruct (w <? 16)%nat; repeat split; reflexivity.
  - rewrite hexdump_loop_cons.
    destruct (hexdump_entry literals b) as (x & y & -> & Hx & Hy & Hb).
    rewrite !append_cons. change ("" +:+ ?s) with s.
    destruct (line_feeds_step w (length rest) Hw) as (Hw' & Hmod & Hdiv).
    cbn [length]. rewrite Hmod, Hdiv. clear Hmod Hdiv.
    destruct (w =? 1)%nat; cbv zeta in Hw';
      destruct (IH _ Hw') as (Hlen & Hcount & Hback);
      cbn [String.length count_char unhexdump]; rewrite Hx, Hy, Hb, Hlen, Hcount, Hback.
    + rewrite Ascii.eqb_refl. repeat split; lia.
    + change (Ascii.eqb " " endl) with false. repeat split; lia.
Qed.

(** X21. A dump holds three characters for every byte and a line feed after
    every sixteenth byte and after the last one: its length is three times
    the count, plus one when the last line is not full, and the number of
    its lines is the count divided by sixteen, rounded up. *)
Theorem hexdump_layout buffer count start literals :
  (start + count <= length buffer)%nat ->
  String.length (hexdump buffer count start literals)
  = (3 * count + (if (count mod 16 =? 0) then 0 else 1))%nat
  /\ count_char endl (hexdump buffer count start literals) = ((count + 15) / 16)%nat.
Proof.
  intros Hlen. unfold hexdump.
  destruct (hexdump_loop_layout literals (firstn count (skipn start buffer)) 16 ltac:(lia))
    as (H1 & H2 & _).
  rewrite H1, H2. rewrite length_take, length_drop.
  replace (count `min` (length buffer - start))%nat with count by lia.
  split; reflexivity.
Qed.

(** X22. Nothing is lost in a dump, with or without literals: reading it back
    gives the bytes that were dumped. *)
Theorem hexdump_round_trip buffer count start literals :
  (start + count <= length buffer)%nat ->
  unhexdump (hexdump buffer count start literals) = firstn count (skipn start buffer)
  /\ length (unhexdump (hexdump buffer count start literals)) = count.
Proof.
  intros Hlen. unfold hexdump.
  destruct (hexdump_loop_layout literals (firstn count (skipn start buffer)) 16 ltac:(lia))
    as (_ & _ & H).
  rewrite H. split; [reflexivity |]. rewrite length_take, length_drop. lia.
Qed.

(** ** [check_user], [set_user] *)

Section SysUserProperties.

Context {OS : Type}.
Variable ops : SysUserOperationsBase OS.
Variable NDEBUG : bool.

Lemma check_if_root_calls os calls username :
  exists os' lookups outcome,
    check_if_root (recording ops) (os, calls) username
    = ((os', (calls ++ lookups)%list), outcome)
    /\ forallb is_lookup lookups = true.
Proof.
  unfold check_if_root. cbn [recording geteuid getpwnam]. unfold recorded.
  destruct (geteuid ops os) as [os1 user_id].
  destruct (negb (user_id =? 0)%Z).
  - destruct (getpwnam ops os1 username) as [os2 [info|]].
    + destruct (negb (user_id =? pw_uid info)%Z);
        (eexists _, _, _; split; [rewrite <- app_assoc; reflexivity | reflexivity]).
    + eexists _, _, _; split; [rewrite <- app_assoc; reflexivity | reflexivity].
  - eexists _, _, _; split; reflexivity.
Qed.

Lemma get_user_info_calls os calls username :
  exists os' lookups outcome,
    get_user_info (recording ops) (os, calls) username
    = ((os', (calls ++ lookups)%list), outcome)
    /\ forallb is_lookup lookups = true.
Proof.
  unfold get_user_info. cbn [recording getpwnam getpwuid]. unfold recorded.
  destruct (getpwnam ops os username) as [os1 [info|]].
  - eexists _, _, _. split; reflexivity.
  - destruct (negb (String.eqb (skip_digits username) "")).
    + eexists _, _, _. split; reflexivity.
    + destruct (getpwuid ops os1 (to_uint (atoi username))) as [os2 [info|]];
        (eexists _, _, _; split; [rewrite <- app_assoc; reflexivity | reflexivity]).
Qed.

(** The calls of the lookup phase only look things up. *)
Lemma check_user_calls os calls username must_be_root :
  exists os' lookups outcome,
    check_user (recording ops) NDEBUG (os, calls) username must_be_root
    = ((os', (calls ++ lookups)%list), outcome)
    /\ forallb is_lookup lookups = true.
Proof.
  unfold check_user.
  destruct (negb NDEBUG && String.eqb username "").
  { exists os, [], Aborts. rewrite app_nil_r. auto. }
  assert (Hlookup : forall os0 pre, forallb is_lookup pre = true ->
    exists os' lookups outcome,
      match get_user_info (recording ops) (os0, (calls ++ pre)%list) username with
      | (os1, Returns info) => (os1, Returns (Some info))
      | (os1, Throws e) => (os1, Throws e)
      | (os1, Aborts) => (os1, Aborts)
      end = ((os', (calls ++ lookups)%list), outcome)
      /\ forallb is_lookup lookups = true).
  { intros os0 pre Hpre.
    destruct (get_user_info_calls os0 (calls ++ pre)%list username)
      as (os1 & l & outcome & -> & Hl).
    rewrite <- app_assoc.
    destruct outcome; (eexists _, _, _; split; [reflexivity |]);
      rewrite forallb_app, Hpre, Hl; reflexivity. }
  destruct must_be_root.
  - destruct (check_if_root_calls os calls username) as (os1 & l & outcome & -> & Hl).
    destruct outcome as [[] | e |]; [| | eauto 10 ..].
    + destruct (String.eqb username "root"); [eauto 10 |]. apply Hlookup, Hl.
    + eauto 10.
  - specialize (Hlookup os [] eq_refl). rewrite app_nil_r in Hlookup. exact Hlookup.
Qed.

(** The calls that change the identity, from any state of the record. *)
Lemma set_user_priv_calls os calls username info permanently :
  exists os' ig g u outcome,
    set_user_priv (recording ops) (os, calls) username info permanently
    = ((os', (calls ++
              Initgroups username (pw_gid info) ig
              :: set_group permanently (pw_gid info) g
              :: (if (g =? -1)%Z then []
                  else [set_user_id permanently (pw_uid info) u]))%list), outcome)
    /\ (outcome = Returns tt <-> g <> (-1)%Z /\ u <> (-1)%Z)
    /\ (outcome = Returns tt \/ exists what, outcome = Throws (runtime_error what)).
Proof.
  unfold set_user_priv. cbn [recording initgroups setgid setuid setegid seteuid last_error].
  unfold recorded.
  destruct (initgroups ops os username (pw_gid info)) as [os1 ig].
  destruct permanently; cbn [set_group set_user_id].
  - destruct (setgid ops os1 (pw_gid info)) as [os2 g].
    destruct (g =? -1)%Z eqn:Eg.
    + apply Z.eqb_eq in Eg. eexists _, ig, g, 0%Z, _. rewrite Eg.
      split; [rewrite <- app_assoc; reflexivity |]. split; [| eauto].
      split; [discriminate | intros [H _]; congruence].
    + apply Z.eqb_neq in Eg. destruct (setuid ops os2 (pw_uid info)) as [os3 u].
      destruct (u =? -1)%Z eqn:Eu;
        (eexists _, ig, g, u, _; rewrite (proj2 (Z.eqb_neq g (-1)) Eg);
         split; [rewrite <- !app_assoc; reflexivity |]).
      * apply Z.eqb_eq in Eu. split; [| eauto].
        split; [discriminate | intros [_ H]; congruence].
      * apply Z.eqb_neq in Eu. split; [| auto]. split; auto.
  - destruct (setegid ops os1 (pw_gid info)) as [os2 g].
    destruct (g =? -1)%Z eqn:Eg.
    + apply Z.eqb_eq in Eg. eexists _, ig, g, 0%Z, _. rewrite Eg.
      split; [rewrite <- app_assoc; reflexivity |]. split; [| eauto].
      split; [discriminate | intros [H _]; congruence].
    + apply Z.eqb_neq in Eg. destruct (seteuid ops os2 (pw_uid info)) as [os3 u].
      destruct (u =? -1)%Z eqn:Eu;
        (eexists _, ig, g, u, _; rewrite (proj2 (Z.eqb_neq g (-1)) Eg);
         split; [rewrite <- !app_assoc; reflexivity |]).
      * apply Z.eqb_eq in Eu. split; [| eauto].
        split; [discriminate | intros [_ H]; congruence].
      * apply Z.eqb_neq in Eu. split; [| auto]. split; auto.
Qed.

(** X23. Whatever the system answers, [set_user] first only looks things up, and
    then either changes nothing or makes its changes in one order: the
    supplementary groups (whose result it ignores), the group id, and, only
    when setting the group id did not fail, the user id.  It returns
    normally after changes exactly when neither of the two calls failed, and
    throws a [runtime_error] otherwise. *)
Theorem set_user_sets_group_first os username permanently :
  exists lookups changes,
    (set_user (recording ops) NDEBUG (os, []) username permanently).1.2
    = (lookups ++ changes)%list
    /\ forallb is_lookup lookups = true
    /\ (changes = []
        \/ exists info ig g u,
             changes
             = Initgroups username (pw_gid info) ig
               :: set_group permanently (pw_gid info) g
               :: (if (g =? -1)%Z then [] else [set_user_id permanently (pw_uid info) u])
             /\ ((set_user (recording ops) NDEBUG (os, []) username permanently).2
                 = Returns tt <-> g <> (-1)%Z /\ u <> (-1)%Z)
             /\ ((set_user (recording ops) NDEBUG (os, []) username permanently).2
                 = Returns tt
                 \/ exists what,
                      (set_user (recording ops) NDEBUG (os, []) username permanently).2
                      = Throws (runtime_error what))).
Proof.
  unfold set_user.
  destruct (check_user_calls os (@nil syscall) username permanently) as (os1 & lookups & outcome & -> & Hl).
  cbn [app] in *.
  destruct outcome as [[info|] | e |];
    try solve [exists lookups, []; rewrite app_nil_r; cbn [fst snd]; auto].
  destruct (set_user_priv_calls os1 lookups username info permanently)
    as (os2 & ig & g & u & outcome & -> & H1 & H2).
  cbn [fst snd]. eexists lookups, _. split; [reflexivity |]. split; [exact Hl |].
  right. exists info, ig, g, u. auto.
Qed.

(** X24. A process that does not run as root cannot switch for good: whatever
    the name, [set_user] makes no call other than the two lookups.  It
    returns without having changed anything when the name is that of the
    user the process runs as, and throws otherwise, also for a name that is
    not known. *)
Theorem set_user_needs_root os username os1 uid os2 entry :
  username <> "" \/ NDEBUG = true ->
  geteuid ops os = (os1, uid) ->
  uid <> 0%Z ->
  getpwnam ops os1 username = (os2, entry) ->
  set_user (recording ops) NDEBUG (os, []) username true
  = ((os2, [Geteuid uid; Getpwnam username entry]),
     match entry with
     | Some info =>
         if (uid =? pw_uid info)%Z then Returns tt
         else Throws (runtime_error
                        "One can only use the -u/--user switch if running as root")
     | None =>
         Throws (runtime_error "One can only use the -u/--user switch if running as root")
     end).
Proof.
  intros Hname Heuid Huid Hpw.
  unfold set_user, check_user, check_if_root. cbn [recording geteuid getpwnam].
  unfold recorded.
  replace (negb NDEBUG && String.eqb username "") with false.
  2:{ destruct Hname as [Hn | ->]; [| reflexivity].
      apply String.eqb_neq in Hn. rewrite Hn. symmetry. apply andb_false_r. }
  rewrite Heuid. apply Z.eqb_neq in Huid. rewrite Huid. cbn [negb app].
  rewrite Hpw. destruct entry as [info|]; [| reflexivity].
  destruct (uid =? pw_uid info)%Z; reflexivity.
Qed.

(** X25. A name that the system does not know is tried as a numeric user id when
    it is made of decimal digits only, and then the entry of that id
    decides; any other unknown name is refused without a second lookup.
    (With assertions compiled out the empty name counts as numeric, and is
    looked up as the id 0.) *)
Theorem check_user_numeric_id os username os1 :
  username <> "" \/ NDEBUG = true ->
  getpwnam ops os username = (os1, None) ->
  check_user ops NDEBUG os username false
  = if only_digits username then
      ((getpwuid ops os1 (to_uint (atoi username))).1,
       match (getpwuid ops os1 (to_uint (atoi username))).2 with
       | Some info => Returns (Some info)
       | None =>
           Throws (runtime_error ("Can't use user '" +:+ username
                                  +:+ "'. Please check that the user exists!"))
       end)
    else
      (os1, Throws (runtime_error ("Can't use user '" +:+ username
                                   +:+ "'. Please check that the user exists!"))).
Proof.
  intros Hname Hpw. unfold check_user, get_user_info.
  replace (negb NDEBUG && String.eqb username "") with false.
  2:{ destruct Hname as [Hn | ->]; [| reflexivity].
      apply String.eqb_neq in Hn. rewrite Hn. symmetry. apply andb_false_r. }
  rewrite Hpw.
  destruct (only_digits username) eqn:Hd.
  - apply skip_digits_only in Hd. rewrite Hd. cbn [String.eqb negb].
    destruct (getpwuid ops os1 (to_uint (atoi username))) as [os2 [info|]]; reflexivity.
  - destruct (String.eqb_spec (skip_digits username) "") as [E | _]; [| reflexivity].
    apply skip_digits_only in E. congruence.
Qed.

End SysUserProperties.

(** ** Witnesses *)

Lemma split_addr_port_ignores_space_witness :
  split_addr_port ("  " +:+ "localhost:3306" +:+ " ") = split_addr_port "localhost:3306".
Proof.
  apply (split_addr_port_ignores_space "  " "localhost:3306" " "); reflexivity.
Defined.

Lemma split_addr_port_host_witness :
  split_addr_port (String "l" "ocalhost" +:+ ":" +:+ "3306")
  = Returns (String "l" "ocalhost", 3306%Z)
  /\ (trim (String "l" "ocalhost") = String "l" "ocalhost" ->
      split_addr_port (String "l" "ocalhost") = Returns (String "l" "ocalhost", 0%Z)).
Proof.
  apply (split_addr_port_host "l" "ocalhost" "3306" 3306%Z).
  - reflexivity.
  - discriminate.
  - reflexivity.
  - vm_compute; reflexivity.
Defined.

Lemma split_addr_port_brackets_witness :
  split_addr_port ("[" +:+ "fe80::1" +:+ "]" +:+ "" +:+ ":" +:+ "3306")
  = Returns ("fe80::1", 3306%Z)
  /\ (trim "" = "" \/ blank "" = true ->
      split_addr_port ("[" +:+ "fe80::1" +:+ "]" +:+ "") = Returns ("fe80::1", 0%Z)).
Proof.
  apply (split_addr_port_brackets "fe80::1" "" "3306" 3306%Z).
  - vm_compute; reflexivity.
  - reflexivity.
  - vm_compute; reflexivity.
Defined.

Lemma hexdump_layout_witness :
  String.length (hexdump [Byte.x00; Byte.x41; Byte.xff] 2 1 true)
  = (3 * 2 + (if (2 mod 16 =? 0) then 0 else 1))%nat
  /\ count_char endl (hexdump [Byte.x00; Byte.x41; Byte.xff] 2 1 true) = ((2 + 15) / 16)%nat.
Proof.
  apply (hexdump_layout [Byte.x00; Byte.x41; Byte.xff] 2 1 true). simpl; lia.
Defined.

Lemma hexdump_round_trip_witness :
  unhexdump (hexdump [Byte.x00; Byte.x41; Byte.xff] 2 1 true)
  = firstn 2 (skipn 1 [Byte.x00; Byte.x41; Byte.xff])
  /\ length (unhexdump (hexdump [Byte.x00; Byte.x41; Byte.xff] 2 1 true)) = 2%nat.
Proof.
  apply (hexdump_round_trip [Byte.x00; Byte.x41; Byte.xff] 2 1 true). simpl; lia.
Defined.

Lemma set_user_needs_root_witness :
  set_user (recording (sample_operations 1000)) true (tt, []) "mysqlrouter" true
  = ((tt, [Geteuid 1000; Getpwnam "mysqlrouter" (Some sample_account)]),
     match Some sample_account with
     | Some info =>
         if (1000 =? pw_uid info)%Z then Returns tt
         else Throws (runtime_error
                        "One can only use the -u/--user switch if running as root")
     | None =>
         Throws (runtime_error "One can only use the -u/--user switch if running as root")
     end).
Proof.
  apply (set_user_needs_root (sample_operations 1000) true tt "mysqlrouter" tt 1000%Z tt
           (Some sample_account)).
  - right; reflexivity.
  - reflexivity.
  - lia.
  - reflexivity.
Defined.

Lemma check_user_numeric_id_witness :
  check_user (sample_operations 0) true tt "1001" false
  = if only_digits "1001" then
      ((getpwuid (sample_operations 0) tt (to_uint (atoi "1001"))).1,
       match (getpwuid (sample_operations 0) tt (to_uint (atoi "1001"))).2 with
       | Some info => Returns (Some info)
       | None =>
           Throws (runtime_error ("Can't use user '" +:+ "1001"
                                  +:+ "'. Please check that the user exists!"))
       end)
    else
      (tt, Throws (runtime_error ("Can't use user '" +:+ "1001"
                                  +:+ "'. Please check that the user exists!"))).
Proof.
  apply (check_user_numeric_id (sample_operations 0) true tt "1001" tt).
  - right; reflexivity.
  - reflexivity.
Defined.

(** ** [substitute_envvar] *)

Lemma string_drop_add a n s :
  string_drop (String.length a + n) (a +:+ s) = string_drop n s.
Proof. induction a as [|x a IH]; [reflexivity |]. rewrite append_cons. exact IH. Qed.

Lemma find_string_unfold pattern s :
  find_string pattern s
  = if String.prefix pattern s then Some 0%nat
    else match s with
         | String _ s' => S <$> find_string pattern s'
         | EmptyString => None
         end.
Proof. destruct s; reflexivity. Qed.

Lemma find_string_first pattern pre rest :
  (forall i, (i < String.length pre)%nat ->
     String.prefix pattern (string_drop i (pre +:+ pattern +:+ rest)) = false) ->
  find_string pattern (pre +:+ pattern +:+ rest) = Some (String.length pre).
Proof.
  induction pre as [|x pre IH]; intros Hfirst.
  - change ("" +:+ ?s) with s. rewrite find_string_unfold, prefix_append. reflexivity.
  - rewrite find_string_unfold.
    pose proof (Hfirst 0%nat ltac:(simpl; lia)) as H0.
    rewrite append_cons in H0 |- *. cbn [string_drop] in H0. rewrite H0.
    rewrite IH; [reflexivity |].
    intros i Hi. apply (Hfirst (S i)). simpl. lia.
Qed.

(** X26. When the first placeholder of the line names a variable of the
    environment, the function returns [true] and the line with the value in
    place of that placeholder; the rest of the line, later placeholders
    included, is left as it is, and the value is not expanded again. *)
Theorem substitute_envvar_first_placeholder getenv pre name value post :
  (forall i, (i < String.length pre)%nat ->
     String.prefix "ENV{" (string_drop i (pre +:+ "ENV{" +:+ name +:+ "}" +:+ post)) = false) ->
  name <> "" ->
  find_char "}" name = None ->
  getenv name = Some value ->
  substitute_envvar getenv (pre +:+ "ENV{" +:+ name +:+ "}" +:+ post)
  = (true, pre +:+ value +:+ post).
Proof.
  intros Hfirst Hname Hclose Henv. unfold substitute_envvar.
  rewrite (find_string_first "ENV{" pre (name +:+ "}" +:+ post) Hfirst).
  change (pre +:+ "ENV{" +:+ name +:+ "}" +:+ post)
    with (pre +:+ "ENV{" +:+ name +:+ String "}" post).
  assert (Hdrop : string_drop (String.length pre + 4)
                    (pre +:+ "ENV{" +:+ name +:+ String "}" post)
                  = name +:+ String "}" post).
  { rewrite string_drop_add. reflexivity. }
  cbv beta iota. unfold find_char_from. rewrite Hdrop.
  rewrite (find_char_append "}" name post Hclose). cbn [fmap option_fmap option_map].
  unfold substr. rewrite Hdrop.
  replace (String.length pre + 4 + String.length name - String.length pre - 4)%nat
    with (String.length name) by lia.
  rewrite string_take_append.
  apply String.eqb_neq in Hname. rewrite Hname, Henv.
  unfold replace. rewrite string_take_append.
  replace (String.length pre + (String.length name + 5))%nat
    with (String.length pre + (4 + (String.length name + 1)))%nat by lia.
  rewrite string_drop_add.
  change (string_drop (4 + (String.length name + 1)) ("ENV{" +:+ name +:+ String "}" post))
    with (string_drop (String.length name + 1) (name +:+ String "}" post)).
  rewrite string_drop_add. reflexivity.
Qed.

(** ** [wrap_string] *)

Lemma word_no c s :
  word s = true ->
  (Ascii.eqb c " " || Ascii.eqb c "010" || Ascii.eqb c "009" || Ascii.eqb c "013") = true ->
  find_char c s = None.
Proof.
  intros Hw Hc. induction s as [|a s IH]; [reflexivity |].
  cbn [word] in Hw. apply andb_true_iff in Hw as [Ha Hs].
  cbn [find_char]. destruct (Ascii.eqb_spec a c) as [-> | _].
  - rewrite Hc in Ha. discriminate.
  - rewrite (IH Hs). reflexivity.
Qed.

Lemma word_unchanged s : word s = true -> replace_tab (remove_cr s) = s.
Proof.
  induction s as [|a s IH]; [reflexivity |].
  cbn [word]. intros Hw. apply andb_true_iff in Hw as [Ha Hs].
  apply negb_true_iff in Ha. apply orb_false_iff in Ha as [Ha Hcr].
  apply orb_false_iff in Ha as [_ Htab].
  cbn [remove_cr]. rewrite Hcr. cbn [replace_tab]. rewrite Htab, (IH Hs). reflexivity.
Qed.

Lemma remove_cr_append a b : remove_cr (a +:+ b) = remove_cr a +:+ remove_cr b.
Proof.
  induction a as [|x a IH]; [reflexivity |].
  rewrite append_cons. cbn [remove_cr]. destruct (Ascii.eqb x "013"); [exact IH |].
  rewrite append_cons, IH. reflexivity.
Qed.

Lemma replace_tab_append a b : replace_tab (a +:+ b) = replace_tab a +:+ replace_tab b.
Proof.
  induction a as [|x a IH]; [reflexivity |].
  rewrite !append_cons. cbn [replace_tab]. rewrite append_cons, IH. reflexivity.
Qed.

Lemma find_char_drop c s pos : find_char c s = None -> find_char c (string_drop pos s) = None.
Proof.
  revert s. induction pos as [|pos IH]; intros s H; [destruct s; exact H |].
  destruct s as [|a s]; [exact H |]. cbn [string_drop]. apply IH.
  cbn [find_char] in H. destruct (Ascii.eqb a c); [discriminate |].
  destruct (find_char c s); [discriminate | reflexivity].
Qed.

Lemma find_last_of_None c s pos : find_char c s = None -> find_last_of c s pos = None.
Proof.
  revert pos. induction s as [|a s IH]; intros pos H; [reflexivity |].
  cbn [find_char] in H. destruct (Ascii.eqb a c) eqn:E; [discriminate |].
  assert (Hs : find_char c s = None) by (destruct (find_char c s); [discriminate | reflexivity]).
  cbn [find_last_of]. rewrite E. destruct pos as [|pos]; [reflexivity |].
  rewrite (IH pos Hs). reflexivity.
Qed.

(** The search from the right finds the blank before the last word, however
    far to the left of the starting point it stands. *)
Lemma find_last_of_blank a b pos :
  find_char " " b = None -> (String.length a <= pos)%nat ->
  find_last_of " " (a +:+ String " " b) pos = Some (String.length a).
Proof.
  intros Hb. revert pos. induction a as [|x a IH]; intros pos Hpos.
  - change ("" +:+ ?s) with s. cbn [find_last_of]. rewrite Ascii.eqb_refl.
    destruct pos as [|pos]; [reflexivity |].
    rewrite (find_last_of_None " " b pos Hb). reflexivity.
  - rewrite append_cons. destruct pos as [|pos]; [simpl in Hpos; lia |].
    cbn [find_last_of]. rewrite (IH pos ltac:(simpl in Hpos; lia)). reflexivity.
Qed.

(** Once the loop stands behind the blank, a round leaves it there. *)
Lemma wrap_loop_stuck fuel a b indent real_width res :
  word a = true -> word b = true ->
  (real_width < String.length b)%nat ->
  wrap_loop fuel (a +:+ String " " b) indent real_width (String.length a + 1) res = None.
Proof.
  intros Ha Hb Hlong. revert res. induction fuel as [|fuel IH]; intros res; [reflexivity |].
  assert (Hnl : find_char "010" (a +:+ String " " b) = None).
  { apply find_char_append_None; [apply word_no; [exact Ha | reflexivity] |].
    cbn [find_char]. change (Ascii.eqb " " "010") with false. cbv iota.
    rewrite (word_no "010" b Hb eq_refl). reflexivity. }
  cbn [wrap_loop]. unfold find_char_from at 1.
  rewrite (find_char_drop _ _ (String.length a + 1) Hnl). cbn [fmap option_fmap option_map].
  rewrite (find_last_of_blank a b (String.length a + 1 + real_width)
             (word_no " " b Hb eq_refl) ltac:(lia)).
  replace (real_width <? String.length (a +:+ String " " b) - (String.length a + 1))%nat
    with true.
  2:{ symmetry. apply Nat.ltb_lt. rewrite length_append. simpl. lia. }
  cbn [orb]. apply IH.
Qed.

(** X27. A word that is longer than the room on a line and follows a blank is
    never wrapped: when the text is a first word that fits, a blank, and a
    second word that does not fit, the loop of [wrap_string] goes round for
    ever (appending the second word to the result in every round), so the
    function does not return, whatever the number of rounds allowed. *)
Theorem wrap_string_long_word_never_returns a b width indent_size fuel :
  word a = true -> word b = true ->
  (indent_size <= width)%nat -> (Z.of_nat width < 2 ^ 64)%Z ->
  (String.length a <= width - indent_size)%nat ->
  (width - indent_size < String.length b)%nat ->
  wrap_string fuel (a +:+ " " +:+ b) width indent_size = None.
Proof.
  intros Ha Hb Hindent Hwidth Hfits Hlong. unfold wrap_string.
  replace (Z.to_nat ((Z.of_nat width - Z.of_nat indent_size) mod 2 ^ 64))
    with (width - indent_size)%nat
    by (rewrite Z.mod_small by lia; lia).
  set (real_width := (width - indent_size)%nat) in *.
  change (a +:+ " " +:+ b) with (a +:+ String " " b).
  replace (String.length (a +:+ String " " b) <? real_width)%nat with false
    by (symmetry; apply Nat.ltb_ge; rewrite length_append; simpl; lia).
  assert (Hwork : replace_tab (remove_cr (a +:+ String " " b)) = a +:+ String " " b).
  { rewrite remove_cr_append, replace_tab_append.
    change (remove_cr (String " " b)) with (String " " (remove_cr b)).
    change (replace_tab (String " " (remove_cr b))) with (String " " (replace_tab (remove_cr b))).
    rewrite (word_unchanged a Ha), (word_unchanged b Hb). reflexivity. }
  cbv zeta. rewrite Hwork.
  destruct fuel as [|fuel]; [reflexivity |].
  assert (Hnl : find_char "010" (a +:+ String " " b) = None).
  { apply find_char_append_None; [apply word_no; [exact Ha | reflexivity] |].
    cbn [find_char]. change (Ascii.eqb " " "010") with false. cbv iota.
    rewrite (word_no "010" b Hb eq_refl). reflexivity. }
  cbn [wrap_loop]. unfold find_char_from at 1. cbn [string_drop].
  replace (string_drop 0 (a +:+ String " " b)) with (a +:+ String " " b)
    by (destruct (a +:+ String " " b); reflexivity).
  rewrite Hnl. cbn [fmap option_fmap option_map].
  rewrite (find_last_of_blank a b (0 + real_width) (word_no " " b Hb eq_refl) ltac:(lia)).
  replace (real_width <? String.length (a +:+ String " " b) - (String.length a + 1))%nat
    with true.
  2:{ symmetry. apply Nat.ltb_lt. rewrite length_append. simpl. lia. }
  cbn [orb]. apply wrap_loop_stuck; assumption.
Qed.

Lemma substitute_envvar_first_placeholder_witness :
  substitute_envvar (fun name => if String.eqb name "HOME" then Some "/root" else None)
    ("dir=" +:+ "ENV{" +:+ "HOME" +:+ "}" +:+ "/ENV{HOME}")
  = (true, "dir=" +:+ "/root" +:+ "/ENV{HOME}").
Proof.
  apply (substitute_envvar_first_placeholder
           (fun name => if String.eqb name "HOME" then Some "/root" else None)
           "dir=" "HOME" "/root" "/ENV{HOME}").
  - intros i Hi. do 4 (destruct i as [|i]; [reflexivity |]). simpl in Hi. lia.
  - discriminate.
  - reflexivity.
  - reflexivity.
Defined.

Lemma wrap_string_long_word_never_returns_witness :
  wrap_string 1000 ("aaa" +:+ " " +:+ "bbbbbbbbbbbbbbbbbbbb") 10 0 = None.
Proof.
  apply (wrap_string_long_word_never_returns "aaa" "bbbbbbbbbbbbbbbbbbbb" 10 0 1000).
  - reflexivity.
  - reflexivity.
  - lia.
  - lia.
  - simpl; lia.
  - simpl; lia.
Defined.

Lemma string_drop_length n s : String.length (string_drop n s) = (String.length s - n)%nat.
Proof.
  revert s. induction n as [|n IH]; intros s; [destruct s; simpl; lia |].
  destruct s as [|a s]; [reflexivity |]. cbn [string_drop String.length]. rewrite IH. lia.
Qed.

Lemma string_take_length n s : (String.length (string_take n s) <= n)%nat.
Proof.
  revert s. induction n as [|n IH]; intros s; [destruct s; simpl; lia |].
  destruct s as [|a s]; [simpl; lia |]. cbn [string_take String.length].
  specialize (IH s). lia.
Qed.

Lemma string_drop_0 s : string_drop 0 s = s.
Proof. destruct s; reflexivity. Qed.

Lemma string_drop_drop i k s : string_drop k (string_drop i s) = string_drop (i + k) s.
Proof.
  revert s. induction i as [|i IH]; intros s; [rewrite string_drop_0; reflexivity |].
  destruct s as [|a s]; [destruct k; reflexivity |]. cbn [string_drop Nat.add]. apply IH.
Qed.

Lemma string_drop_S n s c rest :
  string_drop n s = String c rest -> string_drop (S n) s = rest.
Proof.
  intros H. replace (S n) with (n + 1)%nat by lia.
  rewrite <- string_drop_drop, H. apply string_drop_0.
Qed.

(** Where [find_char] finds the character. *)
Lemma find_char_Some c s k :
  find_char c s = Some k -> exists rest, string_drop k s = String c rest.
Proof.
  revert k. induction s as [|a s IH]; intros k; [discriminate |].
  cbn [find_char]. destruct (Ascii.eqb_spec a c) as [-> | _].
  - intros [= <-]. eauto.
  - destruct (find_char c s) as [j|]; [| discriminate].
    intros [= <-]. destruct (IH j eq_refl) as [rest E]. exists rest. exact E.
Qed.

Lemma string_drop_take k n s c rest :
  string_drop k (string_take n s) = String c rest ->
  (k < n)%nat /\ exists rest', string_drop k s = String c rest'.
Proof.
  revert n s. induction k as [|k IH]; intros n s.
  - rewrite string_drop_0. destruct n as [|n]; [destruct s; discriminate |].
    destruct s as [|a s]; [discriminate |]. cbn [string_take].
    intros [= -> _]. split; [lia |]. exists s. reflexivity.
  - destruct n as [|n]; [destruct s; discriminate |].
    destruct s as [|a s]; [discriminate |]. cbn [string_take string_drop].
    intros H. destruct (IH n s H) as [Hk E]. split; [lia | exact E].
Qed.

(** What [find_last_of] finds, and that it overlooks nothing. *)
Lemma find_last_of_Some c s pos wp :
  find_last_of c s pos = Some wp ->
  (wp <= pos)%nat /\ exists rest, string_drop wp s = String c rest.
Proof.
  revert pos wp. induction s as [|a s IH]; intros pos wp; [discriminate |].
  cbn [find_last_of]. destruct pos as [|pos].
  - destruct (Ascii.eqb_spec a c) as [-> | _]; [| discriminate].
    intros [= <-]. split; [lia | eauto].
  - destruct (find_last_of c s pos) as [i|] eqn:E.
    + intros [= <-]. destruct (IH pos i E) as [Hi [rest Hr]].
      split; [lia |]. exists rest. exact Hr.
    + destruct (Ascii.eqb_spec a c) as [-> | _]; [| discriminate].
      intros [= <-]. split; [lia | eauto].
Qed.

Lemma find_last_of_ge c s pos j rest :
  string_drop j s = String c rest -> (j <= pos)%nat ->
  exists wp, find_last_of c s pos = Some wp /\ (j <= wp)%nat.
Proof.
  revert pos j. induction s as [|a s IH]; intros pos j Hj Hle.
  { destruct j; discriminate. }
  cbn [find_last_of]. destruct j as [|j].
  - rewrite string_drop_0 in Hj. injection Hj as -> _. rewrite Ascii.eqb_refl.
    destruct pos as [|pos]; [exists 0%nat; split; [reflexivity | lia] |].
    destruct (find_last_of c s pos) as [i|]; eexists; (split; [reflexivity | lia]).
  - cbn [string_drop] in Hj. destruct pos as [|pos]; [lia |].
    destruct (IH pos j Hj ltac:(lia)) as (wp & -> & Hwp).
    exists (S wp). split; [reflexivity | lia].
Qed.

Lemma string_drop_split prev wp s c rest :
  (prev <= wp)%nat -> string_drop wp s = String c rest ->
  string_drop prev s = string_take (wp - prev) (string_drop prev s) +:+ String c rest.
Proof.
  intros Hle Hwp.
  replace wp with (prev + (wp - prev))%nat in Hwp by lia.
  rewrite <- string_drop_drop in Hwp. revert Hwp.
  generalize (wp - prev)%nat as n. generalize (string_drop prev s) as u. clear.
  intros u n. revert u. induction n as [|n IH]; intros u H.
  - rewrite string_drop_0 in H. subst u. reflexivity.
  - destruct u as [|a u]; [discriminate |]. cbn [string_drop] in H.
    cbn [string_take]. rewrite append_cons, <- (IH u H). reflexivity.
Qed.

Lemma join_snoc_split d res a b :
  join d (res ++ [a +:+ String d b])%list = join d ((res ++ [a]) ++ [b])%list.
Proof.
  induction res as [|x res IH].
  - reflexivity.
  - cbn [app]. rewrite !join_cons by (destruct res; discriminate). rewrite IH. reflexivity.
Qed.

Lemma remove_cr_none s : find_char "013" s = None -> remove_cr s = s.
Proof.
  induction s as [|a s IH]; [reflexivity |]. cbn [find_char remove_cr].
  destruct (Ascii.eqb a "013"); [discriminate |].
  destruct (find_char "013" s); [discriminate |]. intros _. rewrite IH by reflexivity.
  reflexivity.
Qed.

Lemma replace_tab_none s : find_char "009" s = None -> replace_tab s = s.
Proof.
  induction s as [|a s IH]; [reflexivity |]. cbn [find_char replace_tab].
  destruct (Ascii.eqb a "009"); [discriminate |].
  destruct (find_char "009" s); [discriminate |]. intros _. rewrite IH by reflexivity.
  reflexivity.
Qed.

Section Wrapping.

Variable work indent : string.
Variable real_width : nat.

Hypothesis no_line_feed : find_char "010" work = None.

(** Every run of [real_width + 1] characters holds a blank: no word is
    longer than the room on a line. *)
Hypothesis words_fit :
  forall i, (i + real_width < String.length work)%nat ->
    find_char " " (string_take (S real_width) (string_drop i work)) <> None.

Lemma window_has_blank prev :
  (prev + real_width < String.length work)%nat ->
  exists wp rest,
    find_last_of " " work (prev + real_width) = Some wp
    /\ (prev <= wp <= prev + real_width)%nat
    /\ string_drop wp work = String " " rest.
Proof.
  intros Hin. pose proof (words_fit prev Hin) as Hw.
  destruct (find_char " " (string_take (S real_width) (string_drop prev work)))
    as [k|] eqn:E; [clear Hw | congruence].
  destruct (find_char_Some _ _ _ E) as [r1 H1].
  destruct (string_drop_take _ _ _ _ _ H1) as [Hk [r2 H2]].
  rewrite string_drop_drop in H2.
  destruct (find_last_of_ge " " work (prev + real_width) (prev + k) r2 H2 ltac:(lia))
    as (wp & Hwp & Hge).
  destruct (find_last_of_Some _ _ _ _ Hwp) as [Hle [rest Hrest]].
  exists wp, rest. split; [exact Hwp |]. split; [lia | exact Hrest].
Qed.

Lemma wrap_loop_returns fuel prev res :
  (String.length work - prev < fuel)%nat ->
  (prev <= String.length work)%nat ->
  prev = 0%nat \/ (real_width < String.length work - prev)%nat ->
  (real_width <= String.length work)%nat ->
  join " " (res ++ [string_drop prev work])%list = work ->
  Forall (fun line => (String.length line <= real_width)%nat) res ->
  exists lines,
    wrap_loop fuel work indent real_width prev (map (String.append indent) res)
    = Some (map (String.append indent) lines)
    /\ join " " lines = work
    /\ Forall (fun line => (String.length line <= real_width)%nat) lines.
Proof.
  revert prev res. induction fuel as [|fuel IH]; intros prev res Hfuel Hprev Hguard Hsize Hjoin Hres;
    [lia |].
  cbn [wrap_loop]. unfold find_char_from at 1.
  rewrite (find_char_drop _ _ prev no_line_feed). cbn [fmap option_fmap option_map].
  assert (Hcase :
    (exists wp rest,
       find_last_of " " work (prev + real_width) = Some wp
       /\ (prev <= wp <= prev + real_width)%nat
       /\ string_drop wp work = String " " rest)
    \/ (find_last_of " " work (prev + real_width) = None /\ prev = 0%nat
        /\ String.length work = real_width)).
  { destruct Hguard as [-> | Hguard]; [| left; apply window_has_blank; lia].
    destruct (find_last_of " " work (0 + real_width)) as [wp|] eqn:E.
    - left. destruct (find_last_of_Some _ _ _ _ E) as [Hle [rest Hrest]].
      exists wp, rest. split; [reflexivity |]. split; [lia | exact Hrest].
    - right. split; [reflexivity |]. split; [reflexivity |].
      destruct (decide (String.length work = real_width)) as [|Hne]; [assumption |].
      exfalso. destruct (window_has_blank 0 ltac:(lia)) as (wp & rest & Hwp & _).
      congruence. }
  destruct Hcase as [(wp & rest & -> & Hwp & Hrest) | (-> & -> & Hlen)].
  - replace (wp <? prev)%nat with false by (symmetry; apply Nat.ltb_ge; lia).
    unfold substr.
    set (line := string_take (wp - prev) (string_drop prev work)).
    assert (Hline : (String.length line <= real_width)%nat).
    { pose proof (string_take_length (wp - prev) (string_drop prev work)). unfold line. lia. }
    assert (Hnext : string_drop (wp + 1) work = rest).
    { replace (wp + 1)%nat with (S wp) by lia. exact (string_drop_S _ _ _ _ Hrest). }
    assert (Hwplen : (wp < String.length work)%nat).
    { apply (f_equal String.length) in Hrest. rewrite string_drop_length in Hrest.
      simpl in Hrest. lia. }
    assert (Hjoin' : join " " ((res ++ [line]) ++ [string_drop (wp + 1) work])%list = work).
    { rewrite <- join_snoc_split, Hnext. unfold line.
      rewrite <- (string_drop_split prev wp work " " rest ltac:(lia) Hrest). exact Hjoin. }
    assert (Hres' : Forall (fun l => (String.length l <= real_width)%nat) (res ++ [line])%list).
    { apply Forall_app. split; [exact Hres |]. repeat constructor. exact Hline. }
    replace (map (String.append indent) res ++ [indent +:+ line])%list
      with (map (String.append indent) (res ++ [line])%list)
      by (rewrite map_app; reflexivity).
    unfold find_char_from. rewrite (find_char_drop _ _ (wp + 1) no_line_feed).
    cbn [fmap option_fmap option_map].
    rewrite bool_decide_eq_false_2 by (intros H; apply H; reflexivity).
    rewrite orb_false_r.
    destruct (real_width <? String.length work - (wp + 1))%nat eqn:Hmore.
    + apply Nat.ltb_lt in Hmore.
      apply (IH (wp + 1)%nat (res ++ [line])%list); try assumption; lia.
    + apply Nat.ltb_ge in Hmore.
      exists ((res ++ [line]) ++ [string_drop (wp + 1) work])%list.
      split; [rewrite (map_app _ (res ++ [line])%list); reflexivity |].
      split; [exact Hjoin' |].
      apply Forall_app. split; [exact Hres' |]. repeat constructor.
      rewrite string_drop_length. exact Hmore.
  - unfold substr. exists (res ++ [string_drop 0 work])%list.
    split; [rewrite map_app; reflexivity |]. split; [exact Hjoin |].
    apply Forall_app. split; [exact Hres |]. repeat constructor.
    rewrite string_drop_0. lia.
Qed.

End Wrapping.

(** X28. A text without line feeds, tabs and carriage returns in which every run
    of [width - indent_size + 1] characters holds a blank (no word is longer
    than the room on a line) is wrapped: the function returns, every line is
    the indentation followed by at most [width - indent_size] characters,
    and the lines without their indentation, joined by single blanks, are
    the text: wrapping drops one blank at every break and nothing else. *)
Theorem wrap_string_wraps to_wrap width indent_size fuel :
  find_char "010" to_wrap = None ->
  find_char "013" to_wrap = None ->
  find_char "009" to_wrap = None ->
  (indent_size <= width)%nat -> (Z.of_nat width < 2 ^ 64)%Z ->
  (forall i, (i + (width - indent_size) < String.length to_wrap)%nat ->
     find_char " " (string_take (S (width - indent_size)) (string_drop i to_wrap)) <> None) ->
  (String.length to_wrap < fuel)%nat ->
  exists lines,
    wrap_string fuel to_wrap width indent_size
    = Some (map (String.append (spaces indent_size)) lines)
    /\ join " " lines = to_wrap
    /\ Forall (fun line => (String.length line <= width - indent_size)%nat) lines.
Proof.
  intros Hlf Hcr Htab Hindent Hwidth Hfit Hfuel. unfold wrap_string.
  replace (Z.to_nat ((Z.of_nat width - Z.of_nat indent_size) mod 2 ^ 64))
    with (width - indent_size)%nat
    by (rewrite Z.mod_small by lia; lia).
  cbv zeta. rewrite (remove_cr_none _ Hcr), (replace_tab_none _ Htab).
  destruct (String.length to_wrap <? width - indent_size)%nat eqn:Hshort.
  - apply Nat.ltb_lt in Hshort. exists [to_wrap].
    split; [reflexivity |]. split; [reflexivity |]. repeat constructor. lia.
  - apply Nat.ltb_ge in Hshort.
    apply (wrap_loop_returns to_wrap (spaces indent_size) (width - indent_size) Hlf Hfit
             fuel 0%nat []).
    + lia.
    + lia.
    + left; reflexivity.
    + exact Hshort.
    + cbn [app join]. apply string_drop_0.
    + constructor.
Qed.

Lemma wrap_string_wraps_witness :
  exists lines,
    wrap_string 100 "The quick brown fox jumps over the lazy dog" 20 2
    = Some (map (String.append (spaces 2)) lines)
    /\ join " " lines = "The quick brown fox jumps over the lazy dog"
    /\ Forall (fun line => (String.length line <= 20 - 2)%nat) lines.
Proof.
  apply (wrap_string_wraps "The quick brown fox jumps over the lazy dog" 20 2 100).
  - reflexivity.
  - reflexivity.
  - reflexivity.
  - lia.
  - lia.
  - intros i Hi. do 25 (destruct i as [|i]; [vm_compute; discriminate |]).
    simpl in Hi. lia.
  - simpl; lia.
Defined.

(** X29. A placeholder that cannot be filled in is an error that leaves the line
    as it is: when the first [ENV{] of the line is not closed, closed at
    once (the name is empty), or names a variable that the environment does
    not define, the function returns [false] and the unchanged line. *)
Theorem substitute_envvar_failure getenv pre rest :
  (forall i, (i < String.length pre)%nat ->
     String.prefix "ENV{" (string_drop i (pre +:+ "ENV{" +:+ rest)) = false) ->
  find_char "}" rest = None
  \/ (exists post, rest = String "}" post)
  \/ (exists name post,
        rest = name +:+ String "}" post /\ find_char "}" name = None
        /\ getenv name = None) ->
  substitute_envvar getenv (pre +:+ "ENV{" +:+ rest) = (false, pre +:+ "ENV{" +:+ rest).
Proof.
  intros Hfirst Hcase. unfold substitute_envvar.
  rewrite (find_string_first "ENV{" pre rest Hfirst). cbv beta iota.
  assert (Hdrop : string_drop (String.length pre + 4) (pre +:+ "ENV{" +:+ rest) = rest).
  { rewrite string_drop_add. reflexivity. }
  unfold find_char_from. rewrite Hdrop.
  destruct Hcase as [Hopen | [[post ->] | (name & post & -> & Hclose & Henv)]].
  - rewrite Hopen. reflexivity.
  - cbn [find_char]. rewrite Ascii.eqb_refl. cbn [fmap option_fmap option_map].
    unfold substr. rewrite Hdrop.
    replace (String.length pre + 4 + 0 - String.length pre - 4)%nat with 0%nat by lia.
    reflexivity.
  - rewrite (find_char_append "}" name post Hclose). cbn [fmap option_fmap option_map].
    unfold substr. rewrite Hdrop.
    replace (String.length pre + 4 + String.length name - String.length pre - 4)%nat
      with (String.length name) by lia.
    rewrite string_take_append, Henv.
    destruct (String.eqb name ""); reflexivity.
Qed.

Lemma substitute_envvar_failure_witness :
  substitute_envvar (fun _ => None) ("dir=" +:+ "ENV{" +:+ "HOME}/x")
  = (false, "dir=" +:+ "ENV{" +:+ "HOME}/x").
Proof.
  apply (substitute_envvar_failure (fun _ => None) "dir=" "HOME}/x").
  - intros i Hi. do 4 (destruct i as [|i]; [reflexivity |]). simpl in Hi. lia.
  - right; right. exists "HOME", "/x". split; [reflexivity |]. split; reflexivity.
Defined.

End UtilsProperties.

(* ===================================================================== *)
(** * Part VI. Further properties of the resolver                         *)
(* ===================================================================== *)

Lemma feed_members_app primary pre post st :
  Forall well_formed pre ->
  exists st1,
    feed_rows (members_processor primary) pre st = (st1, Return tt)
    /\ feed_rows (members_processor primary) (pre ++ post)%list st
       = feed_rows (members_processor primary) post st1.
Proof.
  intros Hpre. revert st.
  induction Hpre as [|row pre (id & h & pt & s & fl & ->) _ IH]; intros st.
  - exists st. split; reflexivity.
  - simpl app. rewrite !feed_rows_cons, members_processor_well_formed. apply IH.
Qed.

Section ResolverFurther.

Context {Conn : Type}.
Variable run : Conn -> string -> Conn * reply.
Variable NDEBUG : bool.

Local Abbreviation find := (find_group_replication_primary_member run NDEBUG).
Local Abbreviation fetch := (fetch_group_replication_members run NDEBUG).

(** X1. An error of the session in either statement leaves the function as a
    [metadata_error] with the text of the session error; the error code is
    dropped, the caller's [single_master] is not written and nothing is
    logged. *)
Theorem session_error_is_metadata_error c sm c' msg code :
  run c primary_member_query = (c', inl (msg, code))
  \/ (exists c1 primary,
        find c = (c1, Return primary) /\ run c1 members_query = (c', inl (msg, code))) ->
  fetch c sm = FetchResult c' sm [] (Throw (metadata_error msg)).
Proof.
  intros [Hrun | (c1 & primary & Hfind & Hrun)].
  - unfold fetch_group_replication_members, find_group_replication_primary_member, query.
    rewrite Hrun. reflexivity.
  - unfold fetch_group_replication_members, query. rewrite Hfind, Hrun. reflexivity.
Qed.

(** X2. A status row that does not have exactly two fields makes the function
    throw a [metadata_error] that names the number of fields found, with
    assertions on or off; the membership statement is not sent, the caller's
    [single_master] is not written and nothing is logged. *)
Theorem status_row_field_count c trace sm c1 row rest :
  run c primary_member_query = (c1, inr (row :: rest)) ->
  length row <> 2%nat ->
  fetch_group_replication_members (traced run) NDEBUG (c, trace) sm
  = FetchResult (c1, (trace ++ [primary_member_query])%list) sm []
      (Throw (metadata_error
                ("Unexpected number of fields in the status response. Expected = 2, got = "
                 +:+ pretty (length row)))).
Proof.
  intros Hrun Hlen.
  unfold fetch_group_replication_members, find_group_replication_primary_member, query, traced.
  rewrite Hrun. rewrite feed_rows_cons. unfold primary_member_processor.
  apply Nat.eqb_neq in Hlen. rewrite Hlen. reflexivity.
Qed.

(** The primary lookup returns the empty string when the status result set
    is empty and when the value of its first row is null. *)
Lemma find_without_primary c c1 status :
  run c primary_member_query = (c1, inr status) ->
  status = []
  \/ (exists rest, status = [Some "group_replication_primary_member"; None] :: rest) ->
  find c = (c1, Return "").
Proof.
  intros Hrun [-> | [rest ->]];
    unfold find_group_replication_primary_member, query; rewrite Hrun.
  - reflexivity.
  - rewrite feed_rows_cons. unfold primary_member_processor. simpl.
    rewrite andb_false_r. reflexivity.
Qed.

(** X3. When the node reports no primary (the status result set is empty, or the
    value of its row is null) while the membership rows all carry a true
    single-primary flag, no member with a non-empty id is Primary: the
    function returns Secondary members only. *)
Theorem no_reported_primary_no_primary_member c sm c1 status c2 rows ms :
  run c primary_member_query = (c1, inr status) ->
  status = []
  \/ (exists rest, status = [Some "group_replication_primary_member"; None] :: rest) ->
  run c1 members_query = (c2, inr rows) ->
  (forall row, row ∈ rows -> single_primary_mode (flag_of row) = true) ->
  returned (fetch c sm) = Return ms ->
  forall id m, ms !! id = Some m -> id <> "" -> role m = Secondary.
Proof.
  intros Hstatus Hshape Hrun Hflags Hret id m Hm Hid.
  pose proof (find_without_primary c c1 status Hstatus Hshape) as Hfind.
  destruct (fetch_Return_inv run NDEBUG c sm ms Hret)
    as (c1' & primary & c2' & rows' & st & Hfind' & Hrun' & Hfeed & _ & ->).
  rewrite Hfind in Hfind'. injection Hfind' as <- <-.
  rewrite Hrun in Hrun'. injection Hrun' as <- <-.
  destruct (feed_members_Return _ _ _ _ Hfeed) as (Hmem & _ & _). simpl in Hmem.
  destruct (Hmem id m Hm) as [Hempty | (h & pt & s & flag & Hin & ->)].
  - rewrite lookup_empty in Hempty. discriminate.
  - specialize (Hflags _ Hin). unfold flag_of in Hflags. simpl in Hflags.
    unfold member_of. simpl. unfold member_role. rewrite Hflags.
    destruct (String.eqb "" id) eqn:E; [| reflexivity].
    apply String.eqb_eq in E. congruence.
Qed.

(** X30. Only the first row of the status result set is read.  When it has two
    fields its second field is the primary id (the empty string when the
    field is null); its first field is looked at by an [assert] only: with
    assertions on, any name other than group_replication_primary_member
    stops the process, and with assertions off the name is ignored. *)
Theorem status_first_row_decides c c1 name value rest :
  run c primary_member_query = (c1, inr ([name; value] :: rest)) ->
  find c
  = (c1,
     if NDEBUG || bool_decide (name = Some "group_replication_primary_member")
     then Return (default "" value)
     else Abort).
Proof.
  intros Hrun. unfold find_group_replication_primary_member, query.
  rewrite Hrun, feed_rows_cons. unfold primary_member_processor.
  cbn [length Nat.eqb negb lookup list_lookup].
  destruct NDEBUG; cbn [negb andb orb].
  - destruct value; reflexivity.
  - destruct (decide (name = Some "group_replication_primary_member")) as [-> | Hne].
    + rewrite !bool_decide_eq_true_2 by reflexivity. destruct value; reflexivity.
    + rewrite !bool_decide_eq_false_2 by congruence. reflexivity.
Qed.

Lemma members_processor_field_count primary st row :
  length row <> 5%nat ->
  members_processor primary st row
  = (st, Throw (metadata_error
                  ("Unexpected number of fields in resultset from group_replication query. "
                   +:+ "Expected = 5, got = " +:+ pretty (length row)))).
Proof.
  intros Hlen. destruct row as [|f0 [|f1 [|f2 [|f3 [|f4 [|f5 row]]]]]]; try reflexivity.
  simpl in Hlen. congruence.
Qed.

(** X4. A membership row that does not have exactly five fields makes the
    function throw a [metadata_error] that names the number of fields
    found.  Unlike a row with a null field, the row is not logged and its
    flag is not read: [single_master] keeps the value of the row before it,
    or the caller's value when there is none. *)
Theorem membership_row_field_count c sm c1 primary c2 pre row post :
  find c = (c1, Return primary) ->
  run c1 members_query = (c2, inr (pre ++ row :: post)%list) ->
  Forall well_formed pre ->
  length row <> 5%nat ->
  fetch c sm
  = FetchResult c2
      match last pre with
      | Some before => single_primary_mode (flag_of before)
      | None => sm
      end
      (concat (map unknown_state_log pre))
      (Throw (metadata_error
                ("Unexpected number of fields in resultset from group_replication query. Expected = 5, got = "
                 +:+ pretty (length row)))).
Proof.
  intros Hfind Hrun Hpre Hlen.
  rewrite (fetch_unfold run NDEBUG c sm c1 primary c2 _ Hfind Hrun).
  destruct (feed_members_app primary pre (row :: post) (FetchState ∅ sm []) Hpre)
    as (st1 & Hfeed & ->).
  destruct (feed_members_Return _ _ _ _ Hfeed) as (_ & Hsm & Hlog). simpl in Hsm, Hlog.
  rewrite feed_rows_cons, (members_processor_field_count primary st1 row Hlen).
  rewrite Hsm, Hlog. reflexivity.
Qed.

(** X7. When several rows carry the same member id, the map holds the member
    built from the last of them: a later row replaces what an earlier row
    with the same id stored. *)
Theorem last_row_of_an_id_wins c sm c1 primary c2 pre id h pt s flag post ms :
  find c = (c1, Return primary) ->
  run c1 members_query
  = (c2, inr (pre ++ [Some id; Some h; Some pt; Some s; flag] :: post)%list) ->
  (forall row, row ∈ post -> row !! 0%nat <> Some (Some id)) ->
  returned (fetch c sm) = Return ms ->
  ms !! id = Some (member_of primary id h pt s flag).
Proof.
  intros Hfind Hrun Hpost Hret.
  rewrite (fetch_unfold run NDEBUG c sm c1 primary c2 _ Hfind Hrun) in Hret.
  destruct (feed_members_outcome primary
              (pre ++ [Some id; Some h; Some pt; Some s; flag] :: post)%list
              (FetchState ∅ sm []))
    as [[Hall [st E]] | [_ (st & msg & E)]]; rewrite E in Hret; simpl in Hret;
    [| discriminate].
  injection Hret as <-.
  apply Forall_app in Hall as [Hpre _].
  destruct (feed_members_app primary pre
              ([Some id; Some h; Some pt; Some s; flag] :: post) (FetchState ∅ sm []) Hpre)
    as (st1 & _ & Happ).
  pose proof (eq_trans (eq_sym Happ) E) as E'. clear E Happ.
  rewrite feed_rows_cons, members_processor_well_formed in E'.
  destruct (feed_members_dom _ _ _ _ E') as [Hgrow _].
  destruct (feed_members_Return _ _ _ _ E') as (Hmem & _ & _).
  simpl in Hgrow, Hmem.
  destruct (Hgrow id) as [m Hm]; [rewrite lookup_insert_eq; eauto |].
  rewrite Hm. destruct (Hmem id m Hm) as [Hold | (h' & pt' & s' & flag' & Hin & _)].
  - rewrite lookup_insert_eq in Hold. symmetry. exact Hold.
  - exfalso. apply (Hpost _ Hin). reflexivity.
Qed.

(** X8. The port of a returned member is the port text of the last row of
    the membership result set that carries its id, read as [atoi] reads it
    and narrowed to 16 bits: it always lies between 0 and 65535, and a
    decimal number outside that range is not rejected but taken modulo
    65536. *)
Theorem member_port_is_narrowed c sm c1 primary c2 rows ms id m :
  find c = (c1, Return primary) ->
  run c1 members_query = (c2, inr rows) ->
  returned (fetch c sm) = Return ms ->
  ms !! id = Some m ->
  (0 <= port m < 65536)%Z
  /\ exists pre h pt s flag post,
       rows = (pre ++ [Some id; Some h; Some pt; Some s; flag] :: post)%list
       /\ (forall row, row ∈ post -> row !! 0%nat <> Some (Some id))
       /\ port m = (atoi pt mod 65536)%Z
       /\ (Utils.only_digits pt = true -> (String.length pt <= 9)%nat ->
           port m = (digits_value pt 0 mod 65536)%Z).
Proof.
  intros Hfind Hrun Hret Hm.
  destruct (fetch_Return_inv run NDEBUG c sm ms Hret)
    as (c1' & primary' & c2' & rows' & st & Hfind' & Hrun' & Hfeed & _ & ->).
  rewrite Hfind in Hfind'. injection Hfind' as <- <-.
  rewrite Hrun in Hrun'. injection Hrun' as <- <-.
  destruct (feed_members_last _ _ _ _ Hfeed id m Hm)
    as [[Hempty _] | (pre & h & pt & s & flag & post & Hrows & Hpost & ->)].
  { simpl in Hempty. rewrite lookup_empty in Hempty. discriminate. }
  unfold member_of. cbn [port]. unfold to_uint16.
  split; [apply Z.mod_pos_bound; lia |].
  exists pre, h, pt, s, flag, post.
  split; [exact Hrows |]. split; [exact Hpost |]. split; [reflexivity |].
  intros Hd Hlen. unfold atoi.
  destruct (UtilsProperties.strtol_digits pt Hd ltac:(lia)) as [-> Hb].
  assert (Hp : (10 ^ Z.of_nat (String.length pt) <= 10 ^ 9)%Z)
    by (apply Z.pow_le_mono_r; lia).
  rewrite UtilsProperties.to_int_small by lia. reflexivity.
Qed.

End ResolverFurther.

(** ** Witnesses *)

Lemma session_error_is_metadata_error_witness :
  fetch_group_replication_members replay true lost_connection_session false
  = FetchResult [] false []
      (Throw (metadata_error "Lost connection to MySQL server during query")).
Proof.
  apply (session_error_is_metadata_error replay true lost_connection_session false []
           "Lost connection to MySQL server during query" 2013%Z).
  right. eexists _, _. split; vm_compute; reflexivity.
Defined.

Lemma status_row_field_count_witness :
  fetch_group_replication_members (traced replay) false (bad_status_session, []) true
  = FetchResult ([], ([] ++ [primary_member_query])%list) true []
      (Throw (metadata_error
                ("Unexpected number of fields in the status response. Expected = 2, got = "
                 +:+ pretty (length [Some "group_replication_primary_member";
                                     Some "a"; Some "b"])))).
Proof.
  apply (status_row_field_count replay false bad_status_session [] true []
           [Some "group_replication_primary_member"; Some "a"; Some "b"] []).
  - vm_compute; reflexivity.
  - simpl; lia.
Defined.

Lemma no_reported_primary_no_primary_member_witness :
  role (Build "4c08b4a2-861d-11e6-a256-08002741aeb6" "ubuntu" 3330 Online Secondary)
  = Secondary.
Proof.
  apply (no_reported_primary_no_primary_member replay true no_primary_session false
           [expect_query members_query sample_rows] [] [] sample_rows no_primary_members)
    with (id := "4c08b4a2-861d-11e6-a256-08002741aeb6").
  - vm_compute; reflexivity.
  - left; reflexivity.
  - vm_compute; reflexivity.
  - intros row Hin. unfold sample_rows in Hin.
    repeat (apply elem_of_cons in Hin as [-> | Hin]; [reflexivity |]). inversion Hin.
  - vm_compute; reflexivity.
  - vm_compute; reflexivity.
  - discriminate.
Defined.

Lemma membership_row_field_count_witness :
  fetch_group_replication_members replay true short_row_session false
  = FetchResult []
      match last [[Some "a"; Some "ubuntu"; Some "3310"; Some "STARTING"; Some "ON"]] with
      | Some before => single_primary_mode (flag_of before)
      | None => false
      end
      (concat (map unknown_state_log
                 [[Some "a"; Some "ubuntu"; Some "3310"; Some "STARTING"; Some "ON"]]))
      (Throw (metadata_error
                ("Unexpected number of fields in resultset from group_replication query. Expected = 5, got = "
                 +:+ pretty (length [Some "b"; Some "ubuntu"; Some "3320"; Some "ONLINE"])))).
Proof.
  apply (membership_row_field_count replay true short_row_session false
           [expect_query members_query short_row_rows] "a" []
           [[Some "a"; Some "ubuntu"; Some "3310"; Some "STARTING"; Some "ON"]]
           [Some "b"; Some "ubuntu"; Some "3320"; Some "ONLINE"] []).
  - vm_compute; reflexivity.
  - vm_compute; reflexivity.
  - repeat constructor; unfold well_formed; eauto 10.
  - simpl; lia.
Defined.

Lemma last_row_of_an_id_wins_witness :
  duplicate_members !! "a" = Some (member_of "a" "a" "new" "70000" "ONLINE" (Some "1")).
Proof.
  apply (last_row_of_an_id_wins replay true duplicate_session false
           [expect_query members_query duplicate_rows] "a" []
           [[Some "a"; Some "old"; Some "3310"; Some "RECOVERING"; Some "1"];
            [Some "b"; Some "ubuntu"; Some "3320"; Some "ONLINE"; Some "1"]]
           "a" "new" "70000" "ONLINE" (Some "1") [] duplicate_members).
  - vm_compute; reflexivity.
  - vm_compute; reflexivity.
  - intros row Hin. inversion Hin.
  - vm_compute; reflexivity.
Defined.

Lemma member_port_is_narrowed_witness :
  (0 <= port (Build "a" "new" 4464 Online Primary) < 65536)%Z
  /\ exists pre h pt s flag post,
       duplicate_rows = (pre ++ [Some "a"; Some h; Some pt; Some s; flag] :: post)%list
       /\ (forall row, row ∈ post -> row !! 0%nat <> Some (Some "a"))
       /\ port (Build "a" "new" 4464 Online Primary) = (atoi pt mod 65536)%Z
       /\ (Utils.only_digits pt = true -> (String.length pt <= 9)%nat ->
           port (Build "a" "new" 4464 Online Primary) = (digits_value pt 0 mod 65536)%Z).
Proof.
  apply (member_port_is_narrowed replay true duplicate_session false
           [expect_query members_query duplicate_rows] "a" [] duplicate_rows
           duplicate_members "a" (Build "a" "new" 4464 Online Primary)).
  - vm_compute; reflexivity.
  - vm_compute; reflexivity.
  - vm_compute; reflexivity.
  - vm_compute; reflexivity.
Defined.

Lemma fetch_stores_every_row_witness :
  exists ms,
    returned (fetch_group_replication_members replay true sample_session false) = Return ms
    /\ log_out (fetch_group_replication_members replay true sample_session false)
       = concat (map unknown_state_log sample_rows)
    /\ forall row, row ∈ sample_rows ->
         exists id, row !! 0%nat = Some (Some id) /\ is_Some (ms !! id).
Proof.
  apply (fetch_stores_every_row replay true sample_session false
           [expect_query members_query sample_rows]
           "3acfe4ca-861d-11e6-9e56-08002741aeb6" [] sample_rows).
  - vm_compute; reflexivity.
  - vm_compute; reflexivity.
  - repeat constructor; unfold well_formed; eauto 10.
Defined.

Lemma null_field_first_bad_row_witness :
  fetch_group_replication_members replay true null_host_session false
  = FetchResult [] (single_primary_mode (Some "1"))
      (concat (map unknown_state_log
                 [[Some "3acfe4ca-861d-11e6-9e56-08002741aeb6"; Some "ubuntu"; Some "3320";
                   Some "ONLINE"; Some "1"]]) ++
       [(LogWarning,
         "Query " +:+ members_query +:+ " returned "
         +:+ show_field (Some "4c08b4a2-861d-11e6-a256-08002741aeb6") +:+ ", "
         +:+ show_field None +:+ ", "
         +:+ show_field (Some "3330") +:+ ", " +:+ show_field (Some "ONLINE") +:+ ", "
         +:+ show_field (Some "1"))])%list
      (Throw (metadata_error "Unexpected value in group_replication_metadata query results")).
Proof.
  apply (null_field_first_bad_row replay true null_host_session false
           [expect_query members_query null_host_rows]
           "3acfe4ca-861d-11e6-9e56-08002741aeb6" []
           [[Some "3acfe4ca-861d-11e6-9e56-08002741aeb6"; Some "ubuntu"; Some "3320";
             Some "ONLINE"; Some "1"]]
           (Some "4c08b4a2-861d-11e6-a256-08002741aeb6") None (Some "3330")
           (Some "ONLINE") (Some "1") []).
  - vm_compute; reflexivity.
  - vm_compute; reflexivity.
  - repeat constructor; unfold well_formed; eauto 10.
  - right; left; reflexivity.
Defined.

Lemma status_first_row_decides_witness :
  find_group_replication_primary_member replay false
    [expect_query primary_member_query
       [[Some "Variable_name"; Some "a"]; [Some "x"; Some "y"; Some "z"]]]
  = ([],
     if false || bool_decide (Some "Variable_name" = Some "group_replication_primary_member")
     then Return (default "" (Some "a"))
     else Abort).
Proof.
  apply (status_first_row_decides replay false
           [expect_query primary_member_query
              [[Some "Variable_name"; Some "a"]; [Some "x"; Some "y"; Some "z"]]]
           [] (Some "Variable_name") (Some "a") [[Some "x"; Some "y"; Some "z"]]).
  vm_compute; reflexivity.
Defined.
